(** * LifeOS backend: a shallow embedding of the metrics and report engine

    The development follows [backend/services.py], [backend/models.py] and
    the weekly job of [backend/main.py]:

    - Python values the services compute with: exceptions, [int] as [Z],
      [float] as IEEE-754 binary64 ([spec_float] with [prec = 53] and
      [emax = 1024]), [datetime.date] as its proleptic Gregorian ordinal;
    - the ORM tables as lists of rows in insertion (rowid) order;
    - the services as functions over an explicit [Session];
    - the properties of the streak calculator, the dashboard, the weekly
      report and the habit log upsert;
    - the task, habit, report and token services around them, the routes
      of [backend/main.py] that call them, and their properties. *)

From Stdlib Require Import ZArith List Bool String Ascii Lia Sorted
  Permutation.
From Stdlib Require Import Numbers.DecimalString.
From Stdlib Require Import Floats.SpecFloat.
Import ListNotations.

Local Open Scope string_scope.
Local Open Scope Z_scope.
Local Open Scope list_scope.

(* ===================================================================== *)
(** ** Exceptions and the result of a call *)
(* ===================================================================== *)

(** The exceptions the modelled code can raise.  The string is what
    [str(e)] gives, which the weekly job writes into its log. *)
Inductive exception : Type :=
| OverflowError (msg : string)
| ZeroDivisionError (msg : string)
| ValueError (msg : string).

Definition exception_str (e : exception) : string :=
  match e with
  | OverflowError m | ZeroDivisionError m | ValueError m => m
  end.

Definition is_ZeroDivisionError (e : exception) : bool :=
  match e with ZeroDivisionError _ => true | _ => false end.

(** A call either returns a value or raises. *)
Inductive result (A : Type) : Type :=
| Ok (a : A)
| Raise (e : exception).

Arguments Ok {A} a.
Arguments Raise {A} e.

Definition bind {A B : Type} (m : result A) (k : A -> result B) : result B :=
  match m with
  | Ok a => k a
  | Raise e => Raise e
  end.

Notation "x <- m ;; k" := (bind m (fun x => k))
  (at level 61, m at next level, right associativity).
Notation "' p <- m ;; k" := (bind m (fun x => let p := x in k))
  (at level 61, p pattern, m at next level, right associativity).

Definition raises {A : Type} (m : result A) : bool :=
  match m with Ok _ => false | Raise _ => true end.

(** [m] does not end in a [ZeroDivisionError]. *)
Definition no_zero_division {A : Type} (m : result A) : Prop :=
  match m with
  | Ok _ => True
  | Raise e => is_ZeroDivisionError e = false
  end.

(* ===================================================================== *)
(** ** Strings *)
(* ===================================================================== *)

(** [str(n)] for a Python [int]. *)
Definition str_of_int (n : Z) : string :=
  NilZero.string_of_int (Z.to_int n).

(** [s.split(c)[0]]: the part of [s] before the first [c], all of [s]
    when [c] does not occur. *)
Fixpoint split_first (c : ascii) (s : string) : string :=
  match s with
  | EmptyString => EmptyString
  | String a rest =>
      if Ascii.eqb a c then EmptyString else String a (split_first c rest)
  end.

(** Truth value of a [str]: the empty string is falsy. *)
Definition str_truthy (s : string) : bool :=
  match s with EmptyString => false | _ => true end.

(** U+2014 EM DASH in UTF-8, as it stands in the source's literals. *)
Definition em_dash : string :=
  String "226"%char (String "128"%char (String "148"%char EmptyString)).

Definition newline : string := String "010"%char EmptyString.

(* ===================================================================== *)
(** ** [datetime.date] and [timedelta] *)
(* ===================================================================== *)

(** A [date] is its ordinal ([date.toordinal()]): day 1 is 0001-01-01,
    the last one 9999-12-31.  A [timedelta(days=n)] is the integer [n]. *)
Definition date : Type := Z.
Definition timedelta : Type := Z.

Definition _MAXORDINAL : Z := 3652059.

Definition valid_date (d : date) : Prop := 1 <= d <= _MAXORDINAL.

(** [d - timedelta(days=n)]: out of the supported range it raises. *)
Definition date_sub (d : date) (days : timedelta) : result date :=
  let o := d - days in
  if (0 <? o) && (o <=? _MAXORDINAL) then Ok o
  else Raise (OverflowError "date value out of range").

(** [date.weekday()]: Monday is 0, Sunday is 6. *)
Definition weekday (d : date) : Z := (d + 6) mod 7.

Definition _is_leap (year : Z) : bool :=
  (year mod 4 =? 0) && (negb (year mod 100 =? 0) || (year mod 400 =? 0)).

Definition _days_before_year (year : Z) : Z :=
  let y := year - 1 in
  y * 365 + y / 4 - y / 100 + y / 400.

Definition _DAYS_IN_MONTH : list Z :=
  [-1; 31; 28; 31; 30; 31; 30; 31; 31; 30; 31; 30; 31].

Definition _DAYS_BEFORE_MONTH : list Z :=
  [-1; 0; 31; 59; 90; 120; 151; 181; 212; 243; 273; 304; 334].

Definition _days_before_month (year month : Z) : Z :=
  nth (Z.to_nat month) _DAYS_BEFORE_MONTH 0
  + (if (2 <? month) && _is_leap year then 1 else 0).

(** [date(year, month, day).toordinal()]. *)
Definition _ymd2ord (year month day : Z) : date :=
  _days_before_year year + _days_before_month year month + day.

(** The inverse, [(year, month, day)] of an ordinal. *)
Definition _ord2ymd (d : date) : Z * Z * Z :=
  let n := d - 1 in
  let n400 := n / 146097 in
  let n := n mod 146097 in
  let year := n400 * 400 + 1 in
  let n100 := n / 36524 in
  let n := n mod 36524 in
  let n4 := n / 1461 in
  let n := n mod 1461 in
  let n1 := n / 365 in
  let n := n mod 365 in
  let year := year + n100 * 100 + n4 * 4 + n1 in
  if (n1 =? 4) || (n100 =? 4) then (year - 1, 12, 31)
  else
    let leapyear := (n1 =? 3) && (negb (n4 =? 24) || (n100 =? 3)) in
    let month := Z.shiftr (n + 50) 5 in
    let preceding :=
      nth (Z.to_nat month) _DAYS_BEFORE_MONTH 0
      + (if (2 <? month) && leapyear then 1 else 0) in
    if n <? preceding then
      let month := month - 1 in
      let preceding :=
        preceding
        - (nth (Z.to_nat month) _DAYS_IN_MONTH 0
           + (if (month =? 2) && leapyear then 1 else 0)) in
      (year, month, n - preceding + 1)
    else (year, month, n - preceding + 1).

Definition _MONTHNAMES : list string :=
  [""; "Jan"; "Feb"; "Mar"; "Apr"; "May"; "Jun";
   "Jul"; "Aug"; "Sep"; "Oct"; "Nov"; "Dec"].

(** Two-digit, zero-padded day of the month ([%d]). *)
Definition two_digits (n : Z) : string :=
  if n <? 10 then ("0" ++ str_of_int n)%string else str_of_int n.

(** [d.strftime('%b %d')] in the C locale. *)
Definition strftime_b_d (d : date) : string :=
  let '(_, m, day) := _ord2ymd d in
  (nth (Z.to_nat m) _MONTHNAMES "" ++ " " ++ two_digits day)%string.

(** [d.strftime('%b %d, %Y')]; the year is printed as glibc does, without
    padding. *)
Definition strftime_b_d_Y (d : date) : string :=
  let '(y, _, _) := _ord2ymd d in
  (strftime_b_d d ++ ", " ++ str_of_int y)%string.

(* ===================================================================== *)
(** ** Python numbers: [int] and [float] *)
(* ===================================================================== *)

(** A [float] is an IEEE-754 binary64 value. *)
Definition float : Type := spec_float.
Definition prec : Z := 53.
Definition emax : Z := 1024.

Definition float_mul : float -> float -> float := SFmul prec emax.
Definition float_add : float -> float -> float := SFadd prec emax.
Definition float_leb : float -> float -> bool := SFleb.

(** [float(n)] for an [int], correctly rounded. *)
Definition float_of_int (n : Z) : float := binary_normalize prec emax n 0 false.

(** The binary64 value nearest to the rational [n / d]. *)
Definition float_of_ratio (n : Z) (d : positive) : float :=
  match n with
  | Z0 => S754_zero false
  | Zpos p =>
      let '(m, e, l) := SFdiv_core_binary prec emax (Zpos p) 0 (Zpos d) 0 in
      binary_round_aux prec emax false m e l
  | Zneg p =>
      let '(m, e, l) := SFdiv_core_binary prec emax (Zpos p) 0 (Zpos d) 0 in
      binary_round_aux prec emax true m e l
  end.

(** [a / b] on two [int]s: true division, correctly rounded, raising on a
    zero divisor. *)
Definition int_truediv (a b : Z) : result float :=
  match b with
  | Z0 => Raise (ZeroDivisionError "division by zero")
  | Zpos d => Ok (float_of_ratio a d)
  | Zneg d =>
      Ok (match a with
          | Z0 => S754_zero true
          | _ => float_of_ratio (- a) d
          end)
  end.

(** The literals [0.6] (0x3FE3333333333333) and [0.4]
    (0x3FD999999999999A). *)
Definition lit_0_6 : float := S754_finite false 5404319552844595 (-53).
Definition lit_0_4 : float := S754_finite false 7205759403792794 (-54).

(** A value that is an [int] or a [float]: what [round(.., 1)] returns
    depends on which one it is given. *)
Inductive number : Type :=
| Int (n : Z)
| Float (x : float).

(** The left operand of [n * 0.6]: an [int] is converted first. *)
Definition number_to_float (n : number) : float :=
  match n with
  | Int z => float_of_int z
  | Float x => x
  end.

(** The integer nearest to [m / d] for [d > 0], ties to the even one. *)
Definition round_half_even (m d : Z) : Z :=
  let q := m / d in
  let r := m mod d in
  match 2 * r ?= d with
  | Lt => q
  | Gt => q + 1
  | Eq => if Z.even q then q else q + 1
  end.

(** [round(x)] on a [float]: an [int], ties to even. *)
Definition round_float (x : float) : result Z :=
  match x with
  | S754_zero _ => Ok 0
  | S754_infinity _ =>
      Raise (OverflowError "cannot convert float infinity to integer")
  | S754_nan => Raise (ValueError "cannot convert float NaN to integer")
  | S754_finite s m e =>
      let v := if 0 <=? e then Zpos m * 2 ^ e
               else round_half_even (Zpos m) (2 ^ (- e)) in
      Ok (if s then - v else v)
  end.

(** [round(n)]. *)
Definition py_round (n : number) : result Z :=
  match n with
  | Int z => Ok z
  | Float x => round_float x
  end.

(** [round(x, 1)] on a [float]: the binary64 value nearest to [x] rounded
    to one decimal (ties to even on the exact value of [x]). *)
Definition round_float_1 (x : float) : float :=
  match x with
  | S754_finite s m e =>
      if 0 <=? e then x
      else
        match round_half_even (10 * Zpos m) (2 ^ (- e)) with
        | Z0 => S754_zero s
        | k => if s then SFopp (float_of_ratio k 10) else float_of_ratio k 10
        end
  | _ => x
  end.

(** [round(n, 1)]: an [int] stays an [int]. *)
Definition py_round_1 (n : number) : number :=
  match n with
  | Int z => Int z
  | Float x => Float (round_float_1 x)
  end.

(** [len(xs)]. *)
Definition len {A : Type} (xs : list A) : Z := Z.of_nat (List.length xs).

(** [sum(1 for x in xs if p(x))]. *)
Definition count_if {A : Type} (p : A -> bool) (xs : list A) : Z :=
  len (filter p xs).

(* ===================================================================== *)
(** ** The ORM models ([models.py]) *)
(* ===================================================================== *)

(** A [DateTime] column: seconds since the epoch. *)
Definition datetime : Type := Z.

Module User.
Record t : Type := mk {
  id : Z;
  name : string;
  email : string;
  password_hash : string;
  role : string;
  created_at : datetime
}.
End User.

Module Task.
Record t : Type := mk {
  id : Z;
  title : string;
  description : option string;
  status : string;
  due_date : option datetime;
  priority : string;
  is_deleted : bool;
  created_at : datetime;
  user_id : Z
}.
End Task.

Module Habit.
Record t : Type := mk {
  id : Z;
  name : string;
  target_type : string;
  is_deleted : bool;
  created_at : datetime;
  user_id : Z
}.

Definition set_name (h : t) (new_name : string) : t :=
  mk (id h) new_name (target_type h) (is_deleted h) (created_at h) (user_id h).
End Habit.

Module HabitLog.
Record t : Type := mk {
  id : Z;
  habit_id : Z;
  date : date;
  completed : bool
}.

Definition set_completed (l : t) (c : bool) : t :=
  mk (id l) (habit_id l) (date l) c.
End HabitLog.

Module WeeklyReport.
Record t : Type := mk {
  id : Z;
  user_id : Z;
  week_start : date;
  week_end : date;
  report : string;
  score : Z;
  created_at : datetime
}.

Definition set_report_score (r : t) (text : string) (s : Z) : t :=
  mk (id r) (user_id r) (week_start r) (week_end r) text s (created_at r).
End WeeklyReport.

(** The database behind a [Session]: one list of rows per table, in
    insertion order. *)
Record Session : Type := mkSession {
  users : list User.t;
  tasks : list Task.t;
  habits : list Habit.t;
  habit_logs : list HabitLog.t;
  weekly_reports : list WeeklyReport.t
}.

Definition with_habits (db : Session) (hs : list Habit.t) : Session :=
  mkSession (users db) (tasks db) hs (habit_logs db) (weekly_reports db).

Definition with_habit_logs (db : Session) (ls : list HabitLog.t) : Session :=
  mkSession (users db) (tasks db) (habits db) ls (weekly_reports db).

Definition with_weekly_reports (db : Session) (rs : list WeeklyReport.t)
  : Session :=
  mkSession (users db) (tasks db) (habits db) (habit_logs db) rs.

(** The primary key an insert gets: one more than the largest in use. *)
Definition next_id (ids : list Z) : Z := 1 + fold_right Z.max 0 ids.

(** [query.first()]. *)
Definition first {A : Type} (p : A -> bool) (rows : list A) : option A :=
  find p rows.

(** An [UPDATE ... WHERE id = k] sent by [commit]. *)
Definition update_row {A : Type} (key : A -> Z) (k : Z) (f : A -> A)
  (rows : list A) : list A :=
  map (fun r => if key r =? k then f r else r) rows.

(** [order_by(HabitLog.date.desc())]: a stable sort, newest first. *)
Fixpoint insert_date_desc (l : HabitLog.t) (sorted : list HabitLog.t)
  : list HabitLog.t :=
  match sorted with
  | [] => [l]
  | x :: rest =>
      if HabitLog.date x <=? HabitLog.date l then l :: sorted
      else x :: insert_date_desc l rest
  end.

Definition order_by_date_desc (ls : list HabitLog.t) : list HabitLog.t :=
  fold_right insert_date_desc [] ls.

(* ===================================================================== *)
(** ** Habit services ([services.py]) *)
(* ===================================================================== *)

(** The loop of [_calculate_streak], with its three local variables.  A
    [break] returns what has been counted so far. *)
Fixpoint _calculate_streak_loop (logs : list HabitLog.t) (today : date)
  (streak : Z) (is_logged_today : bool) (check_date : date)
  : result (Z * bool) :=
  match logs with
  | [] => Ok (streak, is_logged_today)
  | log :: rest =>
      if HabitLog.date log =? today then
        check_date' <- date_sub today 1 ;;
        _calculate_streak_loop rest today (streak + 1) true check_date'
      else if HabitLog.date log =? check_date then
        check_date' <- date_sub check_date 1 ;;
        _calculate_streak_loop rest today (streak + 1) is_logged_today
          check_date'
      else if HabitLog.date log <? check_date then
        Ok (streak, is_logged_today)
      else
        _calculate_streak_loop rest today streak is_logged_today check_date
  end.

(** [_calculate_streak(logs, today)]: [(streak_count, is_logged_today)]. *)
Definition _calculate_streak (logs : list HabitLog.t) (today : date)
  : result (Z * bool) :=
  _calculate_streak_loop logs today 0 false today.

(** The query run for each habit by [get_habits], [get_dashboard] and
    [generate_weekly_report]: the habit's completed logs, newest first. *)
Definition query_completed_logs (db : Session) (habit_id : Z)
  : list HabitLog.t :=
  order_by_date_desc
    (filter (fun l => (HabitLog.habit_id l =? habit_id) && HabitLog.completed l)
       (habit_logs db)).

(** The query that opens [edit_habit], [delete_habit] and [log_habit]. *)
Definition query_habit (db : Session) (habit_id user_id : Z)
  : option Habit.t :=
  first (fun h => (Habit.id h =? habit_id) && (Habit.user_id h =? user_id)
                  && negb (Habit.is_deleted h))
    (habits db).

(** The dict that [create_habit], [edit_habit] and [get_habits] return for
    a habit. *)
Module HabitResponse.
Record t : Type := mk {
  id : Z;
  name : string;
  target_type : string;
  user_id : Z;
  current_streak : Z;
  is_logged_today : bool
}.
End HabitResponse.

Definition edit_habit (db : Session) (habit_id user_id : Z)
  (new_name : string) : Session * option HabitResponse.t :=
  match query_habit db habit_id user_id with
  | None => (db, None)
  | Some habit =>
      let db' :=
        with_habits db
          (update_row Habit.id (Habit.id habit)
             (fun h => Habit.set_name h new_name) (habits db)) in
      let habit := Habit.set_name habit new_name in
      (db',
       Some (HabitResponse.mk (Habit.id habit) (Habit.name habit)
               (Habit.target_type habit) (Habit.user_id habit) 0 false))
  end.

Definition log_habit (db : Session) (habit_id : Z) (log_date : date)
  (completed : bool) (user_id : Z) : Session * option HabitLog.t :=
  match query_habit db habit_id user_id with
  | None => (db, None)
  | Some _ =>
      match first (fun l => (HabitLog.habit_id l =? habit_id)
                            && (HabitLog.date l =? log_date))
              (habit_logs db) with
      | Some existing =>
          (with_habit_logs db
             (update_row HabitLog.id (HabitLog.id existing)
                (fun l => HabitLog.set_completed l completed)
                (habit_logs db)),
           Some (HabitLog.set_completed existing completed))
      | None =>
          let new_log :=
            HabitLog.mk (next_id (map HabitLog.id (habit_logs db)))
              habit_id log_date completed in
          (with_habit_logs db (habit_logs db ++ [new_log]), Some new_log)
      end
  end.

(* ===================================================================== *)
(** ** Dashboard service *)
(* ===================================================================== *)

Definition query_tasks (db : Session) (user_id : Z) : list Task.t :=
  filter (fun t => (Task.user_id t =? user_id) && negb (Task.is_deleted t))
    (tasks db).

Definition query_habits (db : Session) (user_id : Z) : list Habit.t :=
  filter (fun h => (Habit.user_id h =? user_id) && negb (Habit.is_deleted h))
    (habits db).

(** [db.query(HabitLog).join(Habit)]: each log with the habit it
    references. *)
Definition join_habit (db : Session) : list (HabitLog.t * Habit.t) :=
  flat_map
    (fun l => map (fun h => (l, h))
                (filter (fun h => Habit.id h =? HabitLog.habit_id l)
                   (habits db)))
    (habit_logs db).

(** The count of the user's completed logs of non-deleted habits whose
    date passes [in_range]. *)
Definition count_logs (db : Session) (user_id : Z) (in_range : date -> bool)
  : Z :=
  len (filter
         (fun lh : HabitLog.t * Habit.t =>
            let (l, h) := lh in
            (Habit.user_id h =? user_id) && negb (Habit.is_deleted h)
            && HabitLog.completed l && in_range (HabitLog.date l))
         (join_habit db)).

(** [(part / total * 100) if total else 0]. *)
Definition percentage (part total : Z) : result number :=
  if negb (total =? 0) then
    q <- int_truediv part total ;;
    Ok (Float (float_mul q (float_of_int 100)))
  else Ok (Int 0).

(** [round((task_rate * 0.6) + (habit_rate * 0.4))]. *)
Definition productivity (task_rate habit_rate : number) : result Z :=
  py_round
    (Float (float_add (float_mul (number_to_float task_rate) lit_0_6)
              (float_mul (number_to_float habit_rate) lit_0_4))).

Module CurrentStreak.
Record t : Type := mk {
  name : string;
  streak : Z;
  logged_today : bool
}.
End CurrentStreak.

Module Dashboard.
Record t : Type := mk {
  total_tasks : Z;
  completed_tasks : Z;
  pending_tasks : Z;
  task_completion_rate : number;
  total_habits : Z;
  habits_logged_today : Z;
  habit_consistency_rate : number;
  productivity_score : Z;
  current_streaks : list CurrentStreak.t
}.
End Dashboard.

(** The [for habit in all_habits] loop of [get_dashboard]. *)
Fixpoint dashboard_streaks (db : Session) (today : date)
  (all_habits : list Habit.t) (habits_logged_today : Z)
  (current_streaks : list CurrentStreak.t)
  : result (Z * list CurrentStreak.t) :=
  match all_habits with
  | [] => Ok (habits_logged_today, current_streaks)
  | habit :: rest =>
      let logs := query_completed_logs db (Habit.id habit) in
      ' (streak, is_logged_today) <- _calculate_streak logs today ;;
      dashboard_streaks db today rest
        (if is_logged_today then habits_logged_today + 1
         else habits_logged_today)
        (current_streaks
         ++ [CurrentStreak.mk (Habit.name habit) streak is_logged_today])
  end.

(** [get_dashboard(db, user_id)], with the day [date.today()] returns. *)
Definition get_dashboard (db : Session) (user_id : Z) (today : date)
  : result Dashboard.t :=
  week_start <- date_sub today (weekday today) ;;
  let all_tasks := query_tasks db user_id in
  let total_tasks := len all_tasks in
  let completed_tasks :=
    count_if (fun t => String.eqb (Task.status t) "completed") all_tasks in
  let pending_tasks := total_tasks - completed_tasks in
  task_pct <- percentage completed_tasks total_tasks ;;
  let task_rate := py_round_1 task_pct in
  let all_habits := query_habits db user_id in
  let total_habits := len all_habits in
  ' (habits_logged_today, current_streaks) <-
    dashboard_streaks db today all_habits 0 [] ;;
  let total_possible :=
    if negb (total_habits =? 0) then total_habits * 7 else 0 in
  let logs_this_week :=
    count_logs db user_id (fun d => week_start <=? d) in
  habit_pct <- percentage logs_this_week total_possible ;;
  let habit_rate := py_round_1 habit_pct in
  productivity_score <- productivity task_rate habit_rate ;;
  Ok (Dashboard.mk total_tasks completed_tasks pending_tasks task_rate
        total_habits habits_logged_today habit_rate productivity_score
        current_streaks).

(* ===================================================================== *)
(** ** Weekly report *)
(* ===================================================================== *)

(** The dict [{"report": ..., "score": ...}] the generator returns. *)
Module Report.
Record t : Type := mk {
  report : string;
  score : Z
}.
End Report.

(** The [for habit in all_habits] loop that keeps the best streak. *)
Fixpoint best_streak_loop (db : Session) (today : date)
  (all_habits : list Habit.t) (best_habit : option string) (best_streak : Z)
  : result (option string * Z) :=
  match all_habits with
  | [] => Ok (best_habit, best_streak)
  | habit :: rest =>
      let logs := query_completed_logs db (Habit.id habit) in
      ' (streak, _) <- _calculate_streak logs today ;;
      if best_streak <? streak then
        best_streak_loop db today rest (Some (Habit.name habit)) streak
      else best_streak_loop db today rest best_habit best_streak
  end.

(** [user.name or user.email.split('@')[0]]. *)
Definition display_name (user : User.t) : string :=
  if str_truthy (User.name user) then User.name user
  else split_first "@"%char (User.email user).

Definition opening (weekly_score : Z) (name : string) : string :=
  if 80 <=? weekly_score then
    ("Outstanding week, " ++ name
     ++ "! You were firing on all cylinders.")%string
  else if 60 <=? weekly_score then
    ("Solid week, " ++ name ++ "! You made real progress.")%string
  else if 40 <=? weekly_score then
    ("Decent effort this week, " ++ name
     ++ ". There's room to push harder.")%string
  else
    ("Tough week, " ++ name ++ ". Every week is a fresh start " ++ em_dash
     ++ " let's go.")%string.

Definition start_a_habit : string :=
  "Start a habit this week to build your first streak.".

(** The best-streak sentence; [if best_habit] is false for [None] and for
    an empty name. *)
Definition streak_line (best_habit : option string) (best_streak : Z)
  : string :=
  match best_habit with
  | Some name =>
      if str_truthy name then
        ("Your best streak is '" ++ name ++ "' at " ++ str_of_int best_streak
         ++ " days " ++ em_dash ++ " keep it going!")%string
      else start_a_habit
  | None => start_a_habit
  end.

Definition report_text (opening_line : string)
  (completed_this_week total_tasks task_rate : Z)
  (logs_this_week possible_logs habit_rate : Z)
  (weekly_score : Z) (streak_sentence : string) (week_start week_end : date)
  : string :=
  (opening_line ++ newline ++ newline
   ++ "Tasks: You completed " ++ str_of_int completed_this_week ++ " out of "
   ++ str_of_int total_tasks ++ " tasks (" ++ str_of_int task_rate ++ "%)."
   ++ newline
   ++ "Habits: You logged " ++ str_of_int logs_this_week ++ " out of "
   ++ str_of_int possible_logs ++ " possible check-ins ("
   ++ str_of_int habit_rate ++ "%)." ++ newline
   ++ "Weekly Score: " ++ str_of_int weekly_score ++ "/100" ++ newline
   ++ newline
   ++ streak_sentence ++ newline ++ newline
   ++ "Week: " ++ strftime_b_d week_start ++ " " ++ em_dash ++ " "
   ++ strftime_b_d_Y week_end)%string.

(** The first lines of [generate_weekly_report]: [(week_start, week_end)]
    for the day [date.today()] returns. *)
Definition week_window (today : date) : result (date * date) :=
  week_end <- date_sub today 1 ;;
  week_start <- date_sub week_end 6 ;;
  Ok (week_start, week_end).

(** [generate_weekly_report(db, user)], with the day [date.today()] returns
    and the time a new row is stamped with. *)
Definition generate_weekly_report (db : Session) (user : User.t)
  (today : date) (now : datetime) : result (Session * Report.t) :=
  ' (week_start, week_end) <- week_window today ;;
  let all_tasks := query_tasks db (User.id user) in
  let completed_this_week :=
    count_if (fun t => String.eqb (Task.status t) "completed") all_tasks in
  let total_tasks := len all_tasks in
  let all_habits := query_habits db (User.id user) in
  let logs_this_week :=
    count_logs db (User.id user)
      (fun d => (week_start <=? d) && (d <=? week_end)) in
  let total_habits := len all_habits in
  let possible_logs := total_habits * 7 in
  habit_pct <- percentage logs_this_week possible_logs ;;
  habit_rate <- py_round habit_pct ;;
  task_pct <- percentage completed_this_week total_tasks ;;
  task_rate <- py_round task_pct ;;
  weekly_score <- productivity (Int task_rate) (Int habit_rate) ;;
  ' (best_habit, best_streak) <-
    best_streak_loop db today all_habits None 0 ;;
  let name := display_name user in
  let text :=
    report_text (opening weekly_score name)
      completed_this_week total_tasks task_rate
      logs_this_week possible_logs habit_rate
      weekly_score (streak_line best_habit best_streak)
      week_start week_end in
  match first (fun r => (WeeklyReport.user_id r =? User.id user)
                        && (WeeklyReport.week_start r =? week_start))
          (weekly_reports db) with
  | Some existing =>
      Ok (with_weekly_reports db
            (update_row WeeklyReport.id (WeeklyReport.id existing)
               (fun r => WeeklyReport.set_report_score r text weekly_score)
               (weekly_reports db)),
          Report.mk text weekly_score)
  | None =>
      let new_report :=
        WeeklyReport.mk (next_id (map WeeklyReport.id (weekly_reports db)))
          (User.id user) week_start week_end text weekly_score now in
      Ok (with_weekly_reports db (weekly_reports db ++ [new_report]),
          Report.mk text weekly_score)
  end.

Definition get_all_users (db : Session) : list User.t := users db.

(* ===================================================================== *)
(** ** The weekly background job ([main.py]) *)
(* ===================================================================== *)

Inductive levelname : Type := INFO | ERROR.

Record LogRecord : Type := mkLogRecord {
  level : levelname;
  message : string
}.

(** What the job works on: the database and the records of the ["lifeos"]
    logger. *)
Record World : Type := mkWorld {
  session : Session;
  logged : list LogRecord
}.

(** What a Python call hands back to its caller. *)
Inductive pyvalue : Type :=
| PyNone
| PyDict (items : list (string * Z)).

(** The [for user in users] loop with its [try]/[except Exception]. *)
Fixpoint run_weekly_reports_loop (us : list User.t) (w : World)
  (today : date) (now : datetime) : World :=
  match us with
  | [] => w
  | user :: rest =>
      match generate_weekly_report (session w) user today now with
      | Ok (db', result) =>
          run_weekly_reports_loop rest
            (mkWorld db'
               (logged w
                ++ [mkLogRecord INFO
                      ("Report generated for " ++ User.email user ++ " "
                       ++ em_dash ++ " score: "
                       ++ str_of_int (Report.score result))%string]))
            today now
      | Raise e =>
          run_weekly_reports_loop rest
            (mkWorld (session w)
               (logged w
                ++ [mkLogRecord ERROR
                      ("Failed to generate report for " ++ User.email user
                       ++ ": " ++ exception_str e)%string]))
            today now
      end
  end.

(** [run_weekly_reports()]: the function has no [return] statement. *)
Definition run_weekly_reports (w : World) (today : date) (now : datetime)
  : World * pyvalue :=
  let w :=
    mkWorld (session w)
      (logged w
       ++ [mkLogRecord INFO
             ("Background job started " ++ em_dash
              ++ " generating weekly reports...")%string]) in
  let users := get_all_users (session w) in
  let w := run_weekly_reports_loop users w today now in
  (mkWorld (session w)
     (logged w
      ++ [mkLogRecord INFO
            ("Weekly reports done " ++ em_dash ++ " processed "
             ++ str_of_int (len users) ++ " users.")%string]),
   PyNone).

(* ===================================================================== *)
(** ** Task services and pagination ([services.py]) *)
(* ===================================================================== *)

Definition with_tasks (db : Session) (ts : list Task.t) : Session :=
  mkSession (users db) ts (habits db) (habit_logs db) (weekly_reports db).

Definition with_users (db : Session) (us : list User.t) : Session :=
  mkSession us (tasks db) (habits db) (habit_logs db) (weekly_reports db).

(** [task.status = s], [task.title = s] and [task.is_deleted = b]. *)
Definition task_set_status (t : Task.t) (s : string) : Task.t :=
  Task.mk (Task.id t) (Task.title t) (Task.description t) s (Task.due_date t)
    (Task.priority t) (Task.is_deleted t) (Task.created_at t) (Task.user_id t).

Definition task_set_title (t : Task.t) (s : string) : Task.t :=
  Task.mk (Task.id t) s (Task.description t) (Task.status t) (Task.due_date t)
    (Task.priority t) (Task.is_deleted t) (Task.created_at t) (Task.user_id t).

Definition task_set_is_deleted (t : Task.t) (b : bool) : Task.t :=
  Task.mk (Task.id t) (Task.title t) (Task.description t) (Task.status t)
    (Task.due_date t) (Task.priority t) b (Task.created_at t)
    (Task.user_id t).

(** [habit.is_deleted = b]. *)
Definition habit_set_is_deleted (h : Habit.t) (b : bool) : Habit.t :=
  Habit.mk (Habit.id h) (Habit.name h) (Habit.target_type h) b
    (Habit.created_at h) (Habit.user_id h).

(** [a // b] on two [int]s: the floor of the quotient, raising on a zero
    divisor. *)
Definition int_floordiv (a b : Z) : result Z :=
  if b =? 0 then
    Raise (ZeroDivisionError "integer division or modulo by zero")
  else Ok (a / b).

(** [order_by(key.desc())]: a stable sort, largest key first. *)
Fixpoint insert_desc {A : Type} (key : A -> Z) (x : A) (sorted : list A)
  : list A :=
  match sorted with
  | [] => [x]
  | y :: rest =>
      if key y <=? key x then x :: sorted
      else y :: insert_desc key x rest
  end.

Definition order_by_desc {A : Type} (key : A -> Z) (rows : list A) : list A :=
  fold_right (insert_desc key) [] rows.

(** [query.offset(n)] and [query.limit(n)] as SQLite runs them: a negative
    offset skips nothing, a negative limit keeps everything. *)
Definition sql_offset {A : Type} (n : Z) (rows : list A) : list A :=
  skipn (Z.to_nat n) rows.

Definition sql_limit {A : Type} (n : Z) (rows : list A) : list A :=
  if n <? 0 then rows else firstn (Z.to_nat n) rows.

(** The dict [get_tasks] and [get_habits] return. *)
Module Page.
Record t (A : Type) : Type := mk {
  items : list A;
  total : Z;
  page : Z;
  limit : Z;
  total_pages : Z;
  has_next : bool;
  has_prev : bool
}.
Arguments mk {A}.
Arguments items {A}.
Arguments total {A}.
Arguments page {A}.
Arguments limit {A}.
Arguments total_pages {A}.
Arguments has_next {A}.
Arguments has_prev {A}.
End Page.

(** The tail both listings share: the dict built around [items]. *)
Definition paginated {A : Type} (items : list A) (total page limit : Z)
  : result (Page.t A) :=
  q <- int_floordiv (- total) limit ;;
  Ok (Page.mk items total page limit (Z.max 1 (- q))
        (page * limit <? total) (1 <? page)).

Definition get_tasks (db : Session) (user_id page limit : Z)
  : result (Page.t Task.t) :=
  let offset := (page - 1) * limit in
  let base_query := query_tasks db user_id in
  let total := len base_query in
  let tasks :=
    sql_limit limit
      (sql_offset offset (order_by_desc Task.created_at base_query)) in
  paginated tasks total page limit.

Definition create_task (db : Session) (title priority : string)
  (description : option string) (due_date : option datetime) (user_id : Z)
  (now : datetime) : Session * Task.t :=
  let task :=
    Task.mk (next_id (map Task.id (tasks db))) title description "pending"
      due_date priority false now user_id in
  (with_tasks db (tasks db ++ [task]), task).

(** The query that opens [toggle_task], [edit_task] and [delete_task]. *)
Definition query_task (db : Session) (task_id user_id : Z) : option Task.t :=
  first (fun t => (Task.id t =? task_id) && (Task.user_id t =? user_id)
                  && negb (Task.is_deleted t))
    (tasks db).

Definition toggle_status (status : string) : string :=
  if negb (String.eqb status "completed") then "completed" else "pending".

Definition toggle_task (db : Session) (task_id user_id : Z)
  : Session * option Task.t :=
  match query_task db task_id user_id with
  | None => (db, None)
  | Some task =>
      let status := toggle_status (Task.status task) in
      (with_tasks db
         (update_row Task.id (Task.id task)
            (fun t => task_set_status t status) (tasks db)),
       Some (task_set_status task status))
  end.

Definition edit_task (db : Session) (task_id user_id : Z) (new_title : string)
  : Session * option Task.t :=
  match query_task db task_id user_id with
  | None => (db, None)
  | Some task =>
      (with_tasks db
         (update_row Task.id (Task.id task)
            (fun t => task_set_title t new_title) (tasks db)),
       Some (task_set_title task new_title))
  end.

Definition delete_task (db : Session) (task_id user_id : Z)
  : Session * bool :=
  match query_task db task_id user_id with
  | None => (db, false)
  | Some task =>
      (with_tasks db
         (update_row Task.id (Task.id task)
            (fun t => task_set_is_deleted t true) (tasks db)),
       true)
  end.

(* ===================================================================== *)
(** ** The other habit services *)
(* ===================================================================== *)

(** The [for habit in habits] loop of [get_habits]. *)
Fixpoint get_habits_loop (db : Session) (today : date) (habits : list Habit.t)
  (results : list HabitResponse.t) : result (list HabitResponse.t) :=
  match habits with
  | [] => Ok results
  | habit :: rest =>
      let logs := query_completed_logs db (Habit.id habit) in
      ' (streak, is_logged_today) <- _calculate_streak logs today ;;
      get_habits_loop db today rest
        (results
         ++ [HabitResponse.mk (Habit.id habit) (Habit.name habit)
               (Habit.target_type habit) (Habit.user_id habit)
               streak is_logged_today])
  end.

(** [get_habits(db, user_id, page, limit)], with the day [date.today()]
    returns. *)
Definition get_habits (db : Session) (user_id page limit : Z) (today : date)
  : result (Page.t HabitResponse.t) :=
  let offset := (page - 1) * limit in
  let base_query := query_habits db user_id in
  let total := len base_query in
  let habits :=
    sql_limit limit
      (sql_offset offset (order_by_desc Habit.created_at base_query)) in
  result <- get_habits_loop db today habits [] ;;
  paginated result total page limit.

Definition create_habit (db : Session) (name target_type : string)
  (user_id : Z) (now : datetime) : Session * HabitResponse.t :=
  let habit :=
    Habit.mk (next_id (map Habit.id (habits db))) name target_type false now
      user_id in
  (with_habits db (habits db ++ [habit]),
   HabitResponse.mk (Habit.id habit) (Habit.name habit)
     (Habit.target_type habit) (Habit.user_id habit) 0 false).

Definition delete_habit (db : Session) (habit_id user_id : Z)
  : Session * bool :=
  match query_habit db habit_id user_id with
  | None => (db, false)
  | Some habit =>
      (with_habits db
         (update_row Habit.id (Habit.id habit)
            (fun h => habit_set_is_deleted h true) (habits db)),
       true)
  end.

(* ===================================================================== *)
(** ** Users and reports *)
(* ===================================================================== *)

(** [db.commit()] on an insert into a table with a UNIQUE column
    ([users.email], [refresh_tokens.token]): a value already there makes it
    raise sqlalchemy's [IntegrityError], and the row is not inserted. *)
Inductive commit (A : Type) : Type :=
| Committed (a : A)
| IntegrityError (column : string).

Arguments Committed {A} a.
Arguments IntegrityError {A} column.

Definition get_user_by_email (db : Session) (email : string)
  : option User.t :=
  first (fun u => String.eqb (User.email u) email) (users db).

Definition create_user (db : Session) (name email password_hash : string)
  (now : datetime) : commit (Session * User.t) :=
  let user :=
    User.mk (next_id (map User.id (users db))) name email password_hash
      "user" now in
  if existsb (fun u => String.eqb (User.email u) email) (users db) then
    IntegrityError "users.email"
  else Committed (with_users db (users db ++ [user]), user).

Definition get_latest_report (db : Session) (user_id : Z)
  : option WeeklyReport.t :=
  first (fun _ => true)
    (order_by_desc WeeklyReport.created_at
       (filter (fun r => WeeklyReport.user_id r =? user_id)
          (weekly_reports db))).

(* ===================================================================== *)
(** ** Refresh tokens *)
(* ===================================================================== *)

Module RefreshToken.
Record t : Type := mk {
  id : Z;
  token : string;
  user_id : Z;
  expires_at : datetime;
  revoked : bool;
  created_at : datetime
}.

Definition set_revoked (r : t) (b : bool) : t :=
  mk (id r) (token r) (user_id r) (expires_at r) b (created_at r).
End RefreshToken.

(** The database with its sixth table, [refresh_tokens], which none of the
    services above reads. *)
Record Database : Type := mkDatabase {
  tables : Session;
  refresh_tokens : list RefreshToken.t
}.

Definition with_refresh_tokens (db : Database) (rs : list RefreshToken.t)
  : Database :=
  mkDatabase (tables db) rs.

Definition REFRESH_TOKEN_EXPIRE_DAYS : Z := 7.

(** [timedelta(days=n)] and [timedelta(minutes=n)] added to a [datetime]:
    seconds. *)
Definition days (n : Z) : Z := n * 86400.
Definition minutes (n : Z) : Z := n * 60.

(** [create_refresh_token(db, user_id)], with the string
    [secrets.token_urlsafe(64)] returns and the time of the call. *)
Definition create_refresh_token (db : Database) (user_id : Z)
  (token : string) (now : datetime) : commit (Database * string) :=
  let expires_at := now + days REFRESH_TOKEN_EXPIRE_DAYS in
  let db_token :=
    RefreshToken.mk (next_id (map RefreshToken.id (refresh_tokens db)))
      token user_id expires_at false now in
  if existsb (fun r => String.eqb (RefreshToken.token r) token)
       (refresh_tokens db) then
    IntegrityError "refresh_tokens.token"
  else
    Committed (with_refresh_tokens db (refresh_tokens db ++ [db_token]),
               token).

Definition get_refresh_token (db : Database) (token : string)
  : option RefreshToken.t :=
  first (fun r => String.eqb (RefreshToken.token r) token
                  && negb (RefreshToken.revoked r))
    (refresh_tokens db).

Definition revoke_refresh_token (db : Database) (token : string) : Database :=
  match first (fun r => String.eqb (RefreshToken.token r) token)
          (refresh_tokens db) with
  | Some db_token =>
      with_refresh_tokens db
        (update_row RefreshToken.id (RefreshToken.id db_token)
           (fun r => RefreshToken.set_revoked r true) (refresh_tokens db))
  | None => db
  end.

(** An [UPDATE ... WHERE user_id = ? AND revoked = false]. *)
Definition revoke_all_user_tokens (db : Database) (user_id : Z) : Database :=
  with_refresh_tokens db
    (map (fun r =>
            if (RefreshToken.user_id r =? user_id)
               && negb (RefreshToken.revoked r)
            then RefreshToken.set_revoked r true else r)
       (refresh_tokens db)).

(* ===================================================================== *)
(** ** Routes ([main.py]) *)
(* ===================================================================== *)

(** A route answers, raises an [HTTPException], or lets an
    [IntegrityError] of a service through. *)
Inductive http (A : Type) : Type :=
| Respond (a : A)
| HTTPException (status_code : Z) (detail : string)
| Uncaught (column : string).

Arguments Respond {A} a.
Arguments HTTPException {A} status_code detail.
Arguments Uncaught {A} column.

(** [register]: the last argument is what [hash_password(user.password)]
    returns, which is only asked for once the email is known to be free. *)
Definition register (db : Session) (name email : string)
  (password_hash : string) (now : datetime) : Session * http User.t :=
  match get_user_by_email db email with
  | Some _ => (db, HTTPException 400 "Email already registered")
  | None =>
      match create_user db name email password_hash now with
      | Committed (db', new_user) => (db', Respond new_user)
      | IntegrityError column => (db, Uncaught column)
      end
  end.

(** The latest-report route. *)
Definition get_latest_report_route (db : Session) (current_user : User.t)
  : http WeeklyReport.t :=
  match get_latest_report db (User.id current_user) with
  | None =>
      HTTPException 404
        ("No report yet " ++ em_dash ++ " check back after Monday!")%string
  | Some report => Respond report
  end.

(** [{"access_token": .., "refresh_token": .., "token_type": "bearer"}]. *)
Module TokenPair.
Record t : Type := mk {
  access_token : string;
  refresh_token : string;
  token_type : string
}.
End TokenPair.

Definition ACCESS_TOKEN_EXPIRE_MINUTES : Z := 15.

Section Tokens.

(** [jwt.encode({"sub": email, "exp": expire}, SECRET_KEY, ALGORITHM)] and
    [bcrypt.checkpw] on the encoded password and hash. *)
Variable jwt_encode : string -> datetime -> string.
Variable verify_password : string -> string -> bool.

Definition create_access_token (email : string) (now : datetime) : string :=
  jwt_encode email (now + minutes ACCESS_TOKEN_EXPIRE_MINUTES).

(** [login], with the string [secrets.token_urlsafe(64)] returns. *)
Definition login (db : Database) (username password : string)
  (fresh : string) (now : datetime) : Database * http TokenPair.t :=
  match get_user_by_email (tables db) username with
  | None => (db, HTTPException 401 "Incorrect email or password")
  | Some user =>
      if negb (verify_password password (User.password_hash user)) then
        (db, HTTPException 401 "Incorrect email or password")
      else
        let access_token := create_access_token (User.email user) now in
        match create_refresh_token db (User.id user) fresh now with
        | Committed (db', refresh_token) =>
            (db', Respond (TokenPair.mk access_token refresh_token "bearer"))
        | IntegrityError column => (db, Uncaught column)
        end
  end.

(** The [/refresh] route: rotate a refresh token. *)
Definition refresh_token_route (db : Database) (refresh_token : string)
  (fresh : string) (now : datetime) : Database * http TokenPair.t :=
  match get_refresh_token db refresh_token with
  | None => (db, HTTPException 401 "Invalid or expired refresh token")
  | Some db_token =>
      if RefreshToken.expires_at db_token <? now then
        (revoke_refresh_token db refresh_token,
         HTTPException 401 "Refresh token expired. Please log in again.")
      else
        match first (fun u => User.id u =? RefreshToken.user_id db_token)
                (users (tables db)) with
        | None => (db, HTTPException 401 "User not found")
        | Some user =>
            let db1 := revoke_refresh_token db refresh_token in
            let new_access_token :=
              create_access_token (User.email user) now in
            match create_refresh_token db1 (User.id user) fresh now with
            | Committed (db2, new_refresh_token) =>
                (db2,
                 Respond (TokenPair.mk new_access_token new_refresh_token
                            "bearer"))
            | IntegrityError column => (db1, Uncaught column)
            end
        end
  end.

End Tokens.

(** [logout]: the token is revoked whoever it belongs to. *)
Definition logout (db : Database) (refresh_token : string) : Database :=
  revoke_refresh_token db refresh_token.

(* ===================================================================== *)
(** ** Vocabulary of the properties *)
(* ===================================================================== *)

(** Newest first: the order [order_by(HabitLog.date.desc())] gives. *)
Definition sorted_desc (logs : list HabitLog.t) : Prop :=
  Sorted (fun a b => HabitLog.date b <= HabitLog.date a) logs.

(** The rows of [habit_logs] for one habit and one day. *)
Definition logs_on (db : Session) (habit_id : Z) (d : date)
  : list HabitLog.t :=
  filter (fun l => (HabitLog.habit_id l =? habit_id) && (HabitLog.date l =? d))
    (habit_logs db).

(** At most one log per (habit, date). *)
Definition one_log_per_day (db : Session) : Prop :=
  forall habit_id d, (List.length (logs_on db habit_id d) <= 1)%nat.

(** The arguments of one [log_habit] call. *)
Record LogCall : Type := mkLogCall {
  call_habit_id : Z;
  call_log_date : date;
  call_completed : bool;
  call_user_id : Z
}.

(** A sequence of [log_habit] calls, each on the database the previous one
    left. *)
Definition log_habits (db : Session) (calls : list LogCall) : Session :=
  fold_left
    (fun db c =>
       fst (log_habit db (call_habit_id c) (call_log_date c)
              (call_completed c) (call_user_id c)))
    calls db.

(** [generate_weekly_report] has two halves: it computes a report from the
    user's tasks, habits and logs, then stores it.  A [Draft] is what the
    first half hands to the second. *)
Record Draft : Type := mkDraft {
  draft_week_start : date;
  draft_week_end : date;
  draft_text : string;
  draft_score : Z
}.

(** [round((part / total * 100) if total else 0)]. *)
Definition rate (part total : Z) : result Z :=
  pct <- percentage part total ;;
  py_round pct.

Definition completed_tasks_of (db : Session) (user_id : Z) : Z :=
  count_if (fun t => String.eqb (Task.status t) "completed")
    (query_tasks db user_id).

Definition logs_in_window (db : Session) (user_id : Z)
  (week_start week_end : date) : Z :=
  count_logs db user_id (fun d => (week_start <=? d) && (d <=? week_end)).

(** Everything [generate_weekly_report] does before it looks at the
    [weekly_reports] table. *)
Definition report_draft (db : Session) (user : User.t) (today : date)
  : result Draft :=
  ' (week_start, week_end) <- week_window today ;;
  let completed := completed_tasks_of db (User.id user) in
  let total_tasks := len (query_tasks db (User.id user)) in
  let logs := logs_in_window db (User.id user) week_start week_end in
  let possible_logs := len (query_habits db (User.id user)) * 7 in
  habit_rate <- rate logs possible_logs ;;
  task_rate <- rate completed total_tasks ;;
  weekly_score <- productivity (Int task_rate) (Int habit_rate) ;;
  ' (best_habit, best_streak) <-
    best_streak_loop db today (query_habits db (User.id user)) None 0 ;;
  Ok (mkDraft week_start week_end
        (report_text (opening weekly_score (display_name user))
           completed total_tasks task_rate logs possible_logs habit_rate
           weekly_score (streak_line best_habit best_streak)
           week_start week_end)
        weekly_score).

(** The upsert that ends [generate_weekly_report]. *)
Definition save_report (db : Session) (user_id : Z) (d : Draft)
  (now : datetime) : Session :=
  match first (fun r => (WeeklyReport.user_id r =? user_id)
                        && (WeeklyReport.week_start r =? draft_week_start d))
          (weekly_reports db) with
  | Some existing =>
      with_weekly_reports db
        (update_row WeeklyReport.id (WeeklyReport.id existing)
           (fun r =>
              WeeklyReport.set_report_score r (draft_text d) (draft_score d))
           (weekly_reports db))
  | None =>
      with_weekly_reports db
        (weekly_reports db
         ++ [WeeklyReport.mk (next_id (map WeeklyReport.id (weekly_reports db)))
               user_id (draft_week_start d) (draft_week_end d)
               (draft_text d) (draft_score d) now])
  end.

(** The rows of [weekly_reports] for one user and one week. *)
Definition reports_for (db : Session) (user_id : Z) (week_start : date)
  : list WeeklyReport.t :=
  filter (fun r => (WeeklyReport.user_id r =? user_id)
                   && (WeeklyReport.week_start r =? week_start))
    (weekly_reports db).

(** The streak [generate_weekly_report] finds for one habit. *)
Definition habit_streak (db : Session) (today : date) (habit : Habit.t)
  : result Z :=
  ' (streak, _) <-
    _calculate_streak (query_completed_logs db (Habit.id habit)) today ;;
  Ok streak.

(** The record the weekly job logs for one user: it depends on the
    database the job started from only. *)
Definition job_record (db : Session) (today : date) (user : User.t)
  : LogRecord :=
  match report_draft db user today with
  | Ok d =>
      mkLogRecord INFO
        ("Report generated for " ++ User.email user ++ " " ++ em_dash
         ++ " score: " ++ str_of_int (draft_score d))%string
  | Raise e =>
      mkLogRecord ERROR
        ("Failed to generate report for " ++ User.email user ++ ": "
         ++ exception_str e)%string
  end.

Definition job_started : LogRecord :=
  mkLogRecord INFO
    ("Background job started " ++ em_dash
     ++ " generating weekly reports...")%string.

Definition job_done (n : Z) : LogRecord :=
  mkLogRecord INFO
    ("Weekly reports done " ++ em_dash ++ " processed " ++ str_of_int n
     ++ " users.")%string.

(** [weekly_reports] holds a row for that user and week with that text and
    score. *)
Definition has_report (db : Session) (user_id : Z) (week_start : date)
  (text : string) (sc : Z) : Prop :=
  exists row,
    In row (weekly_reports db)
    /\ WeeklyReport.user_id row = user_id
    /\ WeeklyReport.week_start row = week_start
    /\ WeeklyReport.report row = text
    /\ WeeklyReport.score row = sc.

(** Zero or one row. *)
Definition at_most_one {A : Type} (rows : list A) : Prop :=
  (List.length rows <= 1)%nat.

(** The primary key of [weekly_reports] is unique. *)
Definition primary_keys (db : Session) : Prop :=
  NoDup (map WeeklyReport.id (weekly_reports db)).

(** No negative float, and none above [b * 2^(-g)]. *)
Definition float_within (b g : Z) (x : float) : Prop :=
  match x with
  | S754_zero _ => True
  | S754_finite false m e => e <= - g /\ Zpos m <= b * 2 ^ (- g - e)
  | _ => False
  end.

(** A rate the score is computed from: an [int] or a binary64 value between
    0 and 100. *)
Definition rate_in_range (n : number) : Prop :=
  match n with
  | Int z => 0 <= z <= 100
  | Float x =>
      valid_binary prec emax x = true
      /\ float_leb (float_of_int 0) x = true
      /\ float_leb x (float_of_int 100) = true
  end.

(** The items of one page of [get_tasks]; nothing when the call raises. *)
Definition tasks_page (db : Session) (user_id page limit : Z) : list Task.t :=
  match get_tasks db user_id page limit with
  | Ok p => Page.items p
  | Raise _ => []
  end.

(** The user's active tasks, newest first: what the pages of [get_tasks]
    are cut from. *)
Definition tasks_newest_first (db : Session) (user_id : Z) : list Task.t :=
  order_by_desc Task.created_at (query_tasks db user_id).

(** Newest first with no day twice: what the completed logs of a habit
    look like when the table holds one log per habit and day. *)
Definition strictly_desc (logs : list HabitLog.t) : Prop :=
  StronglySorted (fun a b => HabitLog.date b < HabitLog.date a) logs.

(** The habit has a completed log on day [d]. *)
Definition completed_on (db : Session) (habit_id : Z) (d : date) : bool :=
  existsb
    (fun l => (HabitLog.habit_id l =? habit_id) && HabitLog.completed l
              && (HabitLog.date l =? d))
    (habit_logs db).

(** Every date in the log table can be stepped back from. *)
Definition log_dates_in_range (db : Session) : Prop :=
  forall l, In l (habit_logs db) -> 2 <= HabitLog.date l <= _MAXORDINAL.

(** What [_calculate_streak] gives for a habit's completed logs, with
    [(0, False)] standing in when it raises. *)
Definition streak_today (db : Session) (today : date) (habit : Habit.t)
  : Z * bool :=
  match _calculate_streak (query_completed_logs db (Habit.id habit)) today with
  | Ok sb => sb
  | Raise _ => (0, false)
  end.

(** The entry of [current_streaks] and the item of [get_habits] for a
    habit. *)
Definition streak_entry (db : Session) (today : date) (habit : Habit.t)
  : CurrentStreak.t :=
  CurrentStreak.mk (Habit.name habit) (fst (streak_today db today habit))
    (snd (streak_today db today habit)).

Definition habit_item (db : Session) (today : date) (habit : Habit.t)
  : HabitResponse.t :=
  HabitResponse.mk (Habit.id habit) (Habit.name habit)
    (Habit.target_type habit) (Habit.user_id habit)
    (fst (streak_today db today habit)) (snd (streak_today db today habit)).

(** What a dashboard entry and a listing item say about a habit's streak. *)
Definition entry_view (c : CurrentStreak.t) : string * Z * bool :=
  (CurrentStreak.name c, CurrentStreak.streak c, CurrentStreak.logged_today c).

Definition item_view (r : HabitResponse.t) : string * Z * bool :=
  (HabitResponse.name r, HabitResponse.current_streak r,
   HabitResponse.is_logged_today r).

(** Every log belongs to a habit of the table: the foreign key of
    [habit_logs.habit_id]. *)
Definition logs_reference_habits (db : Session) : Prop :=
  forall l, In l (habit_logs db) ->
            In (HabitLog.habit_id l) (map Habit.id (habits db)).

(** The UNIQUE constraint on [users.email]. *)
Definition unique_emails (db : Session) : Prop :=
  NoDup (map User.email (users db)).

(** The primary key of [refresh_tokens] and the UNIQUE constraint on
    [refresh_tokens.token]. *)
Definition token_keys (db : Database) : Prop :=
  NoDup (map RefreshToken.id (refresh_tokens db))
  /\ NoDup (map RefreshToken.token (refresh_tokens db)).

(** No row of [refresh_tokens] holds that string. *)
Definition unused_token (db : Database) (token : string) : Prop :=
  forall r, In r (refresh_tokens db) -> RefreshToken.token r <> token.

(* ===================================================================== *)
(** ** Concrete databases the properties are run on *)
(* ===================================================================== *)

Module Scenario.

(** Wednesday 2024-06-12. *)
Definition today : date := _ymd2ord 2024 6 12.

(** Monday 2024-06-10. *)
Definition monday : date := _ymd2ord 2024 6 10.

Definition ann : User.t :=
  User.mk 1 "Ann" "ann@example.org" "$2b$12$a" "user" 1718000000.
Definition bob : User.t :=
  User.mk 2 "" "bob@example.org" "$2b$12$b" "user" 1718000001.
Definition cy : User.t :=
  User.mk 3 "Cy" "cy@example.org" "$2b$12$c" "user" 1718000002.

Definition task (id : Z) (status : string) (user_id : Z) : Task.t :=
  Task.mk id "task" None status None "medium" false 1718000100 user_id.

Definition habit (id : Z) (name : string) (user_id : Z) : Habit.t :=
  Habit.mk id name "daily" false 1718000200 user_id.

Definition done (id habit_id : Z) (d : date) : HabitLog.t :=
  HabitLog.mk id habit_id d true.

(** Completed logs of habit [habit_id] on the [n] days ending on [last],
    with row ids from [first_id]. *)
Fixpoint daily (first_id habit_id : Z) (last : date) (n : nat)
  : list HabitLog.t :=
  match n with
  | O => []
  | S k => done first_id habit_id last
           :: daily (first_id + 1) habit_id (last - 1) k
  end.

(** Ann has ten tasks, six of them completed, and two habits logged on
    each of the seven days before [today]. *)
Definition week_db : Session :=
  mkSession [ann]
    (map (fun i => task i (if i <=? 6 then "completed" else "pending") 1)
       [1; 2; 3; 4; 5; 6; 7; 8; 9; 10])
    [habit 1 "Run" 1; habit 2 "Read" 1]
    (daily 1 1 (today - 1) 7 ++ daily 8 2 (today - 1) 7)
    [].

Definition week_db1 : Session :=
  match generate_weekly_report week_db ann today 1718180000 with
  | Ok (db1, _) => db1
  | Raise _ => week_db
  end.

Definition week_report : Report.t :=
  match generate_weekly_report week_db ann today 1718180000 with
  | Ok (_, r) => r
  | Raise _ => Report.mk "" 0
  end.

(** Ann has three habits with live streaks: Run for two days, Read and
    Walk for three. *)
Definition streak_db : Session :=
  mkSession [ann] []
    [habit 1 "Run" 1; habit 2 "Read" 1; habit 3 "Walk" 1]
    (daily 1 1 today 2 ++ daily 3 2 today 3 ++ daily 6 3 today 3)
    [].

Definition streak_db1 : Session :=
  match generate_weekly_report streak_db ann today 1718180000 with
  | Ok (db1, _) => db1
  | Raise _ => streak_db
  end.

Definition streak_report : Report.t :=
  match generate_weekly_report streak_db ann today 1718180000 with
  | Ok (_, r) => r
  | Raise _ => Report.mk "" 0
  end.

(** Ann has one habit and has logged nothing yet. *)
Definition fresh_db : Session :=
  mkSession [ann] [] [habit 1 "Run" 1] [] [].

(** Three [log_habit] calls for the same habit and day, and one for the
    next day. *)
Definition calls : list LogCall :=
  [mkLogCall 1 (today - 5) true 1; mkLogCall 1 (today - 5) false 1;
   mkLogCall 1 (today - 4) true 1; mkLogCall 1 (today - 5) true 1].

(** No user, no row. *)
Definition empty_db : Session := mkSession [] [] [] [] [].

(** The clock reads 0001-01-10 and Bob has logged his habit on every day
    since 0001-01-01: walking his streak back steps before the first
    date there is, and his report fails.  Ann and Cy are unaffected. *)
Definition first_days : date := _ymd2ord 1 1 10.

Definition batch_db : Session :=
  mkSession [ann; bob; cy]
    [task 1 "completed" 1; task 2 "pending" 1; task 3 "completed" 3]
    [habit 1 "Run" 1; habit 2 "Read" 2; habit 3 "Walk" 3]
    (daily 1 1 first_days 2 ++ daily 3 2 first_days 10)
    [].

Definition batch_world : World := mkWorld batch_db [].

End Scenario.

(* ===================================================================== *)
(** ** Concrete databases for the services around the engine *)
(* ===================================================================== *)

Module Sample.

Definition task (id : Z) (title status : string) (is_deleted : bool)
  (created_at : datetime) (user_id : Z) : Task.t :=
  Task.mk id title None status None "medium" is_deleted created_at user_id.

(** Ann's tasks, created an hour apart; [old] is deleted, [walk] is Cy's. *)
Definition write : Task.t := task 1 "Write" "pending" false 1718000100 1.
Definition read : Task.t := task 2 "Read" "completed" false 1718003700 1.
Definition walk : Task.t := task 3 "Walk" "pending" false 1718007300 3.
Definition old : Task.t := task 4 "Old" "pending" true 1718010900 1.
Definition plan : Task.t := task 5 "Plan" "pending" false 1718014500 1.

Definition tasks_db : Session :=
  mkSession [Scenario.ann; Scenario.cy] [write; read; walk; old; plan]
    [] [] [].

(** Ann's habit of [Scenario.fresh_db]. *)
Definition run : Habit.t := Scenario.habit 1 "Run" 1.

(** The dashboard of Ann in [Scenario.streak_db]. *)
Definition dashboard : Dashboard.t :=
  match get_dashboard Scenario.streak_db 1 Scenario.today with
  | Ok d => d
  | Raise _ => Dashboard.mk 0 0 0 (Int 0) 0 0 (Int 0) 0 []
  end.

(** [Scenario.week_db] one week later, with the report of the week before
    in the table. *)
Definition next_week : date := Scenario.today + 7.

Definition next_week_db1 : Session :=
  match generate_weekly_report Scenario.week_db1 Scenario.ann next_week
          1718784800 with
  | Ok (db1, _) => db1
  | Raise _ => Scenario.week_db1
  end.

Definition next_week_report : Report.t :=
  match generate_weekly_report Scenario.week_db1 Scenario.ann next_week
          1718784800 with
  | Ok (_, r) => r
  | Raise _ => Report.mk "" 0
  end.

(** The row [Scenario.week_db1] holds, and what generating the same week
    again at a later time returns. *)
Definition week_row : WeeklyReport.t :=
  match weekly_reports Scenario.week_db1 with
  | row :: _ => row
  | [] => WeeklyReport.mk 0 0 0 0 "" 0 0
  end.

Definition week_db2 : Session :=
  match generate_weekly_report Scenario.week_db1 Scenario.ann Scenario.today
          1718190000 with
  | Ok (db2, _) => db2
  | Raise _ => Scenario.week_db1
  end.

Definition week_report2 : Report.t :=
  match generate_weekly_report Scenario.week_db1 Scenario.ann Scenario.today
          1718190000 with
  | Ok (_, r) => r
  | Raise _ => Report.mk "" 0
  end.

(** The weekly job is about to run on [Scenario.week_db]. *)
Definition week_world : World := mkWorld Scenario.week_db [].

(** Stand-ins for [jwt.encode] and [bcrypt.checkpw]. *)
Definition encode (email : string) (expire : datetime) : string :=
  (email ++ "|" ++ str_of_int expire)%string.

Definition checkpw (plain hashed : string) : bool :=
  String.eqb ("$2b$12$" ++ plain)%string hashed.

(** Ann holds a live token and a revoked one, Bob a live one. *)
Definition ann_token : RefreshToken.t :=
  RefreshToken.mk 1 "tok-ann" 1 1718604800 false 1718000000.
Definition ann_revoked : RefreshToken.t :=
  RefreshToken.mk 2 "tok-ann-0" 1 1718000000 true 1717395200.
Definition bob_token : RefreshToken.t :=
  RefreshToken.mk 3 "tok-bob" 2 1718604801 false 1718000001.

Definition auth_db : Database :=
  mkDatabase Scenario.batch_db [ann_token; ann_revoked; bob_token].

End Sample.

(* ===================================================================== *)
(** ** The model on concrete inputs *)
(* ===================================================================== *)

Example ymd2ord_2024_06_12 : _ymd2ord 2024 6 12 = 739049.
Proof. reflexivity. Qed.

Example ord2ymd_2024_06_12 : _ord2ymd 739049 = (2024, 6, 12).
Proof. reflexivity. Qed.

Example ord2ymd_leap_day : _ord2ymd (_ymd2ord 2024 2 29) = (2024, 2, 29).
Proof. reflexivity. Qed.

Example ord2ymd_year_end : _ord2ymd (_ymd2ord 2023 12 31) = (2023, 12, 31).
Proof. reflexivity. Qed.

Example maxordinal_is_9999_12_31 : _ymd2ord 9999 12 31 = _MAXORDINAL.
Proof. reflexivity. Qed.

Example weekday_2024_06_12 : weekday (_ymd2ord 2024 6 12) = 2.
Proof. reflexivity. Qed.

Example strftime_example :
  strftime_b_d_Y (_ymd2ord 2024 6 5) = "Jun 05, 2024".
Proof. reflexivity. Qed.

Example literal_0_6 : float_of_ratio 6 10 = lit_0_6.
Proof. reflexivity. Qed.

Example literal_0_4 : float_of_ratio 4 10 = lit_0_4.
Proof. reflexivity. Qed.

Example round_half_to_even :
  round_float (float_of_ratio 5 2) = Ok 2
  /\ round_float (float_of_ratio 7 2) = Ok 4.
Proof. split; reflexivity. Qed.

Example round_one_decimal :
  round_float_1 (float_mul (float_of_ratio 4 14) (float_of_int 100))
  = float_of_ratio 286 10.
Proof. reflexivity. Qed.

Example streak_no_logs : _calculate_streak [] Scenario.today = Ok (0, false).
Proof. reflexivity. Qed.

Example streak_three_days :
  _calculate_streak (Scenario.daily 1 1 Scenario.today 3) Scenario.today
  = Ok (3, true).
Proof. reflexivity. Qed.

Example streak_stops_at_gap :
  _calculate_streak
    [Scenario.done 1 1 Scenario.today; Scenario.done 2 1 (Scenario.today - 5)]
    Scenario.today
  = Ok (1, true).
Proof. reflexivity. Qed.

Example streak_steps_before_first_date :
  _calculate_streak (Scenario.daily 1 1 3 3) 3
  = Raise (OverflowError "date value out of range").
Proof. reflexivity. Qed.

Example week_report_score : Report.score Scenario.week_report = 76.
Proof. vm_compute. reflexivity. Qed.

Example display_name_falls_back_to_email :
  display_name Scenario.bob = "bob".
Proof. reflexivity. Qed.

(* ===================================================================== *)
(** ** Streak calculator *)
(* ===================================================================== *)

Lemma insert_date_desc_sorted l ls :
  sorted_desc ls -> sorted_desc (insert_date_desc l ls).
Proof.
  unfold sorted_desc. induction ls as [|x rest IH]; intros Hs; simpl.
  - repeat constructor.
  - destruct (Z.leb_spec (HabitLog.date x) (HabitLog.date l)).
    + constructor; [assumption | constructor; assumption].
    + inversion Hs as [|? ? Hrest Hhd]; subst.
      constructor; [now apply IH |].
      destruct rest as [|y rest']; simpl.
      * constructor; lia.
      * destruct (Z.leb_spec (HabitLog.date y) (HabitLog.date l));
          constructor; try lia.
        inversion Hhd; assumption.
Qed.

Lemma order_by_date_desc_sorted ls : sorted_desc (order_by_date_desc ls).
Proof.
  induction ls as [|l ls IH]; simpl.
  - constructor.
  - now apply insert_date_desc_sorted.
Qed.

Lemma query_completed_logs_sorted db habit_id :
  sorted_desc (query_completed_logs db habit_id).
Proof. apply order_by_date_desc_sorted. Qed.

Lemma streak_loop_invariant logs today :
  forall streak is_logged_today check_date s b,
    is_logged_today = true \/ (streak = 0 /\ check_date = today) ->
    _calculate_streak_loop logs today streak is_logged_today check_date
    = Ok (s, b) ->
    b = true \/ s = 0.
Proof.
  induction logs as [|log rest IH]; intros streak lt cd s b Hinv Hrun;
    simpl in Hrun.
  - inversion Hrun; subst. tauto.
  - destruct (Z.eqb_spec (HabitLog.date log) today) as [Ht|Ht].
    + destruct (date_sub today 1) as [cd'|e]; simpl in Hrun; [|discriminate].
      eapply IH; [|eassumption]. now left.
    + destruct (Z.eqb_spec (HabitLog.date log) cd) as [Hc|Hc].
      * destruct (date_sub cd 1) as [cd'|e]; simpl in Hrun; [|discriminate].
        eapply IH; [|eassumption].
        destruct Hinv as [->|[_ ->]]; [now left | congruence].
      * destruct (HabitLog.date log <? cd).
        -- inversion Hrun; subst. tauto.
        -- eapply IH; eassumption.
Qed.

Lemma streak_loop_no_log_today logs today :
  (forall l, In l logs -> HabitLog.date l <> today) ->
  _calculate_streak_loop logs today 0 false today = Ok (0, false).
Proof.
  induction logs as [|log rest IH]; intros Hno; simpl.
  - reflexivity.
  - assert (Hlog : HabitLog.date log <> today) by (apply Hno; now left).
    destruct (Z.eqb_spec (HabitLog.date log) today); [contradiction|].
    destruct (HabitLog.date log <? today); [reflexivity|].
    apply IH. intros l Hl. apply Hno. now right.
Qed.

(** The calculator returns unless the walk reaches 0001-01-01, the one day
    that has no day before it. *)
Lemma streak_loop_returns logs today :
  2 <= today <= _MAXORDINAL ->
  (forall l, In l logs -> 2 <= HabitLog.date l <= _MAXORDINAL) ->
  forall streak is_logged_today check_date,
  exists s b,
    _calculate_streak_loop logs today streak is_logged_today check_date
    = Ok (s, b).
Proof.
  intros Ht. induction logs as [|log rest IH]; intros Hl streak lt cd; simpl.
  - eauto.
  - assert (Hlog : 2 <= HabitLog.date log <= _MAXORDINAL)
      by (apply Hl; now left).
    assert (Hrest : forall l, In l rest -> 2 <= HabitLog.date l <= _MAXORDINAL)
      by (intros l Hin; apply Hl; now right).
    assert (Hsub : forall d, 2 <= d <= _MAXORDINAL ->
                             date_sub d 1 = Ok (d - 1)).
    { intros d Hd. unfold date_sub.
      replace (0 <? d - 1) with true by (symmetry; apply Z.ltb_lt; lia).
      replace (d - 1 <=? _MAXORDINAL) with true
        by (symmetry; apply Z.leb_le; lia).
      reflexivity. }
    destruct (HabitLog.date log =? today).
    + rewrite (Hsub today Ht). simpl. now apply IH.
    + destruct (Z.eqb_spec (HabitLog.date log) cd) as [<-|_].
      * rewrite (Hsub _ Hlog). simpl. now apply IH.
      * destruct (HabitLog.date log <? cd); [eauto | now apply IH].
Qed.

(** C2.  For every list of completed logs sorted newest first and every
    [today]: a returned streak of at least 1 comes with
    [is_logged_today = true]; and when no log is dated [today] the
    calculator returns streak 0 (and [false]), whatever run of earlier
    days the logs hold.  The order of the logs plays no part in the
    proof. *)
Theorem calculate_streak_needs_today (logs : list HabitLog.t) (today : date) :
  sorted_desc logs ->
  (forall s b, _calculate_streak logs today = Ok (s, b) -> 1 <= s -> b = true)
  /\ ((forall l, In l logs -> HabitLog.date l <> today) ->
      _calculate_streak logs today = Ok (0, false)).
Proof.
  intros _. split.
  - intros s b Hrun Hs.
    destruct (streak_loop_invariant logs today 0 false today s b) as [H|H];
      auto; lia.
  - apply streak_loop_no_log_today.
Qed.

(** An unbroken run of three days ending yesterday. *)
Lemma calculate_streak_needs_today_witness :
  sorted_desc (Scenario.daily 1 1 (Scenario.today - 1) 3)
  /\ _calculate_streak (Scenario.daily 1 1 (Scenario.today - 1) 3)
       Scenario.today = Ok (0, false).
Proof.
  assert (Hs : sorted_desc (Scenario.daily 1 1 (Scenario.today - 1) 3))
    by (unfold sorted_desc; repeat constructor; vm_compute; discriminate).
  split; [exact Hs|].
  apply (proj2 (calculate_streak_needs_today _ Scenario.today Hs)).
  intros l Hl. simpl in Hl.
  destruct Hl as [<-|[<-|[<-|[]]]]; vm_compute; discriminate.
Defined.

(** C1, as amended.  For a habit whose completed logs are exactly
    [today - 1] and [today - 2], with no log on [today], the calculator
    returns streak 0 and [is_logged_today = false]: the walk starts at
    [today] and stops at the first log older than the day it expects. *)
Theorem streak_of_run_ending_yesterday (today : date) (i1 h1 i2 h2 : Z) :
  _calculate_streak
    [HabitLog.mk i1 h1 (today - 1) true; HabitLog.mk i2 h2 (today - 2) true]
    today = Ok (0, false).
Proof.
  apply streak_loop_no_log_today.
  intros l [<-|[<-|[]]]; simpl; lia.
Qed.

(** C1, as stated, fails on 2024-06-12: the result is not [(2, false)]. *)
Lemma run_ending_yesterday_does_not_count_2 :
  _calculate_streak
    [HabitLog.mk 1 1 (Scenario.today - 1) true;
     HabitLog.mk 2 1 (Scenario.today - 2) true] Scenario.today
  <> Ok (2, false).
Proof. vm_compute. discriminate. Qed.

(* ===================================================================== *)
(** ** Rows and queries *)
(* ===================================================================== *)

Lemma filter_update_row {A : Type} (key : A -> Z) (k : Z) (f : A -> A)
  (p : A -> bool) (rows : list A) :
  (forall r, p (f r) = p r) ->
  filter p (update_row key k f rows) = update_row key k f (filter p rows).
Proof.
  intros Hp. unfold update_row. induction rows as [|r rows IH]; simpl.
  - reflexivity.
  - destruct (key r =? k) eqn:Hk.
    + rewrite Hp. destruct (p r); simpl; [rewrite Hk|]; now rewrite IH.
    + destruct (p r); simpl; [rewrite Hk|]; now rewrite IH.
Qed.

Lemma update_row_length {A : Type} (key : A -> Z) (k : Z) (f : A -> A)
  (rows : list A) :
  List.length (update_row key k f rows) = List.length rows.
Proof. apply length_map. Qed.

Lemma first_none_filter {A : Type} (p : A -> bool) (rows : list A) :
  first p rows = None -> filter p rows = [].
Proof.
  unfold first. induction rows as [|r rows IH]; simpl; [reflexivity|].
  destruct (p r); [discriminate | assumption].
Qed.

Lemma first_some_filter {A : Type} (p : A -> bool) (rows : list A) (x : A) :
  first p rows = Some x -> exists rest, filter p rows = x :: rest.
Proof.
  unfold first. induction rows as [|r rows IH]; simpl; [discriminate|].
  destruct (p r).
  - intros [= ->]. eauto.
  - assumption.
Qed.

Lemma first_of_filter {A : Type} (p : A -> bool) (rows : list A) x rest :
  filter p rows = x :: rest -> first p rows = Some x.
Proof.
  unfold first. induction rows as [|r rows IH]; simpl; [discriminate|].
  destruct (p r); [now intros [= ->] | assumption].
Qed.

Lemma first_some_in {A : Type} (p : A -> bool) (rows : list A) x :
  first p rows = Some x -> In x rows /\ p x = true.
Proof. apply find_some. Qed.

Lemma fold_max_ge ids x : In x ids -> x <= fold_right Z.max 0 ids.
Proof.
  induction ids as [|y ids IH]; simpl; [tauto|].
  intros [->|H]; [lia | specialize (IH H); lia].
Qed.

Lemma next_id_fresh ids : ~ In (next_id ids) ids.
Proof.
  intros H. apply fold_max_ge in H. unfold next_id in H. lia.
Qed.

Lemma update_row_keys {A : Type} (key : A -> Z) (k : Z) (f : A -> A)
  (rows : list A) :
  (forall r, key (f r) = key r) ->
  map key (update_row key k f rows) = map key rows.
Proof.
  intros Hk. unfold update_row. rewrite map_map. apply map_ext.
  intros r. destruct (key r =? k); [apply Hk | reflexivity].
Qed.

Lemma nodup_key_inj {A : Type} (key : A -> Z) (rows : list A) r1 r2 :
  NoDup (map key rows) -> In r1 rows -> In r2 rows -> key r1 = key r2 ->
  r1 = r2.
Proof.
  induction rows as [|r rows IH]; simpl; [tauto|].
  intros Hnd H1 H2 Hk. inversion Hnd as [|? ? Hnotin Hnd']; subst.
  destruct H1 as [->|H1], H2 as [->|H2]; auto.
  - exfalso. apply Hnotin. rewrite Hk. now apply in_map.
  - exfalso. apply Hnotin. rewrite <- Hk. now apply in_map.
Qed.

Lemma update_row_noop {A : Type} (key : A -> Z) (f : A -> A)
  (rows : list A) row :
  NoDup (map key rows) -> In row rows -> f row = row ->
  update_row key (key row) f rows = rows.
Proof.
  intros Hnd Hin Hf. unfold update_row.
  rewrite <- (map_id rows) at 2. apply map_ext_in.
  intros r Hr. destruct (Z.eqb_spec (key r) (key row)) as [Hk|]; [|reflexivity].
  now rewrite (nodup_key_inj key rows r row Hnd Hr Hin Hk).
Qed.

Lemma bind_ok {A B : Type} (m : result A) (k : A -> result B) (b : B) :
  bind m k = Ok b -> exists a, m = Ok a /\ k a = Ok b.
Proof. destruct m as [a|e]; simpl; [eauto | discriminate]. Qed.

Lemma date_sub_ok d n o : date_sub d n = Ok o -> o = d - n /\ 1 <= o.
Proof.
  unfold date_sub. destruct (0 <? d - n) eqn:H; simpl; [|discriminate].
  destruct (d - n <=? _MAXORDINAL); intros [= <-].
  apply Z.ltb_lt in H. lia.
Qed.

Lemma week_window_ok today ws we :
  week_window today = Ok (ws, we) -> ws = today - 7 /\ we = today - 1.
Proof.
  unfold week_window. intros H.
  apply bind_ok in H as (e1 & H1 & H).
  apply bind_ok in H as (s1 & H2 & H).
  apply date_sub_ok in H1 as [-> _], H2 as [-> _].
  inversion H. lia.
Qed.

Lemma week_window_eq today :
  8 <= today <= _MAXORDINAL ->
  week_window today = Ok (today - 7, today - 1).
Proof.
  intros H. unfold week_window, date_sub, _MAXORDINAL in *. simpl.
  replace (0 <? today - 1) with true by (symmetry; apply Z.ltb_lt; lia).
  replace (today - 1 <=? 3652059) with true by (symmetry; apply Z.leb_le; lia).
  simpl.
  replace (0 <? today - 1 - 6) with true by (symmetry; apply Z.ltb_lt; lia).
  replace (today - 1 - 6 <=? 3652059) with true
    by (symmetry; apply Z.leb_le; lia).
  simpl. do 2 f_equal. lia.
Qed.


(* ===================================================================== *)
(** ** Habit log upsert and habit edit *)
(* ===================================================================== *)

Lemma logs_on_update db habit_id d k c :
  logs_on
    (with_habit_logs db
       (update_row HabitLog.id k (fun l => HabitLog.set_completed l c)
          (habit_logs db))) habit_id d
  = update_row HabitLog.id k (fun l => HabitLog.set_completed l c)
      (logs_on db habit_id d).
Proof. unfold logs_on; simpl. now apply filter_update_row. Qed.

Lemma log_habit_keeps_one_log_per_day db habit_id log_date completed user_id :
  one_log_per_day db ->
  one_log_per_day (fst (log_habit db habit_id log_date completed user_id)).
Proof.
  intros Hinv. unfold log_habit.
  destruct (query_habit db habit_id user_id); [|exact Hinv].
  destruct (first _ (habit_logs db)) as [existing|] eqn:Hfirst; simpl.
  - intros h d. rewrite logs_on_update, update_row_length. apply Hinv.
  - intros h d. unfold logs_on; simpl. rewrite filter_app, length_app; simpl.
    destruct ((habit_id =? h) && (log_date =? d)) eqn:Hkey; simpl.
    + apply andb_true_iff in Hkey as [Hh Hd].
      apply Z.eqb_eq in Hh, Hd; subst h d.
      apply first_none_filter in Hfirst. rewrite Hfirst. simpl; lia.
    + specialize (Hinv h d). unfold logs_on in Hinv. lia.
Qed.

Lemma log_habit_updates_in_place db habit_id log_date completed user_id
  existing :
  query_habit db habit_id user_id <> None ->
  logs_on db habit_id log_date = [existing] ->
  log_habit db habit_id log_date completed user_id
  = (with_habit_logs db
       (update_row HabitLog.id (HabitLog.id existing)
          (fun l => HabitLog.set_completed l completed) (habit_logs db)),
     Some (HabitLog.set_completed existing completed)).
Proof.
  intros Hq Hon. unfold log_habit.
  destruct (query_habit db habit_id user_id); [|contradiction].
  destruct (first _ (habit_logs db)) as [e|] eqn:Hfirst.
  - apply first_some_filter in Hfirst as [rest Hrest].
    unfold logs_on in Hon. rewrite Hon in Hrest. now inversion Hrest.
  - apply first_none_filter in Hfirst. unfold logs_on in Hon.
    rewrite Hon in Hfirst. discriminate.
Qed.

(** C9.  From a table with at most one log per (habit, date), any sequence
    of [log_habit] calls leaves at most one log per (habit, date); and a
    call for a habit and date that already have a log sets that log's
    [completed] flag in place: the same row stands for the pair, no row
    is added and no primary key changes. *)
Theorem log_habit_one_log_per_day (db : Session) (calls : list LogCall) :
  one_log_per_day db ->
  one_log_per_day (log_habits db calls)
  /\ (forall habit_id log_date completed user_id existing,
        query_habit db habit_id user_id <> None ->
        logs_on db habit_id log_date = [existing] ->
        let db' := fst (log_habit db habit_id log_date completed user_id) in
        logs_on db' habit_id log_date
        = [HabitLog.set_completed existing completed]
        /\ List.length (habit_logs db') = List.length (habit_logs db)
        /\ map HabitLog.id (habit_logs db') = map HabitLog.id (habit_logs db)).
Proof.
  intros Hinv. split.
  - unfold log_habits. revert db Hinv.
    induction calls as [|c calls IH]; intros db Hinv; simpl.
    + exact Hinv.
    + apply IH. now apply log_habit_keeps_one_log_per_day.
  - intros h d c u existing Hq Hon db'. subst db'.
    rewrite (log_habit_updates_in_place _ _ _ _ _ existing Hq Hon). simpl.
    split; [|split].
    + rewrite logs_on_update, Hon. unfold update_row; simpl.
      now rewrite Z.eqb_refl.
    + apply update_row_length.
    + unfold update_row. rewrite map_map. apply map_ext.
      intros l. now destruct (HabitLog.id l =? HabitLog.id existing).
Qed.

(** Ann logs Run three times for the same day and once for the next. *)
Lemma log_habit_one_log_per_day_witness :
  one_log_per_day Scenario.fresh_db
  /\ one_log_per_day (log_habits Scenario.fresh_db Scenario.calls)
  /\ logs_on (log_habits Scenario.fresh_db Scenario.calls) 1
       (Scenario.today - 5)
     = [HabitLog.mk 1 1 (Scenario.today - 5) true].
Proof.
  assert (H : one_log_per_day Scenario.fresh_db)
    by (intros habit_id d; simpl; lia).
  split; [exact H|]. split; [|reflexivity].
  exact (proj1 (log_habit_one_log_per_day Scenario.fresh_db Scenario.calls H)).
Defined.

(** C10.  When [edit_habit] finds the habit, its response carries
    [current_streak = 0] and [is_logged_today = false], with the new name,
    and the habit's logs are untouched: whatever streak those logs
    amount to, the response reports 0. *)
Theorem edit_habit_reports_no_streak (db : Session) (habit_id user_id : Z)
  (new_name : string) (habit : Habit.t) :
  query_habit db habit_id user_id = Some habit ->
  exists db' resp,
    edit_habit db habit_id user_id new_name = (db', Some resp)
    /\ HabitResponse.current_streak resp = 0
    /\ HabitResponse.is_logged_today resp = false
    /\ HabitResponse.id resp = Habit.id habit
    /\ HabitResponse.name resp = new_name
    /\ habit_logs db' = habit_logs db.
Proof.
  intros Hq. unfold edit_habit. rewrite Hq.
  eexists _, _. repeat split.
Qed.

(** Renaming Read, which has a streak of three days. *)
Lemma edit_habit_reports_no_streak_witness :
  query_habit Scenario.streak_db 2 1 = Some (Scenario.habit 2 "Read" 1)
  /\ _calculate_streak (query_completed_logs Scenario.streak_db 2)
       Scenario.today = Ok (3, true)
  /\ exists db' resp,
       edit_habit Scenario.streak_db 2 1 "Reading" = (db', Some resp)
       /\ HabitResponse.current_streak resp = 0
       /\ HabitResponse.is_logged_today resp = false
       /\ HabitResponse.id resp = Habit.id (Scenario.habit 2 "Read" 1)
       /\ HabitResponse.name resp = "Reading"
       /\ habit_logs db' = habit_logs Scenario.streak_db.
Proof.
  split; [reflexivity|]. split; [reflexivity|].
  apply (edit_habit_reports_no_streak Scenario.streak_db 2 1 "Reading"
           (Scenario.habit 2 "Read" 1)).
  reflexivity.
Defined.

(* ===================================================================== *)
(** ** Weekly report: the window *)
(* ===================================================================== *)

(** C5, as amended.  For every [today] from 0001-01-08 on (before that the
    subtraction leaves the range of [date] and raises), the generator's
    window is [week_end = today - 1] and [week_start = week_end - 6]; when
    [today] is a Monday, the day the scheduled job runs, it is the week
    from Monday to Sunday that has just ended. *)
Theorem week_window_is_last_seven_days (today : date) :
  8 <= today <= _MAXORDINAL ->
  exists week_start week_end,
    week_window today = Ok (week_start, week_end)
    /\ week_end = today - 1
    /\ week_start = week_end - 6
    /\ (weekday today = 0 ->
        weekday week_start = 0 /\ weekday week_end = 6).
Proof.
  intros H. exists (today - 7), (today - 1).
  split; [now apply week_window_eq|].
  split; [reflexivity|]. split; [lia|].
  unfold weekday. intros H0.
  split; Z.to_euclidean_division_equations; lia.
Qed.

(** On Wednesday 2024-06-12 the window is 2024-06-05 to 2024-06-11; on
    Monday 2024-06-10 it is the week from Monday 2024-06-03 to Sunday
    2024-06-09. *)
Lemma week_window_is_last_seven_days_witness :
  (8 <= Scenario.today <= _MAXORDINAL
   /\ exists week_start week_end,
        week_window Scenario.today = Ok (week_start, week_end)
        /\ week_end = Scenario.today - 1
        /\ week_start = week_end - 6
        /\ (weekday Scenario.today = 0 ->
            weekday week_start = 0 /\ weekday week_end = 6))
  /\ (8 <= Scenario.monday <= _MAXORDINAL
      /\ weekday Scenario.monday = 0
      /\ exists week_start week_end,
           week_window Scenario.monday = Ok (week_start, week_end)
           /\ week_end = Scenario.monday - 1
           /\ week_start = week_end - 6
           /\ (weekday Scenario.monday = 0 ->
               weekday week_start = 0 /\ weekday week_end = 6)).
Proof.
  assert (H : 8 <= Scenario.today <= _MAXORDINAL)
    by (vm_compute; split; discriminate).
  assert (H' : 8 <= Scenario.monday <= _MAXORDINAL)
    by (vm_compute; split; discriminate).
  split.
  - split; [exact H|].
    exact (week_window_is_last_seven_days Scenario.today H).
  - split; [exact H'|]. split; [reflexivity|].
    exact (week_window_is_last_seven_days Scenario.monday H').
Defined.

Example week_window_2024_06_12 :
  week_window (_ymd2ord 2024 6 12)
  = Ok (_ymd2ord 2024 6 5, _ymd2ord 2024 6 11).
Proof. reflexivity. Qed.

(** C5, as stated, fails on 2024-06-12: the window 2024-06-05 to
    2024-06-11 starts on a Wednesday and ends on a Tuesday, it is not a
    Monday-to-Sunday week. *)
Lemma week_window_2024_06_12_is_not_monday_to_sunday :
  ~ (exists week_start week_end,
       week_window (_ymd2ord 2024 6 12) = Ok (week_start, week_end)
       /\ week_end = _ymd2ord 2024 6 11
       /\ week_start = _ymd2ord 2024 6 5
       /\ weekday week_start = 0 /\ weekday week_end = 6).
Proof.
  intros (ws & we & _ & _ & -> & Hmon & _). vm_compute in Hmon. discriminate.
Qed.

(* ===================================================================== *)
(** ** Weekly report: compute, then upsert *)
(* ===================================================================== *)

Lemma generate_weekly_report_eq db user today now :
  generate_weekly_report db user today now
  = d <- report_draft db user today ;;
    Ok (save_report db (User.id user) d now,
        Report.mk (draft_text d) (draft_score d)).
Proof.
  unfold generate_weekly_report, report_draft, rate, completed_tasks_of,
    logs_in_window, save_report.
  destruct (week_window today) as [[ws we]|e]; simpl; [|reflexivity].
  destruct (percentage _ (len (query_habits db (User.id user)) * 7))
    as [hp|e]; simpl; [|reflexivity].
  destruct (py_round hp) as [hr|e]; simpl; [|reflexivity].
  destruct (percentage _ (len (query_tasks db (User.id user))))
    as [tp|e]; simpl; [|reflexivity].
  destruct (py_round tp) as [tr|e]; simpl; [|reflexivity].
  destruct (productivity (Int tr) (Int hr)) as [sc|e]; simpl; [|reflexivity].
  destruct (best_streak_loop db today _ None 0) as [[bh bs]|e]; simpl;
    [|reflexivity].
  destruct (first _ (weekly_reports db)); reflexivity.
Qed.

Lemma best_streak_loop_frame db rs today hs bh bs :
  best_streak_loop (with_weekly_reports db rs) today hs bh bs
  = best_streak_loop db today hs bh bs.
Proof.
  revert bh bs. induction hs as [|h hs IH]; intros bh bs; simpl.
  - reflexivity.
  - change (query_completed_logs (with_weekly_reports db rs) (Habit.id h))
      with (query_completed_logs db (Habit.id h)).
    destruct (_calculate_streak _ today) as [[s b]|e]; simpl; [|reflexivity].
    destruct (bs <? s); apply IH.
Qed.

Lemma report_draft_frame db rs user today :
  report_draft (with_weekly_reports db rs) user today
  = report_draft db user today.
Proof.
  unfold report_draft. rewrite best_streak_loop_frame. reflexivity.
Qed.

Lemma report_draft_window db user today d :
  report_draft db user today = Ok d ->
  draft_week_start d = today - 7 /\ draft_week_end d = today - 1.
Proof.
  unfold report_draft. intros H.
  apply bind_ok in H as ([ws we] & Hw & H).
  apply bind_ok in H as (hr & _ & H).
  apply bind_ok in H as (tr & _ & H).
  apply bind_ok in H as (sc & _ & H).
  apply bind_ok in H as ([bh bs] & _ & H).
  inversion H; subst; simpl. now apply week_window_ok.
Qed.

Lemma save_report_frame db user_id d now :
  save_report db user_id d now
  = with_weekly_reports db (weekly_reports (save_report db user_id d now)).
Proof.
  unfold save_report. now destruct (first _ (weekly_reports db)).
Qed.

Lemma save_report_primary_keys db user_id d now :
  primary_keys db -> primary_keys (save_report db user_id d now).
Proof.
  unfold primary_keys, save_report. intros Hnd.
  destruct (first _ (weekly_reports db)); simpl.
  - now rewrite update_row_keys.
  - rewrite map_app; simpl.
    apply NoDup_app; [assumption | repeat constructor; simpl; tauto |].
    intros x Hx [<-|[]]. now apply next_id_fresh in Hx.
Qed.

Lemma reports_for_update db user_id ws k text sc :
  reports_for
    (with_weekly_reports db
       (update_row WeeklyReport.id k
          (fun r => WeeklyReport.set_report_score r text sc)
          (weekly_reports db))) user_id ws
  = update_row WeeklyReport.id k
      (fun r => WeeklyReport.set_report_score r text sc)
      (reports_for db user_id ws).
Proof. unfold reports_for; simpl. now apply filter_update_row. Qed.

Lemma set_report_score_same r :
  WeeklyReport.set_report_score r (WeeklyReport.report r)
    (WeeklyReport.score r) = r.
Proof. now destruct r. Qed.

Lemma with_weekly_reports_same db :
  with_weekly_reports db (weekly_reports db) = db.
Proof. now destruct db. Qed.

(** What one [save_report] leaves for its own key. *)
Lemma save_report_reports_for db user_id d now :
  at_most_one (reports_for db user_id (draft_week_start d)) ->
  exists row,
    reports_for (save_report db user_id d now) user_id (draft_week_start d)
    = [row]
    /\ WeeklyReport.report row = draft_text d
    /\ WeeklyReport.score row = draft_score d
    /\ (forall existing,
          reports_for db user_id (draft_week_start d) = [existing] ->
          row = WeeklyReport.set_report_score existing (draft_text d)
                  (draft_score d)
          /\ List.length (weekly_reports (save_report db user_id d now))
             = List.length (weekly_reports db)).
Proof.
  unfold at_most_one. intros Hlen. unfold save_report.
  destruct (first _ (weekly_reports db)) as [existing|] eqn:Hfirst.
  - destruct (first_some_filter _ _ _ Hfirst) as [rest Hrest].
    fold (reports_for db user_id (draft_week_start d)) in Hrest.
    rewrite Hrest in Hlen.
    destruct rest; [|simpl in Hlen; lia].
    exists (WeeklyReport.set_report_score existing (draft_text d)
              (draft_score d)).
    rewrite reports_for_update, Hrest. unfold update_row; simpl.
    rewrite Z.eqb_refl.
    split; [reflexivity|]. split; [reflexivity|]. split; [reflexivity|].
    intros e [= ->]. split; [reflexivity|]. simpl. apply length_map.
  - apply first_none_filter in Hfirst.
    fold (reports_for db user_id (draft_week_start d)) in Hfirst.
    eexists. unfold reports_for in *; simpl.
    rewrite filter_app, Hfirst; simpl. rewrite !Z.eqb_refl; simpl.
    split; [reflexivity|]. split; [reflexivity|]. split; [reflexivity|].
    intros e He. discriminate.
Qed.

(** The upsert keeps at most one row per user and week, for every user and
    week. *)
Lemma save_report_keeps_at_most_one db user_id d now uid ws :
  at_most_one (reports_for db uid ws) ->
  at_most_one (reports_for (save_report db user_id d now) uid ws).
Proof.
  unfold at_most_one, save_report. intros Hlen.
  destruct (first _ (weekly_reports db)) as [existing|] eqn:Hfirst.
  - rewrite reports_for_update. unfold update_row.
    now rewrite length_map.
  - unfold reports_for in *; simpl. rewrite filter_app, length_app; simpl.
    destruct ((user_id =? uid) && (draft_week_start d =? ws)) eqn:Hkey;
      simpl; [|lia].
    apply andb_true_iff in Hkey as [Hu Hw]. apply Z.eqb_eq in Hu, Hw.
    subst uid ws. apply first_none_filter in Hfirst. rewrite Hfirst.
    simpl; lia.
Qed.

Lemma generate_weekly_report_keeps_at_most_one db user today now db1 r1 :
  generate_weekly_report db user today now = Ok (db1, r1) ->
  forall uid ws,
    at_most_one (reports_for db uid ws) ->
    at_most_one (reports_for db1 uid ws).
Proof.
  rewrite generate_weekly_report_eq. intros Hgen uid ws.
  apply bind_ok in Hgen as (d & _ & Hgen). inversion Hgen; subst.
  apply save_report_keeps_at_most_one.
Qed.

(** C4.  In a database with at most one report row for the user and the
    week, generating the report leaves exactly one row for
    [(user, week_start)], holding the returned text and score; when a row
    was there it is that row with text and score overwritten and no row
    added.  Generating again for the same user and [today] returns the
    same output and leaves that one row, the table as long as before (and,
    with unique primary keys, the whole database unchanged). *)
Theorem generate_weekly_report_idempotent (db : Session) (user : User.t)
  (today : date) (now now' : datetime) (db1 : Session) (r1 : Report.t) :
  at_most_one (reports_for db (User.id user) (today - 7)) ->
  generate_weekly_report db user today now = Ok (db1, r1) ->
  exists row db2,
    reports_for db1 (User.id user) (today - 7) = [row]
    /\ WeeklyReport.report row = Report.report r1
    /\ WeeklyReport.score row = Report.score r1
    /\ (forall existing,
          reports_for db (User.id user) (today - 7) = [existing] ->
          row = WeeklyReport.set_report_score existing (Report.report r1)
                  (Report.score r1)
          /\ List.length (weekly_reports db1)
             = List.length (weekly_reports db))
    /\ generate_weekly_report db1 user today now' = Ok (db2, r1)
    /\ reports_for db2 (User.id user) (today - 7) = [row]
    /\ List.length (weekly_reports db2) = List.length (weekly_reports db1)
    /\ (primary_keys db -> db2 = db1).
Proof.
  intros Hlen Hgen. rewrite generate_weekly_report_eq in Hgen.
  apply bind_ok in Hgen as (d & Hd & Hgen).
  inversion Hgen; subst db1 r1; clear Hgen.
  destruct (report_draft_window _ _ _ _ Hd) as [Hws _].
  rewrite <- Hws in *.
  destruct (save_report_reports_for db (User.id user) d now Hlen)
    as (row & Hrow & Htext & Hscore & Hover).
  set (db1 := save_report db (User.id user) d now) in *.
  assert (Hd1 : report_draft db1 user today = Ok d).
  { unfold db1. rewrite save_report_frame, report_draft_frame. exact Hd. }
  assert (Hfirst1 :
            first (fun r => (WeeklyReport.user_id r =? User.id user)
                            && (WeeklyReport.week_start r
                                =? draft_week_start d))
              (weekly_reports db1) = Some row).
  { eapply first_of_filter. exact Hrow. }
  assert (Hsave : save_report db1 (User.id user) d now'
                  = with_weekly_reports db1
                      (update_row WeeklyReport.id (WeeklyReport.id row)
                         (fun r => WeeklyReport.set_report_score r
                                     (draft_text d) (draft_score d))
                         (weekly_reports db1))).
  { unfold save_report. now rewrite Hfirst1. }
  assert (Hrowfix : WeeklyReport.set_report_score row (draft_text d)
                      (draft_score d) = row).
  { rewrite <- Htext, <- Hscore. apply set_report_score_same. }
  exists row, (save_report db1 (User.id user) d now'). simpl.
  split; [exact Hrow|]. split; [exact Htext|]. split; [exact Hscore|].
  split; [exact Hover|].
  split; [rewrite generate_weekly_report_eq, Hd1; reflexivity|].
  rewrite Hsave. split; [|split].
  - rewrite reports_for_update, Hrow. unfold update_row; simpl.
    now rewrite Z.eqb_refl, Hrowfix.
  - simpl. apply length_map.
  - intros Hpk.
    assert (Hpk1 : primary_keys db1) by now apply save_report_primary_keys.
    rewrite update_row_noop; auto using with_weekly_reports_same.
    apply (first_some_in _ _ _ Hfirst1).
Qed.

Lemma generate_weekly_report_idempotent_witness :
  at_most_one (reports_for Scenario.week_db 1 (Scenario.today - 7))
  /\ generate_weekly_report Scenario.week_db Scenario.ann Scenario.today
       1718180000 = Ok (Scenario.week_db1, Scenario.week_report)
  /\ exists row db2,
       reports_for Scenario.week_db1 (User.id Scenario.ann)
         (Scenario.today - 7) = [row]
       /\ WeeklyReport.report row = Report.report Scenario.week_report
       /\ WeeklyReport.score row = Report.score Scenario.week_report
       /\ (forall existing,
             reports_for Scenario.week_db (User.id Scenario.ann)
               (Scenario.today - 7) = [existing] ->
             row = WeeklyReport.set_report_score existing
                     (Report.report Scenario.week_report)
                     (Report.score Scenario.week_report)
             /\ List.length (weekly_reports Scenario.week_db1)
                = List.length (weekly_reports Scenario.week_db))
       /\ generate_weekly_report Scenario.week_db1 Scenario.ann
            Scenario.today 1718190000 = Ok (db2, Scenario.week_report)
       /\ reports_for db2 (User.id Scenario.ann) (Scenario.today - 7) = [row]
       /\ List.length (weekly_reports db2)
          = List.length (weekly_reports Scenario.week_db1)
       /\ (primary_keys Scenario.week_db -> db2 = Scenario.week_db1).
Proof.
  assert (H1 : at_most_one
                 (reports_for Scenario.week_db 1 (Scenario.today - 7)))
    by (unfold at_most_one; simpl; lia).
  assert (H2 : generate_weekly_report Scenario.week_db Scenario.ann
                 Scenario.today 1718180000
               = Ok (Scenario.week_db1, Scenario.week_report))
    by (vm_compute; reflexivity).
  split; [exact H1|]. split; [exact H2|].
  exact (generate_weekly_report_idempotent Scenario.week_db Scenario.ann
           Scenario.today 1718180000 1718190000 Scenario.week_db1
           Scenario.week_report H1 H2).
Defined.

(* ===================================================================== *)
(** ** Weekly report: the best streak *)
(* ===================================================================== *)

Lemma habit_streak_of_calc db today habit s b :
  _calculate_streak (query_completed_logs db (Habit.id habit)) today
  = Ok (s, b) ->
  habit_streak db today habit = Ok s.
Proof. unfold habit_streak. now intros ->. Qed.

(** The loop keeps the first habit whose streak is the largest, provided that
    streak beats the one it started with. *)
Lemma best_streak_loop_spec db today hs :
  forall best0 streak0 best streak,
    best_streak_loop db today hs best0 streak0 = Ok (best, streak) ->
    (forall h, In h hs ->
               exists s, habit_streak db today h = Ok s /\ s <= streak)
    /\ ((best = best0 /\ streak = streak0)
        \/ (exists pre h post,
              hs = pre ++ h :: post
              /\ best = Some (Habit.name h)
              /\ habit_streak db today h = Ok streak
              /\ streak0 < streak
              /\ forall h', In h' pre ->
                   exists s', habit_streak db today h' = Ok s' /\ s' < streak)).
Proof.
  induction hs as [|habit rest IH]; intros best0 streak0 best streak Hrun;
    simpl in Hrun.
  - inversion Hrun; subst. split; [intros h []|now left].
  - apply bind_ok in Hrun as ([s b] & Hcalc & Hrun).
    apply habit_streak_of_calc in Hcalc.
    destruct (Z.ltb_spec streak0 s) as [Hlt|Hge];
      apply IH in Hrun as [Hall Hcase]; clear IH.
    + assert (Hs : s <= streak).
      { destruct Hcase as [[_ ->]|(pre & h & post & _ & _ & _ & Hlt' & _)];
          lia. }
      split.
      * intros h [<-|Hh]; [eauto | now apply Hall].
      * right.
        destruct Hcase
          as [[-> ->]|(pre & h & post & -> & -> & Hh & Hlt' & Hpre)].
        -- exists [], habit, rest. repeat split; auto. intros h' [].
        -- exists (habit :: pre), h, post. repeat split; auto; [lia|].
           intros h' [<-|Hh']; [|now apply Hpre].
           exists s; split; [assumption|lia].
    + assert (Hs : streak0 <= streak).
      { destruct Hcase as [[_ ->]|(pre & h & post & _ & _ & _ & Hlt' & _)];
          lia. }
      split.
      * intros h [<-|Hh]; [exists s; split; [assumption|lia] | now apply Hall].
      * destruct Hcase as [Hsame|(pre & h & post & -> & -> & Hh & Hlt' & Hpre)];
          [now left | right].
        exists (habit :: pre), h, post. repeat split; auto.
        intros h' [<-|Hh']; [|now apply Hpre].
        exists s; split; [assumption|lia].
Qed.

Lemma generate_weekly_report_text db user today now db' r :
  generate_weekly_report db user today now = Ok (db', r) ->
  exists task_rate habit_rate best best_streak,
    rate (completed_tasks_of db (User.id user))
      (len (query_tasks db (User.id user))) = Ok task_rate
    /\ rate (logs_in_window db (User.id user) (today - 7) (today - 1))
         (len (query_habits db (User.id user)) * 7) = Ok habit_rate
    /\ productivity (Int task_rate) (Int habit_rate) = Ok (Report.score r)
    /\ best_streak_loop db today (query_habits db (User.id user)) None 0
       = Ok (best, best_streak)
    /\ Report.report r
       = report_text (opening (Report.score r) (display_name user))
           (completed_tasks_of db (User.id user))
           (len (query_tasks db (User.id user))) task_rate
           (logs_in_window db (User.id user) (today - 7) (today - 1))
           (len (query_habits db (User.id user)) * 7) habit_rate
           (Report.score r) (streak_line best best_streak)
           (today - 7) (today - 1).
Proof.
  rewrite generate_weekly_report_eq. intros H.
  apply bind_ok in H as (d & Hd & H). inversion H; subst db' r; clear H.
  unfold report_draft in Hd.
  apply bind_ok in Hd as ([ws we] & Hw & Hd).
  apply week_window_ok in Hw as [-> ->].
  apply bind_ok in Hd as (hr & Hhr & Hd).
  apply bind_ok in Hd as (tr & Htr & Hd).
  apply bind_ok in Hd as (sc & Hsc & Hd).
  apply bind_ok in Hd as ([bh bs] & Hbest & Hd).
  inversion Hd; subst d; clear Hd. simpl.
  exists tr, hr, bh, bs. repeat split; assumption.
Qed.

(** C6.  In a generated report the best-streak sentence is built from the
    outcome of the loop over all the user's non-deleted habits, each
    streak taken at [today]: no habit has a longer streak than the one
    kept; a habit that is named is the first one in the loop with that
    streak, which is positive; and when every streak is 0 no habit is
    named and the sentence is the prompt to start a habit. *)
Theorem report_names_first_best_streak (db : Session) (user : User.t)
  (today : date) (now : datetime) (db' : Session) (r : Report.t) :
  generate_weekly_report db user today now = Ok (db', r) ->
  let all_habits := query_habits db (User.id user) in
  exists best best_streak task_rate habit_rate,
    best_streak_loop db today all_habits None 0 = Ok (best, best_streak)
    /\ Report.report r
       = report_text (opening (Report.score r) (display_name user))
           (completed_tasks_of db (User.id user))
           (len (query_tasks db (User.id user))) task_rate
           (logs_in_window db (User.id user) (today - 7) (today - 1))
           (len all_habits * 7) habit_rate
           (Report.score r) (streak_line best best_streak)
           (today - 7) (today - 1)
    /\ (forall h, In h all_habits ->
          exists s, habit_streak db today h = Ok s /\ s <= best_streak)
    /\ (forall name, best = Some name ->
          exists pre h post,
            all_habits = pre ++ h :: post
            /\ name = Habit.name h
            /\ habit_streak db today h = Ok best_streak
            /\ 0 < best_streak
            /\ forall h', In h' pre ->
                 exists s', habit_streak db today h' = Ok s'
                            /\ s' < best_streak)
    /\ ((forall h, In h all_habits -> habit_streak db today h = Ok 0) ->
        best = None /\ streak_line best best_streak = start_a_habit).
Proof.
  intros Hgen all_habits.
  destruct (generate_weekly_report_text _ _ _ _ _ _ Hgen)
    as (tr & hr & best & bs & _ & _ & _ & Hbest & Htext).
  fold all_habits in Hbest, Htext.
  destruct (best_streak_loop_spec _ _ _ _ _ _ _ Hbest) as [Hall Hcase].
  exists best, bs, tr, hr.
  split; [exact Hbest|]. split; [exact Htext|].
  split; [exact Hall|]. split.
  - intros name ->.
    destruct Hcase as [[[=] _]|(pre & h & post & Hhs & [= ->] & Hrest)].
    exists pre, h, post. tauto.
  - intros Hzero.
    destruct Hcase as [[-> _]|(pre & h & post & Hhs & _ & Hh & Hlt & _)].
    + now split.
    + rewrite Hzero in Hh; [inversion Hh; lia|].
      rewrite Hhs. apply in_or_app. right. now left.
Qed.

(** Run has a streak of two days, Read and Walk of three: Read is named. *)
Lemma report_names_first_best_streak_witness :
  generate_weekly_report Scenario.streak_db Scenario.ann Scenario.today
    1718180000 = Ok (Scenario.streak_db1, Scenario.streak_report)
  /\ best_streak_loop Scenario.streak_db Scenario.today
       (query_habits Scenario.streak_db 1) None 0 = Ok (Some "Read", 3)
  /\ let all_habits := query_habits Scenario.streak_db (User.id Scenario.ann) in
     exists best best_streak task_rate habit_rate,
       best_streak_loop Scenario.streak_db Scenario.today all_habits None 0
       = Ok (best, best_streak)
       /\ Report.report Scenario.streak_report
          = report_text
              (opening (Report.score Scenario.streak_report)
                 (display_name Scenario.ann))
              (completed_tasks_of Scenario.streak_db (User.id Scenario.ann))
              (len (query_tasks Scenario.streak_db (User.id Scenario.ann)))
              task_rate
              (logs_in_window Scenario.streak_db (User.id Scenario.ann)
                 (Scenario.today - 7) (Scenario.today - 1))
              (len all_habits * 7) habit_rate
              (Report.score Scenario.streak_report)
              (streak_line best best_streak)
              (Scenario.today - 7) (Scenario.today - 1)
       /\ (forall h, In h all_habits ->
             exists s, habit_streak Scenario.streak_db Scenario.today h = Ok s
                       /\ s <= best_streak)
       /\ (forall name, best = Some name ->
             exists pre h post,
               all_habits = pre ++ h :: post
               /\ name = Habit.name h
               /\ habit_streak Scenario.streak_db Scenario.today h
                  = Ok best_streak
               /\ 0 < best_streak
               /\ forall h', In h' pre ->
                    exists s',
                      habit_streak Scenario.streak_db Scenario.today h'
                      = Ok s' /\ s' < best_streak)
       /\ ((forall h, In h all_habits ->
              habit_streak Scenario.streak_db Scenario.today h = Ok 0) ->
           best = None /\ streak_line best best_streak = start_a_habit).
Proof.
  assert (H : generate_weekly_report Scenario.streak_db Scenario.ann
                Scenario.today 1718180000
              = Ok (Scenario.streak_db1, Scenario.streak_report))
    by (vm_compute; reflexivity).
  split; [exact H|]. split; [reflexivity|].
  exact (report_names_first_best_streak Scenario.streak_db Scenario.ann
           Scenario.today 1718180000 Scenario.streak_db1
           Scenario.streak_report H).
Defined.

(* ===================================================================== *)
(** ** The weekly job *)
(* ===================================================================== *)

Lemma save_report_has_report db user_id d now :
  has_report (save_report db user_id d now) user_id (draft_week_start d)
    (draft_text d) (draft_score d).
Proof.
  unfold save_report, has_report.
  destruct (first _ (weekly_reports db)) as [existing|] eqn:Hfirst; simpl.
  - apply first_some_in in Hfirst as [Hin Hkey].
    apply andb_true_iff in Hkey as [Hu Hw]. apply Z.eqb_eq in Hu, Hw.
    exists (WeeklyReport.set_report_score existing (draft_text d)
              (draft_score d)).
    split; [|now simpl].
    unfold update_row. apply in_map_iff. exists existing.
    now rewrite Z.eqb_refl.
  - eexists. split; [apply in_or_app; right; now left|]. now simpl.
Qed.

Lemma save_report_keeps_others db user_id d now uid ws text sc :
  primary_keys db -> uid <> user_id ->
  has_report db uid ws text sc ->
  has_report (save_report db user_id d now) uid ws text sc.
Proof.
  unfold primary_keys, save_report, has_report.
  intros Hpk Hne (row & Hin & Hu & Hw & Ht & Hs).
  destruct (first _ (weekly_reports db)) as [existing|] eqn:Hfirst; simpl.
  - apply first_some_in in Hfirst as [Hine Hkey].
    apply andb_true_iff in Hkey as [Hue _]. apply Z.eqb_eq in Hue.
    exists row. split; [|tauto].
    unfold update_row. apply in_map_iff. exists row. split; [|assumption].
    destruct (Z.eqb_spec (WeeklyReport.id row) (WeeklyReport.id existing))
      as [Hid|]; [|reflexivity].
    exfalso. apply Hne.
    rewrite <- Hu, <- Hue.
    now rewrite (nodup_key_inj WeeklyReport.id _ row existing Hpk Hin Hine Hid).
  - exists row. split; [apply in_or_app; now left | tauto].
Qed.

Lemma job_record_frame db rs today user :
  job_record (with_weekly_reports db rs) today user = job_record db today user.
Proof. unfold job_record. now rewrite report_draft_frame. Qed.

Lemma run_weekly_reports_loop_spec today now us :
  forall w,
    primary_keys (session w) ->
    NoDup (map User.id us) ->
    let w' := run_weekly_reports_loop us w today now in
    session w' = with_weekly_reports (session w) (weekly_reports (session w'))
    /\ primary_keys (session w')
    /\ logged w' = logged w ++ map (job_record (session w) today) us
    /\ (forall uid ws text sc,
          (forall u, In u us -> User.id u <> uid) ->
          has_report (session w) uid ws text sc ->
          has_report (session w') uid ws text sc)
    /\ (forall u d,
          In u us -> report_draft (session w) u today = Ok d ->
          has_report (session w') (User.id u) (draft_week_start d)
            (draft_text d) (draft_score d)).
Proof.
  induction us as [|user rest IH]; intros w Hpk Hnd; simpl.
  - rewrite app_nil_r, with_weekly_reports_same.
    repeat split; auto. intros u d [].
  - inversion Hnd as [|? ? Hnotin Hnd']; subst.
    rewrite generate_weekly_report_eq.
    unfold job_record at 1.
    destruct (report_draft (session w) user today) as [d|e] eqn:Hd; simpl.
    + set (w1 := mkWorld (save_report (session w) (User.id user) d now) _).
      assert (Hpk1 : primary_keys (session w1))
        by (now apply save_report_primary_keys).
      destruct (IH w1 Hpk1 Hnd') as (Hfr & Hpk' & Hlog & Hkeep & Hnew).
      assert (Hfr1 : session w1
                     = with_weekly_reports (session w)
                         (weekly_reports (session w1)))
        by apply save_report_frame.
      split; [|split; [exact Hpk'|split; [|split]]].
      * rewrite Hfr at 1. now rewrite Hfr1.
      * rewrite Hlog.
        replace (map (job_record (session w1) today) rest)
          with (map (job_record (session w) today) rest)
          by (apply map_ext; intros u; rewrite Hfr1; symmetry;
              apply job_record_frame).
        unfold w1; cbn [logged]. now rewrite <- app_assoc.
      * intros uid ws text sc Hother Hhas.
        apply Hkeep; [intros u Hu; apply Hother; now right|].
        apply save_report_keeps_others; auto.
        intros ->. now apply (Hother user); [left|].
      * intros u d' [->|Hu] Hd'.
        -- rewrite Hd in Hd'. inversion Hd'; subst d'.
           apply Hkeep; [|apply save_report_has_report].
           intros u' Hu' Heq. apply Hnotin. rewrite <- Heq. now apply in_map.
        -- apply Hnew; [assumption|].
           rewrite Hfr1, report_draft_frame. exact Hd'.
    + set (w1 := mkWorld (session w) _).
      destruct (IH w1 Hpk Hnd') as (Hfr & Hpk' & Hlog & Hkeep & Hnew).
      split; [exact Hfr|split; [exact Hpk'|split; [|split]]].
      * rewrite Hlog. unfold w1; cbn [logged session].
        now rewrite <- app_assoc.
      * intros uid ws text sc Hother Hhas.
        apply Hkeep; [intros u Hu; apply Hother; now right | exact Hhas].
      * intros u d' [->|Hu] Hd'; [congruence|]. now apply Hnew.
Qed.

(** C3, as amended.  [run_weekly_reports] returns nothing ([None]); the
    number of users processed is only written to the log, in the last
    record, and counts every user, failed or not.  A user whose report
    generation raises gets an ERROR record and the loop goes on: every
    user whose generation succeeds has the report it returns stored for
    the week, whichever other users fail.  (With three users of which the
    second fails: the last record says 3 and the reports of the first and
    the third are stored.) *)
Theorem run_weekly_reports_isolates_failures (w : World) (today : date)
  (now : datetime) :
  primary_keys (session w) ->
  NoDup (map User.id (users (session w))) ->
  exists w',
    run_weekly_reports w today now = (w', PyNone)
    /\ logged w'
       = logged w ++ [job_started]
         ++ map (job_record (session w) today) (users (session w))
         ++ [job_done (len (users (session w)))]
    /\ (forall u,
          In u (users (session w)) ->
          match generate_weekly_report (session w) u today now with
          | Ok (_, r) =>
              has_report (session w') (User.id u) (today - 7)
                (Report.report r) (Report.score r)
          | Raise e =>
              In (mkLogRecord ERROR
                    ("Failed to generate report for " ++ User.email u ++ ": "
                     ++ exception_str e)%string) (logged w')
          end).
Proof.
  intros Hpk Hnd. unfold run_weekly_reports, get_all_users; simpl.
  set (w0 := mkWorld (session w) _).
  destruct (run_weekly_reports_loop_spec today now (users (session w)) w0
              Hpk Hnd) as (Hfr & _ & Hlog & _ & Hnew).
  eexists. split; [reflexivity|]. simpl. split.
  - rewrite Hlog. unfold w0; simpl. now rewrite <- !app_assoc.
  - intros u Hu. rewrite generate_weekly_report_eq.
    destruct (report_draft (session w) u today) as [d|e] eqn:Hd; simpl.
    + destruct (report_draft_window _ _ _ _ Hd) as [<- _].
      now apply Hnew.
    + rewrite Hlog. apply in_or_app. left. apply in_or_app. right.
      apply in_map_iff. exists u. split; [|assumption].
      unfold job_record, w0; simpl. now rewrite Hd.
Qed.

(** Three users, the second of which fails. *)
Lemma run_weekly_reports_isolates_failures_witness :
  primary_keys (session Scenario.batch_world)
  /\ NoDup (map User.id (users (session Scenario.batch_world)))
  /\ raises (generate_weekly_report Scenario.batch_db Scenario.bob
               Scenario.first_days 1718180000) = true
  /\ exists w',
       run_weekly_reports Scenario.batch_world Scenario.first_days 1718180000
       = (w', PyNone)
       /\ logged w'
          = logged Scenario.batch_world ++ [job_started]
            ++ map (job_record (session Scenario.batch_world)
                      Scenario.first_days)
                 (users (session Scenario.batch_world))
            ++ [job_done (len (users (session Scenario.batch_world)))]
       /\ (forall u,
             In u (users (session Scenario.batch_world)) ->
             match generate_weekly_report (session Scenario.batch_world) u
                     Scenario.first_days 1718180000 with
             | Ok (_, r) =>
                 has_report (session w') (User.id u)
                   (Scenario.first_days - 7)
                   (Report.report r) (Report.score r)
             | Raise e =>
                 In (mkLogRecord ERROR
                       ("Failed to generate report for " ++ User.email u
                        ++ ": " ++ exception_str e)%string) (logged w')
             end).
Proof.
  assert (H1 : primary_keys (session Scenario.batch_world))
    by (unfold primary_keys; simpl; constructor).
  assert (H2 : NoDup (map User.id (users (session Scenario.batch_world)))).
  { simpl. repeat (constructor; [simpl; intuition discriminate|]).
    constructor. }
  split; [exact H1|]. split; [exact H2|]. split; [reflexivity|].
  exact (run_weekly_reports_isolates_failures Scenario.batch_world
           Scenario.first_days 1718180000 H1 H2).
Defined.

Example run_weekly_reports_three_users :
  let (w', ret) :=
    run_weekly_reports Scenario.batch_world Scenario.first_days 1718180000 in
  ret = PyNone
  /\ map level (logged w') = [INFO; INFO; ERROR; INFO; INFO]
  /\ last (logged w') job_started = job_done 3
  /\ map WeeklyReport.user_id (weekly_reports (session w')) = [1; 3]
  /\ map WeeklyReport.score (weekly_reports (session w')) = [36; 60].
Proof. vm_compute. repeat split. Qed.

(** C3, as stated, fails on three users of which the second fails: the
    call does not return [{usersProcessed: 3}], it returns [None]. *)
Lemma run_weekly_reports_returns_none :
  snd (run_weekly_reports Scenario.batch_world Scenario.first_days 1718180000)
  <> PyDict [("usersProcessed", 3)].
Proof. vm_compute. discriminate. Qed.

(* ===================================================================== *)
(** ** Rates of an empty input *)
(* ===================================================================== *)

Lemma no_zero_division_bind {A B : Type} (m : result A) (k : A -> result B) :
  no_zero_division m ->
  (forall a, no_zero_division (k a)) ->
  no_zero_division (bind m k).
Proof. destruct m as [a|e]; simpl; auto. Qed.

Lemma no_zero_division_ok {A : Type} (a : A) : no_zero_division (Ok a).
Proof. exact I. Qed.

Create HintDb no_zero_division.

#[local] Hint Resolve no_zero_division_bind no_zero_division_ok
  : no_zero_division.

(** Closes a goal [no_zero_division m] along the binds of [m]. *)
Ltac no_zero_division :=
  repeat first
    [ apply no_zero_division_bind;
      [solve [auto with no_zero_division] | intros; cbv beta]
    | match goal with
      | |- no_zero_division (match ?p with _ => _ end) => destruct p
      end ];
  auto with no_zero_division.

Lemma date_sub_no_zero_division d n : no_zero_division (date_sub d n).
Proof. unfold date_sub. now destruct (_ && _). Qed.

#[local] Hint Resolve date_sub_no_zero_division : no_zero_division.

Lemma week_window_no_zero_division today :
  no_zero_division (week_window today).
Proof. unfold week_window. no_zero_division. Qed.

Lemma percentage_zero_total part : percentage part 0 = Ok (Int 0).
Proof. reflexivity. Qed.

(** The guard makes the division safe: [percentage] always returns. *)
Lemma percentage_returns part total : exists n, percentage part total = Ok n.
Proof.
  unfold percentage, int_truediv.
  destruct (Z.eqb_spec total 0) as [->|Hne]; simpl; [eauto|].
  destruct total; [contradiction| |]; simpl; eauto.
Qed.

Lemma percentage_no_zero_division part total :
  no_zero_division (percentage part total).
Proof. now destruct (percentage_returns part total) as [n ->]. Qed.

Lemma py_round_no_zero_division n : no_zero_division (py_round n).
Proof. destruct n as [z|[s|s| |s m e]]; now simpl. Qed.

#[local] Hint Resolve week_window_no_zero_division
  percentage_no_zero_division py_round_no_zero_division : no_zero_division.

Lemma rate_no_zero_division part total : no_zero_division (rate part total).
Proof. unfold rate. no_zero_division. Qed.

Lemma rate_zero_total part : rate part 0 = Ok 0.
Proof. reflexivity. Qed.

Lemma productivity_no_zero_division t h : no_zero_division (productivity t h).
Proof. apply py_round_no_zero_division. Qed.

#[local] Hint Resolve rate_no_zero_division productivity_no_zero_division
  : no_zero_division.

Lemma calculate_streak_loop_no_zero_division logs today :
  forall streak lt cd,
    no_zero_division (_calculate_streak_loop logs today streak lt cd).
Proof.
  induction logs as [|log rest IH]; intros streak lt cd; simpl;
    [exact I|].
  destruct (HabitLog.date log =? today); [no_zero_division|].
  destruct (HabitLog.date log =? cd); [no_zero_division|].
  destruct (HabitLog.date log <? cd); [exact I | apply IH].
Qed.

Lemma calculate_streak_no_zero_division logs today :
  no_zero_division (_calculate_streak logs today).
Proof. apply calculate_streak_loop_no_zero_division. Qed.

#[local] Hint Resolve calculate_streak_no_zero_division : no_zero_division.

Lemma best_streak_loop_no_zero_division db today hs :
  forall best streak,
    no_zero_division (best_streak_loop db today hs best streak).
Proof.
  induction hs as [|h hs IH]; intros best streak; simpl; [exact I|].
  no_zero_division.
Qed.

Lemma dashboard_streaks_no_zero_division db today hs :
  forall n acc, no_zero_division (dashboard_streaks db today hs n acc).
Proof.
  induction hs as [|h hs IH]; intros n acc; simpl; [exact I|].
  no_zero_division.
Qed.

#[local] Hint Resolve best_streak_loop_no_zero_division
  dashboard_streaks_no_zero_division : no_zero_division.

Lemma report_draft_no_zero_division db user today :
  no_zero_division (report_draft db user today).
Proof. unfold report_draft. no_zero_division. Qed.

#[local] Hint Resolve report_draft_no_zero_division : no_zero_division.

Lemma generate_weekly_report_no_zero_division db user today now :
  no_zero_division (generate_weekly_report db user today now).
Proof. rewrite generate_weekly_report_eq. no_zero_division. Qed.

Lemma get_dashboard_no_zero_division db user_id today :
  no_zero_division (get_dashboard db user_id today).
Proof. unfold get_dashboard. no_zero_division. Qed.

Lemma date_sub_weekday today :
  valid_date today ->
  date_sub today (weekday today) = Ok (today - weekday today).
Proof.
  unfold valid_date, date_sub, weekday, _MAXORDINAL. intros H.
  replace (0 <? today - (today + 6) mod 7) with true
    by (symmetry; apply Z.ltb_lt; Z.to_euclidean_division_equations; lia).
  replace (today - (today + 6) mod 7 <=? 3652059) with true
    by (symmetry; apply Z.leb_le; Z.to_euclidean_division_equations; lia).
  reflexivity.
Qed.

Lemma productivity_zero : productivity (Int 0) (Int 0) = Ok 0.
Proof. reflexivity. Qed.

(** C7.  Neither the dashboard nor the report ever ends in a
    [ZeroDivisionError]: a zero total gives rate 0 by definition.  With no
    non-deleted task the dashboard's [task_completion_rate] is 0, with no
    non-deleted habit its [habit_consistency_rate] is 0; and with neither
    the dashboard (on any valid day) and the report (from 0001-01-08 on)
    do return, with rates and score 0. *)
Theorem rates_of_empty_input (db : Session) (user_id : Z) (today : date) :
  no_zero_division (get_dashboard db user_id today)
  /\ (forall user now,
        no_zero_division (generate_weekly_report db user today now))
  /\ (forall part, percentage part 0 = Ok (Int 0) /\ rate part 0 = Ok 0)
  /\ (query_tasks db user_id = [] ->
      forall d, get_dashboard db user_id today = Ok d ->
                Dashboard.task_completion_rate d = Int 0)
  /\ (query_habits db user_id = [] ->
      forall d, get_dashboard db user_id today = Ok d ->
                Dashboard.habit_consistency_rate d = Int 0)
  /\ (query_tasks db user_id = [] -> query_habits db user_id = [] ->
      valid_date today ->
      exists d, get_dashboard db user_id today = Ok d
                /\ Dashboard.task_completion_rate d = Int 0
                /\ Dashboard.habit_consistency_rate d = Int 0
                /\ Dashboard.productivity_score d = 0)
  /\ (query_tasks db user_id = [] -> query_habits db user_id = [] ->
      8 <= today <= _MAXORDINAL ->
      forall user now,
        User.id user = user_id ->
        exists db' r, generate_weekly_report db user today now = Ok (db', r)
                      /\ Report.score r = 0).
Proof.
  split; [apply get_dashboard_no_zero_division|].
  split; [intros; apply generate_weekly_report_no_zero_division|].
  split; [now intros|].
  split; [|split; [|split]].
  - intros Ht d Hd. unfold get_dashboard in Hd. rewrite Ht in Hd.
    apply bind_ok in Hd as (ws & _ & Hd).
    change (percentage (count_if _ []) (len [])) with (Ok (Int 0)) in Hd.
    apply bind_ok in Hd as (tp & [= <-] & Hd).
    apply bind_ok in Hd as ([n cs] & _ & Hd).
    apply bind_ok in Hd as (hp & _ & Hd).
    apply bind_ok in Hd as (sc & _ & Hd).
    now inversion Hd.
  - intros Hh d Hd. unfold get_dashboard in Hd. rewrite Hh in Hd.
    apply bind_ok in Hd as (ws & _ & Hd).
    apply bind_ok in Hd as (tp & _ & Hd).
    apply bind_ok in Hd as ([n cs] & _ & Hd).
    change (percentage _ (if negb (len [] =? 0) then len [] * 7 else 0))
      with (Ok (Int 0)) in Hd.
    apply bind_ok in Hd as (hp & [= <-] & Hd).
    apply bind_ok in Hd as (sc & _ & Hd).
    now inversion Hd.
  - intros Ht Hh Hv. unfold get_dashboard.
    rewrite Ht, Hh, (date_sub_weekday today Hv).
    eexists. split; [reflexivity|]. now simpl.
  - intros Ht Hh Hv user now <-.
    rewrite generate_weekly_report_eq. unfold report_draft.
    rewrite (week_window_eq today Hv), Ht, Hh.
    eexists _, _. split; [reflexivity|]. reflexivity.
Qed.

Lemma rates_of_empty_input_witness :
  query_tasks Scenario.empty_db 1 = []
  /\ query_habits Scenario.empty_db 1 = []
  /\ valid_date Scenario.today
  /\ exists d, get_dashboard Scenario.empty_db 1 Scenario.today = Ok d
               /\ Dashboard.task_completion_rate d = Int 0
               /\ Dashboard.habit_consistency_rate d = Int 0
               /\ Dashboard.productivity_score d = 0.
Proof.
  assert (Hv : valid_date Scenario.today)
    by (vm_compute; split; discriminate).
  split; [reflexivity|]. split; [reflexivity|]. split; [exact Hv|].
  exact (proj1 (proj2 (proj2 (proj2 (proj2 (proj2
           (rates_of_empty_input Scenario.empty_db 1 Scenario.today))))))
           eq_refl eq_refl Hv).
Defined.

(* ===================================================================== *)
(** ** The score stays between 0 and 100 *)
(* ===================================================================== *)

(** Rounding to binary64 never crosses a bound that is itself
    representable at the exponent of the result.  Values are compared
    exactly, as integers scaled by a power of two. *)

Lemma digits2_pos_lower p : 2 ^ (Zpos (digits2_pos p) - 1) <= Zpos p.
Proof.
  induction p as [p IH|p IH|]; simpl digits2_pos;
    rewrite ?Pos2Z.inj_succ.
  - replace (Z.succ (Zpos (digits2_pos p)) - 1)
      with (Z.succ (Zpos (digits2_pos p) - 1)) by lia.
    rewrite Z.pow_succ_r by lia. lia.
  - replace (Z.succ (Zpos (digits2_pos p)) - 1)
      with (Z.succ (Zpos (digits2_pos p) - 1)) by lia.
    rewrite Z.pow_succ_r by lia. lia.
  - simpl. lia.
Qed.

Lemma digits2_pos_upper p : Zpos p < 2 ^ Zpos (digits2_pos p).
Proof.
  induction p as [p IH|p IH|]; simpl digits2_pos;
    rewrite ?Pos2Z.inj_succ, ?Z.pow_succ_r by lia; lia.
Qed.

Lemma Zdigits2_le M k : 0 <= M < 2 ^ k -> 0 <= k -> Zdigits2 M <= k.
Proof.
  intros [H0 Hk] Hk0. destruct M as [|p|p]; simpl; [lia| |lia].
  pose proof (digits2_pos_lower p) as Hl.
  assert (H : 2 ^ (Zpos (digits2_pos p) - 1) < 2 ^ k) by lia.
  apply Z.pow_lt_mono_r_iff in H; lia.
Qed.

Lemma iter_pos_nat {A : Type} (f : A -> A) p :
  forall x, iter_pos f p x = Nat.iter (Pos.to_nat p) f x.
Proof.
  induction p as [p IH|p IH|]; intros x; simpl iter_pos.
  - rewrite !IH, Pos2Nat.inj_xI.
    replace (S (2 * Pos.to_nat p))%nat
      with (Pos.to_nat p + (Pos.to_nat p + 1))%nat by lia.
    rewrite !Nat.iter_add. reflexivity.
  - rewrite !IH, Pos2Nat.inj_xO.
    replace (2 * Pos.to_nat p)%nat
      with (Pos.to_nat p + Pos.to_nat p)%nat by lia.
    now rewrite Nat.iter_add.
  - reflexivity.
Qed.

Lemma shr_1_spec mrs :
  0 <= shr_m mrs ->
  shr_m (shr_1 mrs) = shr_m mrs / 2
  /\ shr_r (shr_1 mrs) = Z.odd (shr_m mrs)
  /\ shr_s (shr_1 mrs) = shr_r mrs || shr_s mrs.
Proof.
  destruct mrs as [m r s]; simpl. intros Hm.
  rewrite <- Z.div2_div.
  destruct m as [|[p|p|]|]; simpl; auto; lia.
Qed.

Lemma iter_shr_1_spec n M :
  0 <= M ->
  let mrs := Nat.iter n shr_1 (Build_shr_record M false false) in
  shr_m mrs = M / 2 ^ Z.of_nat n
  /\ (M mod 2 ^ Z.of_nat n = 0 -> shr_r mrs = false /\ shr_s mrs = false).
Proof.
  intros HM. induction n as [|n IH].
  - simpl. rewrite Z.div_1_r. tauto.
  - cbv zeta in *. rewrite Nat2Z.inj_succ, Z.pow_succ_r by lia.
    simpl Nat.iter. destruct IH as [IHm IHx].
    set (mrs := Nat.iter n shr_1 _) in *.
    assert (Hpow : 0 < 2 ^ Z.of_nat n) by (apply Z.pow_pos_nonneg; lia).
    assert (Hm0 : 0 <= shr_m mrs)
      by (rewrite IHm; apply Z.div_pos; lia).
    destruct (shr_1_spec mrs Hm0) as (H1 & H2 & H3).
    split.
    + rewrite H1, IHm, Z.div_div by lia. f_equal. lia.
    + intros Hmod. rewrite H2, H3, IHm.
      apply Z.mod_divide in Hmod; [|lia]. destruct Hmod as [q Hq].
      assert (Hmodn : M mod 2 ^ Z.of_nat n = 0).
      { subst M. replace (q * (2 * 2 ^ Z.of_nat n))
          with ((q * 2) * 2 ^ Z.of_nat n) by lia.
        apply Z.mod_mul. lia. }
      destruct (IHx Hmodn) as [-> ->]. split; [|reflexivity].
      subst M. replace (q * (2 * 2 ^ Z.of_nat n))
        with ((q * 2) * 2 ^ Z.of_nat n) by lia.
      rewrite Z.div_mul by lia.
      rewrite Z.mul_comm, Z.odd_mul. reflexivity.
Qed.

Lemma round_nearest_even_bounds m l :
  m <= round_nearest_even m l <= m + 1
  /\ (l = loc_Exact -> round_nearest_even m l = m).
Proof.
  destruct l as [|[| |]]; simpl; try destruct (Z.even m); split;
    try lia; try discriminate; reflexivity.
Qed.

Section RoundingBound.

(** The bound [b * 2^(-g)]: below [2^(53 - g)], so that a binary64 value
    under it has an exponent of at most [-g] and the bound is a multiple
    of its unit in the last place. *)
Variables b g : Z.
Hypothesis g_range : 0 <= g <= 1074.
Hypothesis b_range : 0 <= b < 2 ^ 53.

(** A value [M * 2^e] of at most [b * 2^(-g)]: one rounding stage keeps it
    there. *)
Lemma shr_fexp_bound M e mrs e' :
  0 <= M -> e <= - g ->
  M <= b * 2 ^ (- g - e) ->
  shr_fexp prec emax M e loc_Exact = (mrs, e') ->
  e' <= - g
  /\ 0 <= shr_m mrs
  /\ shr_m mrs <= round_nearest_even (shr_m mrs) (loc_of_shr_record mrs)
  /\ round_nearest_even (shr_m mrs) (loc_of_shr_record mrs)
     <= b * 2 ^ (- g - e').
Proof.
  intros HM He Hle. unfold shr_fexp, shr. simpl shr_record_of_loc.
  assert (Hd : Zdigits2 M + e - 53 <= - g).
  { assert (Zdigits2 M <= 53 - g - e); [|lia].
    apply Zdigits2_le; [|lia]. split; [assumption|].
    eapply Z.le_lt_trans; [exact Hle|].
    replace (53 - g - e) with (53 + (- g - e)) by lia.
    rewrite Z.pow_add_r by lia.
    apply Z.mul_lt_mono_pos_r; [apply Z.pow_pos_nonneg; lia | lia]. }
  assert (Hfexp : fexp prec emax (Zdigits2 M + e) <= - g).
  { unfold fexp, emin, prec, emax. lia. }
  destruct (fexp prec emax (Zdigits2 M + e) - e) as [|p|p] eqn:Hn.
  - intros [= <- <-]. simpl. split; [lia|]. split; [lia|]. lia.
  - intros [= <- <-]. rewrite iter_pos_nat.
    destruct (iter_shr_1_spec (Pos.to_nat p) M HM) as [Hm Hx].
    set (mrs := Nat.iter _ _ _) in *.
    rewrite positive_nat_Z in Hm, Hx.
    assert (He' : e + Zpos p <= - g) by lia.
    assert (Hpow : 0 < 2 ^ Zpos p) by (apply Z.pow_pos_nonneg; lia).
    assert (Hsplit : b * 2 ^ (- g - e)
                     = (b * 2 ^ (- g - (e + Zpos p))) * 2 ^ Zpos p).
    { rewrite <- Z.mul_assoc, <- Z.pow_add_r by lia. do 2 f_equal. lia. }
    set (C := b * 2 ^ (- g - (e + Zpos p))) in *.
    assert (Hq : shr_m mrs <= C).
    { rewrite Hm. apply Z.div_le_upper_bound; lia. }
    assert (Hq0 : 0 <= shr_m mrs) by (rewrite Hm; apply Z.div_pos; lia).
    destruct (round_nearest_even_bounds (shr_m mrs) (loc_of_shr_record mrs))
      as [[Hlo Hhi] Hex].
    split; [exact He'|]. split; [exact Hq0|]. split; [exact Hlo|].
    destruct (Z.eq_dec (M mod 2 ^ Zpos p) 0) as [Hmod|Hmod].
    + destruct (Hx Hmod) as [Hr Hs].
      rewrite Hex; [exact Hq|].
      destruct mrs as [m r s]; simpl in *; now subst.
    + assert (shr_m mrs < C); [|lia].
      rewrite Hm. apply Z.div_lt_upper_bound; [lia|].
      assert (M <> 2 ^ Zpos p * C); [|lia].
      intros ->. apply Hmod. rewrite Z.mul_comm. apply Z.mod_mul. lia.
  - intros [= <- <-]. simpl. split; [lia|]. split; [lia|]. lia.
Qed.

(** Rounding [M * 2^e] to binary64, the last step of a product and of a
    sum, gives a float within the bound. *)
Lemma binary_round_aux_within M e :
  0 <= M -> e <= - g ->
  M <= b * 2 ^ (- g - e) ->
  float_within b g (binary_round_aux prec emax false M e loc_Exact).
Proof.
  intros HM He Hle. unfold binary_round_aux.
  destruct (shr_fexp prec emax M e loc_Exact) as [mrs1 e1] eqn:H1.
  destruct (shr_fexp_bound M e mrs1 e1 HM He Hle H1)
    as (He1 & Hm1 & Hlo1 & Hhi1).
  set (m1 := round_nearest_even (shr_m mrs1) (loc_of_shr_record mrs1)) in *.
  destruct (shr_fexp prec emax m1 e1 loc_Exact) as [mrs2 e2] eqn:H2.
  assert (Hm1' : 0 <= m1) by lia.
  destruct (shr_fexp_bound m1 e1 mrs2 e2 Hm1' He1 Hhi1 H2)
    as (He2 & Hm2 & Hlo2 & Hhi2).
  destruct (shr_m mrs2) as [|m|m] eqn:Hm; [exact I| |exfalso; lia].
  replace (e2 <=? emax - prec) with true
    by (symmetry; apply Z.leb_le; unfold emax, prec; lia).
  simpl. split; lia.
Qed.

End RoundingBound.

Lemma pow2_pos k : 0 <= k -> 0 < 2 ^ k.
Proof. intros; apply Z.pow_pos_nonneg; lia. Qed.

Lemma pow2_split a b : 0 <= a -> 0 <= b -> 2 ^ (a + b) = 2 ^ a * 2 ^ b.
Proof. intros; now apply Z.pow_add_r. Qed.

Lemma float_within_weaken b g b' g' x :
  g' <= g -> 0 <= b -> b <= b' * 2 ^ (g - g') ->
  float_within b g x -> float_within b' g' x.
Proof.
  intros Hg Hb Hbb. destruct x as [s|s| |[|] m e]; simpl; try tauto.
  intros [He Hm]. split; [lia|].
  replace (- g' - e) with ((g - g') + (- g - e)) by lia.
  rewrite pow2_split by lia.
  pose proof (pow2_pos (- g - e)). nia.
Qed.

Lemma float_mul_within b g b' g' x ml el :
  0 <= g' <= 1074 -> 0 <= b -> 0 <= b' < 2 ^ 53 ->
  el <= g - g' ->
  b * Zpos ml <= b' * 2 ^ (g - g' - el) ->
  float_within b g x ->
  float_within b' g' (float_mul x (S754_finite false ml el)).
Proof.
  intros Hg' Hb Hb' Hel Hbb.
  destruct x as [s|s| |[|] m e]; simpl; try tauto.
  intros [He Hm].
  apply binary_round_aux_within; try lia.
  rewrite Pos2Z.inj_mul.
  replace (- g' - (e + el)) with ((g - g' - el) + (- g - e)) by lia.
  rewrite pow2_split by lia.
  pose proof (pow2_pos (- g - e)). pose proof (pow2_pos (g - g' - el)).
  nia.
Qed.

Lemma pos_iter_xO m d : Zpos (Pos.iter xO m d) = Zpos m * 2 ^ Zpos d.
Proof.
  induction d as [|d IH] using Pos.peano_ind.
  - simpl. lia.
  - rewrite Pos.iter_succ, Pos2Z.inj_xO, IH, Pos2Z.inj_succ,
      Z.pow_succ_r by lia. lia.
Qed.

Lemma shl_align_spec m e e' m2 e2 :
  shl_align m e e' = (m2, e2) ->
  e2 <= e /\ (e' <= e -> e2 = e') /\ Zpos m2 = Zpos m * 2 ^ (e - e2).
Proof.
  unfold shl_align. destruct (e' - e) as [|p|p] eqn:Hd; intros [= <- <-].
  - rewrite Z.sub_diag. simpl. lia.
  - rewrite Z.sub_diag. simpl. lia.
  - rewrite pos_iter_xO. split; [lia|]. split; [reflexivity|].
    do 2 f_equal. lia.
Qed.

Lemma float_add_within ba bb g bs g' x y :
  0 <= g' <= 1074 -> g' <= g -> 0 <= ba -> 0 <= bb -> 0 <= bs < 2 ^ 53 ->
  ba + bb <= bs * 2 ^ (g - g') ->
  float_within ba g x -> float_within bb g y ->
  float_within bs g' (float_add x y).
Proof.
  intros Hg' Hg Hba Hbb Hbs Hsum Hx Hy.
  assert (Hwx : float_within bs g' x)
    by (apply (float_within_weaken ba g); auto; lia).
  assert (Hwy : float_within bs g' y)
    by (apply (float_within_weaken bb g); auto; lia).
  destruct x as [sx|sx| |[|] mx ex]; try contradiction;
    destruct y as [sy|sy| |[|] my ey]; try contradiction;
    try exact Hwx; try exact Hwy.
  - simpl. now destruct sx, sy.
  - destruct Hx as [Hex Hmx], Hy as [Hey Hmy].
    unfold float_add, SFadd, cond_Zopp.
    set (ez := Z.min ex ey).
    destruct (shl_align mx ex ez) as [mx' ex'] eqn:Hax.
    destruct (shl_align my ey ez) as [my' ey'] eqn:Hay.
    apply shl_align_spec in Hax as (_ & Hex' & Hmx').
    apply shl_align_spec in Hay as (_ & Hey' & Hmy').
    rewrite Hex' in Hmx' by (unfold ez; lia).
    rewrite Hey' in Hmy' by (unfold ez; lia).
    simpl fst. unfold binary_normalize.
    change (Zpos mx' + Zpos my') with (Zpos (mx' + my')).
    unfold binary_round.
    destruct (shl_align (mx' + my') ez _) as [mz ez2] eqn:Haz.
    apply shl_align_spec in Haz as (Hez2 & _ & Hmz).
    assert (Hez : ez <= - g) by (unfold ez; lia).
    apply binary_round_aux_within; try lia.
    rewrite Hmz, Pos2Z.inj_add, Hmx', Hmy'.
    assert (H1 : Zpos mx * 2 ^ (ex - ez) <= ba * 2 ^ (- g - ez)).
    { replace (- g - ez) with ((- g - ex) + (ex - ez)) by lia.
      rewrite pow2_split, Z.mul_assoc by (unfold ez; lia).
      apply Z.mul_le_mono_nonneg_r; [|assumption].
      apply Z.lt_le_incl, pow2_pos. unfold ez; lia. }
    assert (H2 : Zpos my * 2 ^ (ey - ez) <= bb * 2 ^ (- g - ez)).
    { replace (- g - ez) with ((- g - ey) + (ey - ez)) by lia.
      rewrite pow2_split, Z.mul_assoc by (unfold ez; lia).
      apply Z.mul_le_mono_nonneg_r; [|assumption].
      apply Z.lt_le_incl, pow2_pos. unfold ez; lia. }
    replace (- g' - ez2) with ((g - g') + ((- g - ez) + (ez - ez2))) by lia.
    rewrite !pow2_split by lia.
    pose proof (pow2_pos (- g - ez)). pose proof (pow2_pos (ez - ez2)).
    pose proof (pow2_pos (g - g')).
    set (A := 2 ^ (- g - ez)) in *. set (B := 2 ^ (ez - ez2)) in *.
    set (C := 2 ^ (g - g')) in *.
    assert (Hs : Zpos mx * 2 ^ (ex - ez) + Zpos my * 2 ^ (ey - ez)
                 <= (bs * C) * A) by nia.
    apply Z.le_trans with ((bs * C * A) * B); [|lia].
    apply Z.mul_le_mono_nonneg_r; lia.
Qed.

Lemma round_float_within x :
  float_within (100 * 2 ^ 46 + 1) 46 x ->
  exists s, round_float x = Ok s /\ 0 <= s <= 100.
Proof.
  destruct x as [s|s| |[|] m e]; cbn [float_within round_float];
    try contradiction.
  - intros _. exists 0. split; [reflexivity | lia].
  - intros [He Hm].
    replace (0 <=? e) with false by (symmetry; apply Z.leb_gt; lia).
    eexists. split; [reflexivity|].
    unfold round_half_even.
    change (100 * 2 ^ 46 + 1) with 7036874417766401 in Hm.
    change (- (46)) with (-46) in *.
    set (P := 2 ^ (- 46 - e)) in *.
    assert (HP : 0 < P) by (apply pow2_pos; lia).
    assert (HD : 2 ^ (- e) = 70368744177664 * P).
    { unfold P. change 70368744177664 with (2 ^ 46).
      rewrite <- pow2_split by lia. f_equal. lia. }
    rewrite HD. set (D := 70368744177664 * P) in *.
    assert (HD0 : 0 < D) by lia.
    pose proof (Z.div_mod (Zpos m) D ltac:(lia)) as Hdm.
    pose proof (Z.mod_pos_bound (Zpos m) D HD0) as Hr.
    set (q := Zpos m / D) in *. set (r := Zpos m mod D) in *.
    assert (Hq0 : 0 <= q) by (apply Z.div_pos; lia).
    assert (Hq : q <= 100).
    { destruct (Z.le_gt_cases q 100) as [|Hgt]; [assumption|exfalso].
      assert (101 * D <= D * q) by nia. unfold D in *. lia. }
    assert (Hlt : q = 100 -> 2 * r < D).
    { intros Hq100. rewrite Hq100 in Hdm. unfold D in *. lia. }
    destruct (2 * r ?= D) eqn:Hc.
    + destruct (Z.even q); [lia|].
      apply Z.compare_eq in Hc. assert (q <> 100); lia.
    + lia.
    + apply Z.compare_gt_iff in Hc. assert (q <> 100); lia.
Qed.

Lemma float_in_range_within x :
  valid_binary prec emax x = true ->
  float_leb (float_of_int 0) x = true ->
  float_leb x (float_of_int 100) = true ->
  float_within (100 * 2 ^ 46) 46 x.
Proof.
  change (float_of_int 0) with (S754_zero false).
  change (float_of_int 100) with (S754_finite false 7036874417766400 (-46)).
  unfold float_leb, SFleb.
  destruct x as [s|s| |s m e]; cbn [SFcompare float_within valid_binary];
    try discriminate; auto.
  - destruct s; discriminate.
  - intros Hvalid H0 H100. destruct s; [discriminate|].
    unfold bounded, canonical_mantissa in Hvalid.
    apply andb_true_iff in Hvalid as [Hcan _]. apply Z.eqb_eq in Hcan.
    assert (Hdig : Zpos (digits2_pos m) <= 53)
      by (unfold fexp, emin, prec, emax in Hcan; lia).
    pose proof (digits2_pos_upper m) as Hup.
    assert (Hm53 : Zpos m < 2 ^ 53).
    { eapply Z.lt_le_trans; [exact Hup|].
      apply Z.pow_le_mono_r; lia. }
    change (100 * 2 ^ 46) with 7036874417766400.
    change (2 ^ 53) with 9007199254740992 in Hm53.
    destruct (Z.compare_spec e (-46)) as [->|Hlt|Hgt]; try discriminate.
    + split; [lia|]. change (- (46) - -46) with 0. rewrite Z.pow_0_r.
      assert (Hle : (m <= 7036874417766400)%positive).
      { revert H100. unfold Pos.le, Pos.compare.
        destruct (Pos.compare_cont Eq m 7036874417766400);
          intros; discriminate. }
      rewrite Z.mul_1_r. exact Hle.
    + split; [lia|].
      assert (Hp : 2 ^ 1 <= 2 ^ (- (46) - e))
        by (apply Z.pow_le_mono_r; lia).
      change (2 ^ 1) with 2 in Hp. lia.
Qed.

Lemma float_of_int_in_range z :
  0 <= z <= 100 -> float_within (100 * 2 ^ 46) 46 (float_of_int z).
Proof.
  intros Hz.
  assert (Hall : forallb
                   (fun n => valid_binary prec emax (float_of_int (Z.of_nat n))
                             && float_leb (float_of_int 0)
                                  (float_of_int (Z.of_nat n))
                             && float_leb (float_of_int (Z.of_nat n))
                                  (float_of_int 100))
                   (seq 0 101) = true)
    by (vm_compute; reflexivity).
  rewrite forallb_forall in Hall.
  specialize (Hall (Z.to_nat z)). rewrite Z2Nat.id in Hall by lia.
  destruct (proj1 (andb_true_iff _ _) (Hall ltac:(apply in_seq; lia)))
    as [H12 H3].
  apply andb_true_iff in H12 as [H1 H2].
  now apply float_in_range_within.
Qed.

Ltac closed_arith :=
  vm_compute; repeat split; solve [reflexivity | intro; discriminate].

Lemma productivity_within t h :
  float_within (100 * 2 ^ 46) 46 t ->
  float_within (100 * 2 ^ 46) 46 h ->
  exists s,
    round_float (float_add (float_mul t lit_0_6) (float_mul h lit_0_4)) = Ok s
    /\ 0 <= s <= 100.
Proof.
  intros Ht Hh. apply round_float_within.
  apply (float_add_within (60 * 2 ^ 47) (40 * 2 ^ 47 + 1) 47).
  1-6: closed_arith.
  - apply (float_mul_within (100 * 2 ^ 46) 46); [closed_arith .. | exact Ht].
  - apply (float_mul_within (100 * 2 ^ 46) 46); [closed_arith .. | exact Hh].
Qed.

Lemma rate_in_range_within n :
  rate_in_range n -> float_within (100 * 2 ^ 46) 46 (number_to_float n).
Proof.
  destruct n as [z|x]; simpl.
  - apply float_of_int_in_range.
  - intros (Hv & H0 & H100). now apply float_in_range_within.
Qed.

(** C8.  For every task rate and habit rate that are each an [int] or a
    binary64 value between 0 and 100, the score
    [round(task_rate * 0.6 + habit_rate * 0.4)], computed in binary64 with
    ties rounded to even, is returned and is an integer between 0 and
    100. *)
Theorem productivity_score_in_range (task_rate habit_rate : number) :
  rate_in_range task_rate -> rate_in_range habit_rate ->
  exists score,
    productivity task_rate habit_rate = Ok score /\ 0 <= score <= 100.
Proof.
  intros Ht Hh. unfold productivity, py_round.
  apply productivity_within; now apply rate_in_range_within.
Qed.

(** The rates 60 and 100 of the report, and 60.0 and 28.6 of the
    dashboard. *)
Lemma productivity_score_in_range_witness :
  (rate_in_range (Int 60) /\ rate_in_range (Int 100)
   /\ exists score,
        productivity (Int 60) (Int 100) = Ok score /\ 0 <= score <= 100)
  /\ (rate_in_range (Float (float_of_ratio 60 1))
      /\ rate_in_range (Float (float_of_ratio 286 10))
      /\ exists score,
           productivity (Float (float_of_ratio 60 1))
             (Float (float_of_ratio 286 10)) = Ok score
           /\ 0 <= score <= 100).
Proof.
  assert (H1 : rate_in_range (Int 60)) by (simpl; lia).
  assert (H2 : rate_in_range (Int 100)) by (simpl; lia).
  assert (H3 : rate_in_range (Float (float_of_ratio 60 1)))
    by (vm_compute; repeat split).
  assert (H4 : rate_in_range (Float (float_of_ratio 286 10)))
    by (vm_compute; repeat split).
  split.
  - split; [exact H1|]. split; [exact H2|].
    exact (productivity_score_in_range (Int 60) (Int 100) H1 H2).
  - split; [exact H3|]. split; [exact H4|].
    exact (productivity_score_in_range _ _ H3 H4).
Defined.

Example productivity_76 : productivity (Int 60) (Int 100) = Ok 76.
Proof. reflexivity. Qed.

(* ===================================================================== *)
(** ** Tactics for the concrete databases *)
(* ===================================================================== *)

(** A hypothesis [H : In x rows] on a concrete table: one goal per row. *)
Ltac each_row H :=
  vm_compute in H;
  repeat (destruct H as [<-|H]); try contradiction.

(** Comparisons of concrete integers. *)
Ltac compare_ints :=
  repeat split; vm_compute; first [reflexivity | discriminate].

(** [NoDup] of a concrete list of keys. *)
Ltac distinct_keys :=
  cbv; repeat constructor; simpl;
  intuition (first [discriminate | congruence]).

(* ===================================================================== *)
(** ** Sorting and slicing *)
(* ===================================================================== *)

Lemma insert_desc_perm {A : Type} (key : A -> Z) x l :
  Permutation (insert_desc key x l) (x :: l).
Proof.
  induction l as [|y l IH]; simpl; [reflexivity|].
  destruct (key y <=? key x); [reflexivity|].
  rewrite IH. apply perm_swap.
Qed.

Lemma order_by_desc_perm {A : Type} (key : A -> Z) l :
  Permutation (order_by_desc key l) l.
Proof.
  induction l as [|x l IH]; simpl; [reflexivity|].
  rewrite insert_desc_perm. now constructor.
Qed.

Lemma insert_desc_sorted {A : Type} (key : A -> Z) x l :
  Sorted (fun a b => key b <= key a) l ->
  Sorted (fun a b => key b <= key a) (insert_desc key x l).
Proof.
  induction l as [|y rest IH]; intros Hs; simpl.
  - repeat constructor.
  - destruct (Z.leb_spec (key y) (key x)).
    + constructor; [assumption | constructor; assumption].
    + inversion Hs as [|? ? Hrest Hhd]; subst.
      constructor; [now apply IH |].
      destruct rest as [|z rest']; simpl.
      * constructor; lia.
      * destruct (Z.leb_spec (key z) (key x)); constructor; try lia.
        inversion Hhd; assumption.
Qed.

Lemma order_by_desc_sorted {A : Type} (key : A -> Z) l :
  Sorted (fun a b => key b <= key a) (order_by_desc key l).
Proof.
  induction l as [|x l IH]; simpl; [constructor|].
  now apply insert_desc_sorted.
Qed.

(** A row with the largest key, added last, comes first. *)
Lemma order_by_desc_newest {A : Type} (key : A -> Z) l x :
  (forall y, In y l -> key y < key x) ->
  order_by_desc key (l ++ [x]) = x :: order_by_desc key l.
Proof.
  unfold order_by_desc. rewrite fold_right_app. simpl.
  induction l as [|y l IH]; intros Hlt; simpl; [reflexivity|].
  rewrite IH by (intros z Hz; apply Hlt; now right). simpl.
  replace (key x <=? key y) with false; [reflexivity|].
  symmetry. apply Z.leb_gt. apply Hlt. now left.
Qed.

Lemma firstn_plus {A : Type} (a b : nat) (l : list A) :
  firstn (a + b) l = firstn a l ++ firstn b (skipn a l).
Proof.
  revert l. induction a as [|a IH]; intros l; simpl; [reflexivity|].
  destruct l as [|x l]; simpl.
  - now rewrite firstn_nil.
  - now rewrite IH.
Qed.

(** Cutting a list into [m] slices of [n] and gluing them back. *)
Lemma slices_concat {A : Type} (n m : nat) (l : list A) :
  flat_map (fun k => firstn n (skipn ((k - 1) * n) l)) (seq 1 m)
  = firstn (m * n) l.
Proof.
  induction m as [|m IH]; [reflexivity|].
  rewrite seq_S, flat_map_app, IH. cbn [flat_map].
  rewrite app_nil_r.
  replace ((1 + m - 1) * n)%nat with (m * n)%nat by lia.
  replace (S m * n)%nat with (m * n + n)%nat by lia.
  now rewrite firstn_plus.
Qed.

(* ===================================================================== *)
(** ** Pagination *)
(* ===================================================================== *)

Lemma ceiling_bounds total limit :
  0 <= total -> 1 <= limit ->
  let pages := Z.max 1 (- (- total / limit)) in
  1 <= pages
  /\ total <= pages * limit
  /\ (pages = 1 \/ (pages - 1) * limit < total).
Proof.
  intros Ht Hl pages. subst pages.
  pose proof (Z.div_mod (- total) limit ltac:(lia)) as Hdm.
  pose proof (Z.mod_pos_bound (- total) limit ltac:(lia)) as Hr.
  set (q := - total / limit) in *. set (r := (- total) mod limit) in *.
  split; [lia|]. split; [nia|].
  destruct (Z.max_spec 1 (- q)) as [[Hlt ->]|[Hge ->]]; [right; nia | now left].
Qed.

Lemma paginated_ok {A : Type} (items : list A) total page limit :
  limit <> 0 ->
  paginated items total page limit
  = Ok (Page.mk items total page limit (Z.max 1 (- (- total / limit)))
          (page * limit <? total) (1 <? page)).
Proof.
  intros Hl. unfold paginated, int_floordiv.
  destruct (Z.eqb_spec limit 0); [contradiction | reflexivity].
Qed.

Lemma paginated_zero_limit {A : Type} (items : list A) total page :
  paginated items total page 0
  = Raise (ZeroDivisionError "integer division or modulo by zero").
Proof. reflexivity. Qed.

Lemma tasks_page_slice db user_id page limit :
  1 <= limit -> 1 <= page ->
  tasks_page db user_id page limit
  = firstn (Z.to_nat limit)
      (skipn ((Z.to_nat page - 1) * Z.to_nat limit)
         (tasks_newest_first db user_id)).
Proof.
  intros Hl Hp. unfold tasks_page, get_tasks.
  rewrite paginated_ok by lia. simpl. unfold sql_limit, sql_offset.
  replace (limit <? 0) with false by (symmetry; apply Z.ltb_ge; lia).
  replace (Z.to_nat ((page - 1) * limit))
    with ((Z.to_nat page - 1) * Z.to_nat limit)%nat by nia.
  reflexivity.
Qed.

(** X1: the pages of [get_tasks] cut the user's active tasks, newest first,
    into consecutive slices: glued together, pages 1 to [total_pages]
    give every active task of the user exactly once. *)
Theorem get_tasks_pages_partition (db : Session) (user_id limit : Z) :
  1 <= limit ->
  exists pages,
    1 <= pages
    /\ (forall page,
          exists p, get_tasks db user_id page limit = Ok p
                    /\ Page.total_pages p = pages
                    /\ Page.total p = len (query_tasks db user_id))
    /\ flat_map (fun k => tasks_page db user_id (Z.of_nat k) limit)
         (seq 1 (Z.to_nat pages))
       = tasks_newest_first db user_id
    /\ Permutation (tasks_newest_first db user_id) (query_tasks db user_id)
    /\ Sorted (fun a b => Task.created_at b <= Task.created_at a)
         (tasks_newest_first db user_id).
Proof.
  intros Hl.
  set (total := len (query_tasks db user_id)).
  assert (Ht : 0 <= total) by (unfold total, len; lia).
  destruct (ceiling_bounds total limit Ht Hl) as (H1 & Hcover & _).
  set (pages := Z.max 1 (- (- total / limit))) in *.
  exists pages. split; [exact H1|]. split; [|split; [|split]].
  - intros page. unfold get_tasks. rewrite paginated_ok by lia.
    eexists. split; [reflexivity|]. now simpl.
  - rewrite flat_map_concat_map.
    rewrite (map_ext_in _
               (fun k => firstn (Z.to_nat limit)
                           (skipn ((k - 1) * Z.to_nat limit)
                              (tasks_newest_first db user_id)))).
    + rewrite <- flat_map_concat_map, slices_concat.
      apply firstn_all2.
      assert (Hlen : List.length (tasks_newest_first db user_id)
                     = List.length (query_tasks db user_id))
        by (apply Permutation_length, order_by_desc_perm).
      rewrite Hlen. unfold total, len in Hcover. nia.
    + intros k Hk. apply in_seq in Hk.
      rewrite tasks_page_slice by lia.
      now rewrite Nat2Z.id.
  - apply order_by_desc_perm.
  - apply order_by_desc_sorted.
Qed.

(** Ann's three active tasks, two to a page. *)
Lemma get_tasks_pages_partition_witness :
  1 <= 2
  /\ (exists pages,
      1 <= pages
      /\ (forall page,
            exists p, get_tasks Sample.tasks_db 1 page 2 = Ok p
                      /\ Page.total_pages p = pages
                      /\ Page.total p = len (query_tasks Sample.tasks_db 1))
      /\ flat_map (fun k => tasks_page Sample.tasks_db 1 (Z.of_nat k) 2)
           (seq 1 (Z.to_nat pages))
         = tasks_newest_first Sample.tasks_db 1
      /\ Permutation (tasks_newest_first Sample.tasks_db 1) (query_tasks Sample.tasks_db 1)
      /\ Sorted (fun a b => Task.created_at b <= Task.created_at a)
           (tasks_newest_first Sample.tasks_db 1)).
Proof.
  assert (H1 : 1 <= 2)
    by (lia).
  exact
    (conj H1 (get_tasks_pages_partition Sample.tasks_db 1 2 H1)).
Defined.

(** X2: for a page from 1 on and a limit of at least 1, [get_tasks] returns
    at most [limit] items; [total_pages] is the least number of pages that
    holds [total] items (1 when there is none); [has_next] is true
    exactly when a later page exists, which is exactly when the next page
    is not empty; [has_prev] exactly when the page is not the first. *)
Theorem get_tasks_page_metadata (db : Session) (user_id page limit : Z) :
  1 <= limit -> 1 <= page ->
  exists p,
    get_tasks db user_id page limit = Ok p
    /\ (List.length (Page.items p) <= Z.to_nat limit)%nat
    /\ Page.total p = len (query_tasks db user_id)
    /\ Page.total p <= Page.total_pages p * limit
    /\ (Page.total_pages p = 1
        \/ (Page.total_pages p - 1) * limit < Page.total p)
    /\ (Page.has_next p = true <-> page < Page.total_pages p)
    /\ (Page.has_next p = true
        <-> tasks_page db user_id (page + 1) limit <> [])
    /\ (Page.has_prev p = true <-> 1 < page).
Proof.
  intros Hl Hp.
  set (total := len (query_tasks db user_id)).
  assert (Ht : 0 <= total) by (unfold total, len; lia).
  destruct (ceiling_bounds total limit Ht Hl) as (H1 & Hcover & Hleast).
  pose proof (tasks_page_slice db user_id page limit Hl Hp) as Hslice.
  unfold tasks_page in Hslice.
  unfold get_tasks in *. rewrite paginated_ok in * by lia.
  eexists. split; [reflexivity|]. cbn [Page.items Page.total Page.total_pages
                                        Page.has_next Page.has_prev] in *.
  fold total.
  set (pages := Z.max 1 (- (- total / limit))) in *.
  split; [rewrite Hslice; apply firstn_le_length|].
  split; [reflexivity|]. split; [exact Hcover|]. split; [exact Hleast|].
  assert (Hnext : (page * limit <? total) = true <-> page < pages).
  { rewrite Z.ltb_lt. split; intros H; [nia|].
    destruct Hleast as [Hone|Hlt]; nia. }
  split; [exact Hnext|]. split; [|apply Z.ltb_lt].
  rewrite tasks_page_slice by lia.
  assert (Hlen : List.length (tasks_newest_first db user_id) = Z.to_nat total).
  { unfold total, len. rewrite Nat2Z.id.
    apply Permutation_length, order_by_desc_perm. }
  replace ((Z.to_nat (page + 1) - 1) * Z.to_nat limit)%nat
    with (Z.to_nat (page * limit)) by nia.
  rewrite Z.ltb_lt. split.
  - intros Hlt Hnil.
    apply (f_equal (@List.length Task.t)) in Hnil.
    rewrite length_firstn, length_skipn, Hlen in Hnil. simpl in Hnil. lia.
  - intros Hne. destruct (Z.lt_ge_cases (page * limit) total) as [|Hge];
      [assumption|].
    exfalso. apply Hne. rewrite skipn_all2; [apply firstn_nil|].
    rewrite Hlen. lia.
Qed.

(** The first of Ann's two pages. *)
Lemma get_tasks_page_metadata_witness :
  1 <= 2
  /\ 1 <= 1
  /\ (exists p,
      get_tasks Sample.tasks_db 1 1 2 = Ok p
      /\ (List.length (Page.items p) <= Z.to_nat 2)%nat
      /\ Page.total p = len (query_tasks Sample.tasks_db 1)
      /\ Page.total p <= Page.total_pages p * 2
      /\ (Page.total_pages p = 1
          \/ (Page.total_pages p - 1) * 2 < Page.total p)
      /\ (Page.has_next p = true <-> 1 < Page.total_pages p)
      /\ (Page.has_next p = true
          <-> tasks_page Sample.tasks_db 1 (1 + 1) 2 <> [])
      /\ (Page.has_prev p = true <-> 1 < 1)).
Proof.
  assert (H1 : 1 <= 2)
    by (lia).
  assert (H2 : 1 <= 1)
    by (lia).
  exact
    (conj H1 (conj H2 (get_tasks_page_metadata Sample.tasks_db 1 1 2 H1 H2))).
Defined.

(** X3: [get_tasks] raises exactly when [limit] is 0, and then it is a
    [ZeroDivisionError], whatever the page; [get_habits] with [limit = 0]
    raises it too. *)
Theorem listing_raises_on_zero_limit (db : Session) (user_id page limit : Z)
  (today : date) :
  (raises (get_tasks db user_id page limit) = true <-> limit = 0)
  /\ get_tasks db user_id page 0
     = Raise (ZeroDivisionError "integer division or modulo by zero")
  /\ get_habits db user_id page 0 today
     = Raise (ZeroDivisionError "integer division or modulo by zero").
Proof.
  split; [|split].
  - unfold get_tasks. destruct (Z.eq_dec limit 0) as [->|Hne].
    + rewrite paginated_zero_limit. simpl. tauto.
    + rewrite paginated_ok by assumption. simpl.
      split; [discriminate | contradiction].
  - unfold get_tasks. apply paginated_zero_limit.
  - unfold get_habits. unfold sql_limit. simpl. apply paginated_zero_limit.
Qed.

(* ===================================================================== *)
(** ** Task mutations *)
(* ===================================================================== *)

Lemma first_update_row {A : Type} (key : A -> Z) (k : Z) (f : A -> A)
  (p : A -> bool) (rows : list A) :
  (forall r, p (f r) = p r) ->
  first p (update_row key k f rows)
  = option_map (fun r => if key r =? k then f r else r) (first p rows).
Proof.
  intros Hp. unfold first, update_row.
  induction rows as [|r rows IH]; [reflexivity|]. simpl.
  replace (p (if key r =? k then f r else r)) with (p r)
    by (destruct (key r =? k); [now rewrite Hp | reflexivity]).
  destruct (p r); [reflexivity | exact IH].
Qed.

Lemma update_row_twice {A : Type} (key : A -> Z) (k : Z) (f g : A -> A)
  (rows : list A) :
  (forall r, key (f r) = key r) ->
  update_row key k g (update_row key k f rows)
  = update_row key k (fun r => g (f r)) rows.
Proof.
  intros Hk. unfold update_row. rewrite map_map. apply map_ext. intros r.
  destruct (key r =? k) eqn:E; [now rewrite Hk, E | now rewrite E].
Qed.

Lemma update_row_other {A : Type} (key : A -> Z) (k : Z) (f : A -> A)
  (p : A -> bool) (rows : list A) :
  (forall r, In r rows -> key r = k -> p r = false /\ p (f r) = false) ->
  filter p (update_row key k f rows) = filter p rows.
Proof.
  unfold update_row. induction rows as [|r rows IH]; intros H;
    [reflexivity|].
  simpl. rewrite IH by (intros; apply H; [now right | assumption]).
  destruct (Z.eqb_spec (key r) k) as [E|]; [|reflexivity].
  destruct (H r (or_introl eq_refl) E) as [-> ->]. reflexivity.
Qed.

Lemma query_task_some db task_id user_id task :
  query_task db task_id user_id = Some task ->
  In task (tasks db) /\ Task.id task = task_id
  /\ Task.user_id task = user_id /\ Task.is_deleted task = false.
Proof.
  intros H. apply first_some_in in H as [Hin Hp].
  apply andb_prop in Hp as [Hp Hd]. apply andb_prop in Hp as [Hi Hu].
  apply Z.eqb_eq in Hi, Hu. apply negb_true_iff in Hd. auto.
Qed.

Lemma query_task_none db task_id user_id :
  (forall t, In t (tasks db) -> Task.id t = task_id ->
             Task.user_id t = user_id -> Task.is_deleted t = true) ->
  query_task db task_id user_id = None.
Proof.
  intros H. unfold query_task, first.
  destruct (find _ (tasks db)) as [t|] eqn:E; [|reflexivity].
  apply query_task_some in E as (Hin & Hi & Hu & Hd).
  rewrite (H t Hin Hi Hu) in Hd. discriminate.
Qed.

(** X4: a task id that is unknown, belongs to another user or is already
    deleted is refused by all three mutations, which then leave the
    database as it was: [toggle_task] and [edit_task] return [None],
    [delete_task] returns [False]. *)
Theorem task_mutations_refuse_foreign_rows (db : Session)
  (task_id user_id : Z) (new_title : string) :
  (forall t, In t (tasks db) -> Task.id t = task_id ->
             Task.user_id t = user_id -> Task.is_deleted t = true) ->
  toggle_task db task_id user_id = (db, None)
  /\ edit_task db task_id user_id new_title = (db, None)
  /\ delete_task db task_id user_id = (db, false).
Proof.
  intros H. apply query_task_none in H.
  unfold toggle_task, edit_task, delete_task. now rewrite H.
Qed.

(** Ann asks for Cy's task. *)
Lemma task_mutations_refuse_foreign_rows_witness :
  (forall t, In t (tasks Sample.tasks_db) -> Task.id t = 3 ->
    Task.user_id t = 1 -> Task.is_deleted t = true)
  /\ (toggle_task Sample.tasks_db 3 1 = (Sample.tasks_db, None)
      /\ edit_task Sample.tasks_db 3 1 "Stroll" = (Sample.tasks_db, None)
      /\ delete_task Sample.tasks_db 3 1 = (Sample.tasks_db, false)).
Proof.
  assert (H1 : (forall t, In t (tasks Sample.tasks_db) -> Task.id t = 3 ->
      Task.user_id t = 1 -> Task.is_deleted t = true))
    by (intros t Hin; each_row Hin; vm_compute; intros; first [discriminate | reflexivity]).
  exact
    (conj H1 (task_mutations_refuse_foreign_rows Sample.tasks_db 3 1 "Stroll" H1)).
Defined.

(** X5: with unique task ids, whatever [toggle_task], [edit_task] and
    [delete_task] do for one user, they add and remove no row, change no
    row with another id, leave every other user's task list as it was and
    do not touch the other tables. *)
Theorem task_mutations_frame (db db' : Session) (task_id user_id : Z)
  (new_title : string) :
  NoDup (map Task.id (tasks db)) ->
  db' = fst (toggle_task db task_id user_id)
  \/ db' = fst (edit_task db task_id user_id new_title)
  \/ db' = fst (delete_task db task_id user_id) ->
  map Task.id (tasks db') = map Task.id (tasks db)
  /\ (forall t, In t (tasks db) -> Task.id t <> task_id -> In t (tasks db'))
  /\ (forall other, other <> user_id ->
        query_tasks db' other = query_tasks db other)
  /\ users db' = users db /\ habits db' = habits db
  /\ habit_logs db' = habit_logs db
  /\ weekly_reports db' = weekly_reports db.
Proof.
  intros Hnd Hdb'.
  assert (Hgen : db' = db
                 \/ exists task f,
                      query_task db task_id user_id = Some task
                      /\ (forall r, Task.id (f r) = Task.id r)
                      /\ (forall r, Task.user_id (f r) = Task.user_id r)
                      /\ db' = with_tasks db
                                 (update_row Task.id (Task.id task) f
                                    (tasks db))).
  { unfold toggle_task, edit_task, delete_task in Hdb'.
    destruct (query_task db task_id user_id) as [task|] eqn:Hq;
      [right | left; intuition].
    exists task.
    destruct Hdb' as [->|[->| ->]]; eexists;
      (split; [reflexivity|]); (split; [|split; [|reflexivity]]);
      reflexivity. }
  destruct Hgen as [->|(task & f & Hq & Hfi & Hfu & ->)];
    [repeat split; auto|].
  apply query_task_some in Hq as (Hin & Hi & Hu & Hd).
  cbn [with_tasks tasks users habits habit_logs weekly_reports].
  split; [now apply update_row_keys|].
  split; [|split; [|repeat split]].
  - intros t Ht Hne. unfold update_row. apply in_map_iff. exists t.
    split; [|assumption].
    destruct (Z.eqb_spec (Task.id t) (Task.id task)); [lia | reflexivity].
  - intros other Hother. unfold query_tasks. cbn [tasks with_tasks].
    apply update_row_other. intros r Hr E.
    assert (r = task) by (eapply nodup_key_inj; eauto). subst r.
    rewrite Hfu.
    destruct (Z.eqb_spec (Task.user_id task) other); [lia|]. now split.
Qed.

(** Ann deletes her first task. *)
Lemma task_mutations_frame_witness :
  NoDup (map Task.id (tasks Sample.tasks_db))
  /\ ((fst (delete_task Sample.tasks_db 1 1)) = fst (toggle_task Sample.tasks_db 1 1)
      \/ (fst (delete_task Sample.tasks_db 1 1)) = fst (edit_task Sample.tasks_db 1 1 "Draft")
      \/ (fst (delete_task Sample.tasks_db 1 1)) = fst (delete_task Sample.tasks_db 1 1))
  /\ (map Task.id (tasks (fst (delete_task Sample.tasks_db 1 1))) = map Task.id (tasks Sample.tasks_db)
      /\ (forall t, In t (tasks Sample.tasks_db) -> Task.id t <> 1 -> In t (tasks (fst (delete_task Sample.tasks_db 1 1))))
      /\ (forall other, other <> 1 ->
            query_tasks (fst (delete_task Sample.tasks_db 1 1)) other = query_tasks Sample.tasks_db other)
      /\ users (fst (delete_task Sample.tasks_db 1 1)) = users Sample.tasks_db /\ habits (fst (delete_task Sample.tasks_db 1 1)) = habits Sample.tasks_db
      /\ habit_logs (fst (delete_task Sample.tasks_db 1 1)) = habit_logs Sample.tasks_db
      /\ weekly_reports (fst (delete_task Sample.tasks_db 1 1)) = weekly_reports Sample.tasks_db).
Proof.
  assert (H1 : NoDup (map Task.id (tasks Sample.tasks_db)))
    by (distinct_keys).
  assert (H2 : (fst (delete_task Sample.tasks_db 1 1)) = fst (toggle_task Sample.tasks_db 1 1)
      \/ (fst (delete_task Sample.tasks_db 1 1)) = fst (edit_task Sample.tasks_db 1 1 "Draft")
      \/ (fst (delete_task Sample.tasks_db 1 1)) = fst (delete_task Sample.tasks_db 1 1))
    by (right; right; reflexivity).
  exact
    (conj H1 (conj H2 (task_mutations_frame Sample.tasks_db (fst (delete_task Sample.tasks_db 1 1)) 1 1 "Draft" H1 H2))).
Defined.

Lemma query_task_update db task_id user_id task f :
  query_task db task_id user_id = Some task ->
  (forall r, Task.id (f r) = Task.id r) ->
  (forall r, Task.user_id (f r) = Task.user_id r) ->
  (forall r, Task.is_deleted (f r) = Task.is_deleted r) ->
  query_task
    (with_tasks db (update_row Task.id (Task.id task) f (tasks db)))
    task_id user_id
  = Some (f task).
Proof.
  intros Hq Hi Hu Hd. unfold query_task in *. cbn [tasks with_tasks].
  rewrite first_update_row by (intros r; now rewrite Hi, Hu, Hd).
  rewrite Hq. simpl. now rewrite Z.eqb_refl.
Qed.

Lemma first_app {A : Type} (p : A -> bool) (l l' : list A) :
  first p (l ++ l')
  = match first p l with Some x => Some x | None => first p l' end.
Proof.
  unfold first. induction l as [|x l IH]; [reflexivity|]. simpl.
  destruct (p x); [reflexivity | exact IH].
Qed.

(** X6: [toggle_task] flips an active task of the user between pending and
    completed: the first call answers with the task completed unless it
    was completed already, and with unique task ids a second call puts
    back a status that was "pending" or "completed", leaving the database
    exactly as it was before the first. *)
Theorem toggle_task_twice (db : Session) (task_id user_id : Z)
  (task : Task.t) :
  NoDup (map Task.id (tasks db)) ->
  query_task db task_id user_id = Some task ->
  exists db1 task1,
    toggle_task db task_id user_id = (db1, Some task1)
    /\ Task.status task1
       = (if String.eqb (Task.status task) "completed" then "pending"
          else "completed")
    /\ query_task db1 task_id user_id = Some task1
    /\ (Task.status task = "pending" \/ Task.status task = "completed" ->
        toggle_task db1 task_id user_id = (db, Some task)).
Proof.
  intros Hnd Hq. unfold toggle_task at 1. rewrite Hq.
  set (s1 := toggle_status (Task.status task)).
  eexists _, _. split; [reflexivity|].
  assert (Hq1 : query_task
                  (with_tasks db
                     (update_row Task.id (Task.id task)
                        (fun t => task_set_status t s1) (tasks db)))
                  task_id user_id
                = Some (task_set_status task s1))
    by (now apply (query_task_update db task_id user_id task
                     (fun t => task_set_status t s1))).
  split; [|split; [exact Hq1|]].
  - cbn [Task.status task_set_status]. unfold s1, toggle_status.
    now destruct (String.eqb (Task.status task) "completed").
  - intros Hst. unfold toggle_task. rewrite Hq1.
    cbn [Task.id Task.status task_set_status with_tasks tasks].
    assert (Hback : toggle_status s1 = Task.status task).
    { unfold s1, toggle_status.
      destruct Hst as [-> | ->]; reflexivity. }
    rewrite Hback.
    rewrite update_row_twice by reflexivity.
    apply query_task_some in Hq as (Hin & _).
    rewrite (update_row_noop Task.id
               (fun r => task_set_status (task_set_status r s1)
                           (Task.status task)) (tasks db) task Hnd Hin)
      by (now destruct task).
    f_equal; [now destruct db | now destruct task].
Qed.

(** Ann toggles her pending task twice. *)
Lemma toggle_task_twice_witness :
  NoDup (map Task.id (tasks Sample.tasks_db))
  /\ query_task Sample.tasks_db 1 1 = Some Sample.write
  /\ (exists db1 task1,
      toggle_task Sample.tasks_db 1 1 = (db1, Some task1)
      /\ Task.status task1
         = (if String.eqb (Task.status Sample.write) "completed" then "pending"
            else "completed")
      /\ query_task db1 1 1 = Some task1
      /\ (Task.status Sample.write = "pending" \/ Task.status Sample.write = "completed" ->
          toggle_task db1 1 1 = (Sample.tasks_db, Some Sample.write))).
Proof.
  assert (H1 : NoDup (map Task.id (tasks Sample.tasks_db)))
    by (distinct_keys).
  assert (H2 : query_task Sample.tasks_db 1 1 = Some Sample.write)
    by (reflexivity).
  exact
    (conj H1 (conj H2 (toggle_task_twice Sample.tasks_db 1 1 Sample.write H1 H2))).
Defined.

(** X7: [delete_task] is a soft delete.  Deleting an active task of the
    user returns [True], keeps the row in the table
    with [is_deleted] set, takes exactly that task out of the user's
    listing, and makes every later [toggle_task], [edit_task] and
    [delete_task] on that id a refusal. *)
Theorem delete_task_is_soft (db : Session) (task_id user_id : Z)
  (task : Task.t) (new_title : string) :
  query_task db task_id user_id = Some task ->
  exists db',
    delete_task db task_id user_id = (db', true)
    /\ In (task_set_is_deleted task true) (tasks db')
    /\ List.length (tasks db') = List.length (tasks db)
    /\ query_tasks db' user_id
       = filter (fun t => negb (Task.id t =? task_id)) (query_tasks db user_id)
    /\ In task (query_tasks db user_id)
    /\ query_task db' task_id user_id = None
    /\ toggle_task db' task_id user_id = (db', None)
    /\ edit_task db' task_id user_id new_title = (db', None)
    /\ delete_task db' task_id user_id = (db', false).
Proof.
  intros Hq. unfold delete_task at 1. rewrite Hq.
  eexists. split; [reflexivity|].
  pose proof Hq as Hq0.
  apply query_task_some in Hq as (Hin & Hi & Hu & Hd).
  set (db' := with_tasks db _).
  assert (Hnone : query_task db' task_id user_id = None).
  { apply query_task_none. unfold db'. cbn [tasks with_tasks].
    intros t Ht Hti Htu. unfold update_row in Ht.
    apply in_map_iff in Ht as (r & Hr & Hrin).
    destruct (Z.eqb_spec (Task.id r) (Task.id task)) as [E|E].
    - now subst t.
    - subst t. lia. }
  split; [|split; [|split; [|split; [|split; [exact Hnone|]]]]].
  - unfold db'. cbn [tasks with_tasks]. unfold update_row.
    apply in_map_iff. exists task. now rewrite Z.eqb_refl.
  - unfold db'. cbn [tasks with_tasks]. apply update_row_length.
  - unfold db', query_tasks. cbn [tasks with_tasks]. unfold update_row.
    rewrite Hi. clear.
    induction (tasks db) as [|r rows IH]; [reflexivity|]. simpl.
    destruct (Z.eqb_spec (Task.id r) task_id) as [E|E].
    + cbn [Task.user_id Task.is_deleted task_set_is_deleted].
      rewrite andb_false_r.
      destruct ((Task.user_id r =? user_id) && negb (Task.is_deleted r));
        simpl; [|exact IH].
      destruct (Z.eqb_spec (Task.id r) task_id); [exact IH | contradiction].
    + destruct ((Task.user_id r =? user_id) && negb (Task.is_deleted r));
        simpl; [|exact IH].
      destruct (Z.eqb_spec (Task.id r) task_id); [contradiction|].
      simpl. now rewrite IH.
  - unfold query_tasks. apply filter_In. split; [assumption|].
    now rewrite Hu, Z.eqb_refl, Hd.
  - unfold toggle_task, edit_task, delete_task. now rewrite Hnone.
Qed.

(** Ann deletes her first task. *)
Lemma delete_task_is_soft_witness :
  query_task Sample.tasks_db 1 1 = Some Sample.write
  /\ (exists db',
      delete_task Sample.tasks_db 1 1 = (db', true)
      /\ In (task_set_is_deleted Sample.write true) (tasks db')
      /\ List.length (tasks db') = List.length (tasks Sample.tasks_db)
      /\ query_tasks db' 1
         = filter (fun t => negb (Task.id t =? 1)) (query_tasks Sample.tasks_db 1)
      /\ In Sample.write (query_tasks Sample.tasks_db 1)
      /\ query_task db' 1 1 = None
      /\ toggle_task db' 1 1 = (db', None)
      /\ edit_task db' 1 1 "Draft" = (db', None)
      /\ delete_task db' 1 1 = (db', false)).
Proof.
  assert (H1 : query_task Sample.tasks_db 1 1 = Some Sample.write)
    by (reflexivity).
  exact
    (conj H1 (delete_task_is_soft Sample.tasks_db 1 1 Sample.write "Draft" H1)).
Defined.

(** X8: [create_task] stores a pending, not deleted task under a key no
    other task has: it keeps the task ids unique, the new task is found
    by [query_task] for its owner, comes last in the owner's rows and adds
    one to the [total] of [get_tasks]; rows already there are unchanged. *)
Theorem create_task_round_trip (db : Session) (title priority : string)
  (description : option string) (due_date : option datetime)
  (user_id : Z) (now : datetime) :
  NoDup (map Task.id (tasks db)) ->
  exists db' task,
    create_task db title priority description due_date user_id now
    = (db', task)
    /\ Task.status task = "pending"
    /\ ~ In (Task.id task) (map Task.id (tasks db))
    /\ NoDup (map Task.id (tasks db'))
    /\ tasks db' = tasks db ++ [task]
    /\ query_task db' (Task.id task) user_id = Some task
    /\ query_tasks db' user_id = query_tasks db user_id ++ [task]
    /\ (forall other, other <> user_id ->
          query_tasks db' other = query_tasks db other).
Proof.
  intros Hnd. unfold create_task. eexists _, _. split; [reflexivity|].
  set (k := next_id (map Task.id (tasks db))).
  assert (Hfresh : ~ In k (map Task.id (tasks db))) by apply next_id_fresh.
  cbn [Task.status Task.id tasks with_tasks].
  split; [reflexivity|]. split; [exact Hfresh|].
  split; [|split; [reflexivity|split; [|split]]].
  - rewrite map_app. simpl.
    apply NoDup_app; [assumption | repeat constructor; simpl; tauto|].
    intros x Hx [<-|[]]. contradiction.
  - unfold query_task. cbn [tasks with_tasks].
    rewrite first_app.
    destruct (first _ (tasks db)) as [t|] eqn:E.
    + apply first_some_in in E as [Hin Hp].
      apply andb_prop in Hp as [Hp _]. apply andb_prop in Hp as [Hp _].
      apply Z.eqb_eq in Hp. exfalso. apply Hfresh. rewrite <- Hp.
      now apply in_map.
    + simpl. now rewrite !Z.eqb_refl.
  - unfold query_tasks. cbn [tasks with_tasks]. rewrite filter_app. simpl.
    now rewrite Z.eqb_refl.
  - intros other Hne. unfold query_tasks. cbn [tasks with_tasks].
    rewrite filter_app. simpl.
    destruct (Z.eqb_spec user_id other); [congruence|].
    simpl. apply app_nil_r.
Qed.

(** Ann adds a sixth task. *)
Lemma create_task_round_trip_witness :
  NoDup (map Task.id (tasks Sample.tasks_db))
  /\ (exists db' task,
      create_task Sample.tasks_db "Call" "high" None None 1 1718020000
      = (db', task)
      /\ Task.status task = "pending"
      /\ ~ In (Task.id task) (map Task.id (tasks Sample.tasks_db))
      /\ NoDup (map Task.id (tasks db'))
      /\ tasks db' = tasks Sample.tasks_db ++ [task]
      /\ query_task db' (Task.id task) 1 = Some task
      /\ query_tasks db' 1 = query_tasks Sample.tasks_db 1 ++ [task]
      /\ (forall other, other <> 1 ->
            query_tasks db' other = query_tasks Sample.tasks_db other)).
Proof.
  assert (H1 : NoDup (map Task.id (tasks Sample.tasks_db)))
    by (distinct_keys).
  exact
    (conj H1 (create_task_round_trip Sample.tasks_db "Call" "high" None None 1 1718020000 H1)).
Defined.

(** X9: a task created with a later clock than every task of the user is
    the first item of the first page of [get_tasks], for any limit from 1
    on. *)
Theorem created_task_heads_first_page (db : Session) (title priority : string)
  (description : option string) (due_date : option datetime)
  (user_id limit : Z) (now : datetime) :
  1 <= limit ->
  (forall t, In t (query_tasks db user_id) -> Task.created_at t < now) ->
  exists p rest,
    get_tasks
      (fst (create_task db title priority description due_date user_id now))
      user_id 1 limit = Ok p
    /\ Page.items p
       = snd (create_task db title priority description due_date user_id now)
         :: rest
    /\ Page.total p = len (query_tasks db user_id) + 1.
Proof.
  intros Hl Hnew. unfold create_task. cbn [fst snd].
  set (task := Task.mk _ _ _ _ _ _ _ _ _).
  unfold get_tasks. rewrite paginated_ok by lia.
  assert (Hq : query_tasks (with_tasks db (tasks db ++ [task])) user_id
               = query_tasks db user_id ++ [task]).
  { unfold query_tasks. cbn [tasks with_tasks]. rewrite filter_app.
    simpl. now rewrite Z.eqb_refl. }
  rewrite Hq.
  rewrite order_by_desc_newest
    by (intros t Ht; cbn [Task.created_at task]; now apply Hnew). unfold sql_offset, sql_limit. cbn [Z.sub Z.mul].
  replace ((1 - 1) * limit) with 0 by lia. cbn [Z.to_nat skipn].
  replace (limit <? 0) with false by (symmetry; apply Z.ltb_ge; lia).
  destruct (Z.to_nat limit) as [|n] eqn:En; [lia|].
  eexists _, _. split; [reflexivity|]. cbn [Page.items Page.total firstn].
  split; [reflexivity|]. unfold len. rewrite length_app. simpl. lia.
Qed.

(** Ann adds a task after all the others. *)
Lemma created_task_heads_first_page_witness :
  1 <= 2
  /\ (forall t, In t (query_tasks Sample.tasks_db 1) -> Task.created_at t < 1718020000)
  /\ (exists p rest,
      get_tasks
        (fst (create_task Sample.tasks_db "Call" "high" None None 1 1718020000))
        1 1 2 = Ok p
      /\ Page.items p
         = snd (create_task Sample.tasks_db "Call" "high" None None 1 1718020000)
           :: rest
      /\ Page.total p = len (query_tasks Sample.tasks_db 1) + 1).
Proof.
  assert (H1 : 1 <= 2)
    by (lia).
  assert (H2 : (forall t, In t (query_tasks Sample.tasks_db 1) -> Task.created_at t < 1718020000))
    by (intros t Hin; each_row Hin; compare_ints).
  exact
    (conj H1 (conj H2 (created_task_heads_first_page Sample.tasks_db "Call" "high" None None 1 2 1718020000 H1 H2))).
Defined.

(** X10: [edit_task] changes the title and nothing else: the task it
    returns is the stored one with the new title, a later [query_task]
    finds exactly that task, and the user's listing keeps its length. *)
Theorem edit_task_round_trip (db : Session) (task_id user_id : Z)
  (new_title : string) (task : Task.t) :
  query_task db task_id user_id = Some task ->
  exists db',
    edit_task db task_id user_id new_title
    = (db', Some (task_set_title task new_title))
    /\ query_task db' task_id user_id = Some (task_set_title task new_title)
    /\ map Task.status (tasks db') = map Task.status (tasks db)
    /\ len (query_tasks db' user_id) = len (query_tasks db user_id).
Proof.
  intros Hq. unfold edit_task. rewrite Hq. eexists. split; [reflexivity|].
  split; [|split].
  - now apply (query_task_update db task_id user_id task
                 (fun t => task_set_title t new_title)).
  - cbn [tasks with_tasks]. unfold update_row. rewrite map_map.
    apply map_ext. intros r. now destruct (Task.id r =? Task.id task).
  - unfold query_tasks, len. cbn [tasks with_tasks].
    rewrite filter_update_row by reflexivity.
    now rewrite update_row_length.
Qed.

(** Ann renames her first task. *)
Lemma edit_task_round_trip_witness :
  query_task Sample.tasks_db 1 1 = Some Sample.write
  /\ (exists db',
      edit_task Sample.tasks_db 1 1 "Draft"
      = (db', Some (task_set_title Sample.write "Draft"))
      /\ query_task db' 1 1 = Some (task_set_title Sample.write "Draft")
      /\ map Task.status (tasks db') = map Task.status (tasks Sample.tasks_db)
      /\ len (query_tasks db' 1) = len (query_tasks Sample.tasks_db 1)).
Proof.
  assert (H1 : query_task Sample.tasks_db 1 1 = Some Sample.write)
    by (reflexivity).
  exact
    (conj H1 (edit_task_round_trip Sample.tasks_db 1 1 "Draft" Sample.write H1)).
Defined.

(* ===================================================================== *)
(** ** What the streak calculator counts *)
(* ===================================================================== *)

Lemma strictly_desc_head l logs :
  strictly_desc (l :: logs) ->
  strictly_desc logs
  /\ forall x, In x logs -> HabitLog.date x < HabitLog.date l.
Proof.
  intros H. apply StronglySorted_inv in H as [Hs Hall].
  split; [assumption|]. now apply Forall_forall.
Qed.

Lemma streak_loop_counts logs today :
  forall streak flag check s b,
    strictly_desc logs ->
    0 <= streak -> check = today - streak ->
    (flag = true <-> 0 < streak) ->
    (0 < streak -> forall l, In l logs -> HabitLog.date l <= check) ->
    _calculate_streak_loop logs today streak flag check = Ok (s, b) ->
    streak <= s
    /\ (b = true <-> 0 < s)
    /\ (forall k, streak <= k < s ->
          exists l, In l logs /\ HabitLog.date l = today - k)
    /\ (forall l, In l logs -> HabitLog.date l <> today - s).
Proof.
  induction logs as [|l logs IH]; intros streak flag check s b Hsd H0 Hc Hf
    Hle Hrun.
  - simpl in Hrun. injection Hrun as <- <-.
    split; [lia|]. split; [assumption|]. split; [intros; lia|].
    intros l [].
  - apply strictly_desc_head in Hsd as [Hsd Hhd].
    simpl in Hrun.
    destruct (Z.eqb_spec (HabitLog.date l) today) as [Et|Et].
    + (* the log of today: only while nothing has been counted *)
      assert (streak = 0).
      { destruct (Z.eq_dec streak 0); [assumption|].
        specialize (Hle ltac:(lia) l (or_introl eq_refl)). lia. }
      subst streak.
      apply bind_ok in Hrun as (c' & Hsub & Hrun).
      apply date_sub_ok in Hsub as [-> _].
      apply IH in Hrun; [|assumption|lia|lia|intuition lia|].
      * destruct Hrun as (Hs & Hb & Hk & Hn).
        split; [lia|]. split; [assumption|]. split.
        -- intros k Hk'. destruct (Z.eq_dec k 0) as [->|].
           ++ exists l. split; [now left | lia].
           ++ destruct (Hk k ltac:(lia)) as (x & Hx & Hd).
              exists x. split; [now right | assumption].
        -- intros x [<-|Hx]; [lia | now apply Hn].
      * intros _ x Hx. specialize (Hhd x Hx). lia.
    + destruct (Z.eqb_spec (HabitLog.date l) check) as [Ec|Ec].
      * assert (0 < streak) by lia.
        apply bind_ok in Hrun as (c' & Hsub & Hrun).
        apply date_sub_ok in Hsub as [-> _].
        apply IH in Hrun; [|assumption|lia|lia|intuition lia|].
        -- destruct Hrun as (Hs & Hb & Hk & Hn).
           split; [lia|]. split; [assumption|]. split.
           ++ intros k Hk'. destruct (Z.eq_dec k streak) as [->|].
              ** exists l. split; [now left | lia].
              ** destruct (Hk k ltac:(lia)) as (x & Hx & Hd).
                 exists x. split; [now right | assumption].
           ++ intros x [<-|Hx]; [lia | now apply Hn].
        -- intros _ x Hx. specialize (Hhd x Hx). lia.
      * destruct (Z.ltb_spec (HabitLog.date l) check) as [Hlt|Hge].
        -- injection Hrun as <- <-.
           split; [lia|]. split; [assumption|]. split; [intros; lia|].
           intros x [<-|Hx]; [lia|]. specialize (Hhd x Hx). lia.
        -- assert (streak = 0).
           { destruct (Z.eq_dec streak 0); [assumption|].
             specialize (Hle ltac:(lia) l (or_introl eq_refl)). lia. }
           subst streak.
           apply IH in Hrun; [|assumption|lia|lia|assumption|intros; lia].
           destruct Hrun as (Hs & Hb & Hk & Hn).
           split; [lia|]. split; [assumption|]. split.
           ++ intros k Hk'. destruct (Hk k Hk') as (x & Hx & Hd).
              exists x. split; [now right | assumption].
           ++ intros x [<-|Hx]; [lia | now apply Hn].
Qed.

(** What the loop counts, from its start state. *)
Lemma streak_counts (logs : list HabitLog.t) (today : date) :
  strictly_desc logs ->
  2 <= today <= _MAXORDINAL ->
  (forall l, In l logs -> 2 <= HabitLog.date l <= _MAXORDINAL) ->
  exists s b,
    _calculate_streak logs today = Ok (s, b)
    /\ 0 <= s
    /\ (b = true <-> 0 < s)
    /\ (forall k, 0 <= k < s ->
          exists l, In l logs /\ HabitLog.date l = today - k)
    /\ (forall l, In l logs -> HabitLog.date l <> today - s).
Proof.
  intros Hsd Ht Hd.
  destruct (streak_loop_returns logs today Ht Hd 0 false today)
    as (s & b & Hrun).
  exists s, b. unfold _calculate_streak. split; [exact Hrun|].
  apply streak_loop_counts in Hrun;
    [|assumption|lia|lia|split; [discriminate | lia]|intros; lia].
  exact Hrun.
Qed.

(** X11: on logs sorted newest first with no day twice, every day from 2 on,
    [_calculate_streak] returns, and what it returns is the length of the
    run of logged days that ends today: the days [today], [today - 1], ...,
    [today - (s - 1)] each have a log, the day [today - s] has none, and
    the flag tells whether today has one. *)
Theorem calculate_streak_is_run_length (logs : list HabitLog.t)
  (today : date) :
  strictly_desc logs ->
  2 <= today <= _MAXORDINAL ->
  (forall l, In l logs -> 2 <= HabitLog.date l <= _MAXORDINAL) ->
  exists s b,
    _calculate_streak logs today = Ok (s, b)
    /\ 0 <= s
    /\ (b = true <-> exists l, In l logs /\ HabitLog.date l = today)
    /\ (forall k, 0 <= k < s ->
          exists l, In l logs /\ HabitLog.date l = today - k)
    /\ (forall l, In l logs -> HabitLog.date l <> today - s).
Proof.
  intros Hsd Ht Hd.
  destruct (streak_counts logs today Hsd Ht Hd)
    as (s & b & Hrun & Hs & Hb & Hk & Hn).
  exists s, b. split; [exact Hrun|].
  split; [assumption|]. split; [|split; assumption].
  rewrite Hb. split.
  - intros Hpos. destruct (Hk 0 ltac:(lia)) as (l & Hl & Hdl).
    exists l. split; [assumption | lia].
  - intros (l & Hl & Hdl).
    destruct (Z.eq_dec s 0) as [->|]; [|lia].
    exfalso. apply (Hn l Hl). lia.
Qed.

(** Three days in a row, ending today. *)
Lemma calculate_streak_is_run_length_witness :
  strictly_desc (Scenario.daily 1 1 Scenario.today 3)
  /\ 2 <= Scenario.today <= _MAXORDINAL
  /\ (forall l, In l (Scenario.daily 1 1 Scenario.today 3) -> 2 <= HabitLog.date l <= _MAXORDINAL)
  /\ (exists s b,
      _calculate_streak (Scenario.daily 1 1 Scenario.today 3) Scenario.today = Ok (s, b)
      /\ 0 <= s
      /\ (b = true <-> exists l, In l (Scenario.daily 1 1 Scenario.today 3) /\ HabitLog.date l = Scenario.today)
      /\ (forall k, 0 <= k < s ->
            exists l, In l (Scenario.daily 1 1 Scenario.today 3) /\ HabitLog.date l = Scenario.today - k)
      /\ (forall l, In l (Scenario.daily 1 1 Scenario.today 3) -> HabitLog.date l <> Scenario.today - s)).
Proof.
  assert (H1 : strictly_desc (Scenario.daily 1 1 Scenario.today 3))
    by (cbv; repeat constructor).
  assert (H2 : 2 <= Scenario.today <= _MAXORDINAL)
    by (compare_ints).
  assert (H3 : (forall l, In l (Scenario.daily 1 1 Scenario.today 3) -> 2 <= HabitLog.date l <= _MAXORDINAL))
    by (intros l Hin; each_row Hin; compare_ints).
  exact
    (conj H1 (conj H2 (conj H3 (calculate_streak_is_run_length (Scenario.daily 1 1 Scenario.today 3) Scenario.today H1 H2 H3)))).
Defined.

(** One row per (habit, day) pair is what [one_log_per_day] asks for. *)
Lemma one_log_per_day_of_nodup db :
  NoDup (map (fun l => (HabitLog.habit_id l, HabitLog.date l)) (habit_logs db))
  -> one_log_per_day db.
Proof.
  intros Hnd habit_id d. unfold logs_on.
  induction (habit_logs db) as [|l logs IH]; [simpl; lia|].
  simpl in Hnd. apply NoDup_cons_iff in Hnd as [Hnotin Hnd].
  specialize (IH Hnd). simpl.
  destruct ((HabitLog.habit_id l =? habit_id) && (HabitLog.date l =? d))
    eqn:E; [|exact IH].
  apply andb_prop in E as [Eh Ed]. apply Z.eqb_eq in Eh, Ed.
  destruct (filter _ logs) as [|x rest] eqn:Ef; [simpl; lia|].
  exfalso. apply Hnotin.
  assert (Hx : In x (filter
                       (fun l => (HabitLog.habit_id l =? habit_id)
                                 && (HabitLog.date l =? d)) logs))
    by (rewrite Ef; now left).
  apply filter_In in Hx as [Hx Hp]. apply andb_prop in Hp as [Hh Hd].
  apply Z.eqb_eq in Hh, Hd.
  apply in_map_iff. exists x. split; [congruence | assumption].
Qed.

Lemma insert_date_desc_perm l ls :
  Permutation (insert_date_desc l ls) (l :: ls).
Proof.
  induction ls as [|x ls IH]; simpl; [reflexivity|].
  destruct (HabitLog.date x <=? HabitLog.date l); [reflexivity|].
  rewrite IH. apply perm_swap.
Qed.

Lemma order_by_date_desc_perm ls : Permutation (order_by_date_desc ls) ls.
Proof.
  induction ls as [|l ls IH]; simpl; [reflexivity|].
  rewrite insert_date_desc_perm. now apply perm_skip.
Qed.

Lemma query_completed_logs_in db habit_id l :
  In l (query_completed_logs db habit_id)
  <-> In l (habit_logs db) /\ HabitLog.habit_id l = habit_id
      /\ HabitLog.completed l = true.
Proof.
  unfold query_completed_logs. split.
  - intros H. apply (Permutation_in _ (order_by_date_desc_perm _)) in H.
    apply filter_In in H as [Hin Hp]. apply andb_prop in Hp as [Hh Hc].
    apply Z.eqb_eq in Hh. auto.
  - intros (Hin & Hh & Hc).
    apply (Permutation_in _ (Permutation_sym (order_by_date_desc_perm _))).
    apply filter_In. split; [assumption|].
    now rewrite Hh, Z.eqb_refl, Hc.
Qed.

Lemma filter_perm {A : Type} (p : A -> bool) (l l' : list A) :
  Permutation l l' -> Permutation (filter p l) (filter p l').
Proof.
  induction 1 as [|x l l' _ IH|x y l|l l' l'' _ IH1 _ IH2]; simpl.
  - constructor.
  - destruct (p x); [now apply perm_skip | assumption].
  - destruct (p x), (p y); try reflexivity. apply perm_swap.
  - now transitivity (filter p l').
Qed.

Lemma filter_length_le {A : Type} (p q : A -> bool) (l : list A) :
  (forall x, p x = true -> q x = true) ->
  (List.length (filter p l) <= List.length (filter q l))%nat.
Proof.
  intros Hpq. induction l as [|x l IH]; simpl; [lia|].
  destruct (p x) eqn:E.
  - rewrite (Hpq x E). simpl. lia.
  - destruct (q x); simpl; lia.
Qed.

Lemma filter_filter_and {A : Type} (p q : A -> bool) (l : list A) :
  filter p (filter q l) = filter (fun x => q x && p x) l.
Proof.
  induction l as [|x l IH]; simpl; [reflexivity|].
  destruct (q x); simpl; [|exact IH].
  destruct (p x); now rewrite IH.
Qed.

Lemma dates_nodup (logs : list HabitLog.t) :
  (forall d, at_most_one (filter (fun l => HabitLog.date l =? d) logs)) ->
  NoDup (map HabitLog.date logs).
Proof.
  unfold at_most_one.
  induction logs as [|a logs IH]; intros H; [constructor|].
  simpl. constructor.
  - intros Hin. apply in_map_iff in Hin as (x & Hx & Hxin).
    specialize (H (HabitLog.date a)). simpl in H.
    rewrite Z.eqb_refl in H. simpl in H.
    assert (In x (filter (fun l => HabitLog.date l =? HabitLog.date a) logs))
      by (apply filter_In; split; [assumption | now apply Z.eqb_eq]).
    destruct (filter _ logs); [contradiction | simpl in H; lia].
  - apply IH. intros d. specialize (H d). simpl in H.
    destruct (HabitLog.date a =? d); simpl in H; lia.
Qed.

Lemma sorted_nodup_strict (logs : list HabitLog.t) :
  sorted_desc logs -> NoDup (map HabitLog.date logs) -> strictly_desc logs.
Proof.
  intros Hs Hnd. unfold sorted_desc in Hs.
  apply Sorted_StronglySorted in Hs; [|intros x y z; lia].
  induction Hs as [|a l Hs IH Hall]; [constructor|].
  simpl in Hnd. apply NoDup_cons_iff in Hnd as [Hnotin Hnd].
  constructor; [now apply IH|].
  rewrite Forall_forall in *. intros x Hx.
  specialize (Hall x Hx).
  assert (HabitLog.date x <> HabitLog.date a)
    by (intros E; apply Hnotin; rewrite <- E; now apply in_map).
  lia.
Qed.

Lemma query_completed_logs_strict db habit_id :
  one_log_per_day db -> strictly_desc (query_completed_logs db habit_id).
Proof.
  intros H. apply sorted_nodup_strict;
    [apply query_completed_logs_sorted|].
  apply dates_nodup. intros d. unfold at_most_one, query_completed_logs.
  rewrite (Permutation_length
             (filter_perm _ _ _ (order_by_date_desc_perm _))).
  rewrite filter_filter_and.
  specialize (H habit_id d). unfold logs_on in H.
  eapply Nat.le_trans; [|exact H].
  apply filter_length_le. intros x Hx.
  apply andb_prop in Hx as [Hx Hd]. apply andb_prop in Hx as [Hh _].
  now rewrite Hh, Hd.
Qed.

Lemma completed_on_true db habit_id d :
  completed_on db habit_id d = true
  <-> exists l, In l (query_completed_logs db habit_id)
                /\ HabitLog.date l = d.
Proof.
  unfold completed_on. rewrite existsb_exists. split.
  - intros (l & Hin & Hp). apply andb_prop in Hp as [Hp Hd].
    apply andb_prop in Hp as [Hh Hc]. apply Z.eqb_eq in Hh, Hd.
    exists l. split; [|assumption].
    apply query_completed_logs_in. auto.
  - intros (l & Hin & Hd). apply query_completed_logs_in in Hin
      as (Hin & Hh & Hc).
    exists l. split; [assumption|].
    now rewrite Hh, Hc, Hd, !Z.eqb_refl.
Qed.

(** The streak of a habit of the database, in terms of its completed
    days. *)
Lemma habit_streak_counts (db : Session) (habit_id : Z) (today : date) :
  one_log_per_day db ->
  log_dates_in_range db ->
  2 <= today <= _MAXORDINAL ->
  exists s b,
    _calculate_streak (query_completed_logs db habit_id) today = Ok (s, b)
    /\ 0 <= s
    /\ (b = true <-> 0 < s)
    /\ (forall k, 0 <= k < s -> completed_on db habit_id (today - k) = true)
    /\ completed_on db habit_id (today - s) = false.
Proof.
  intros Hone Hrange Ht.
  destruct (streak_counts (query_completed_logs db habit_id) today) as
    (s & b & Hrun & Hs & Hb & Hk & Hn).
  - now apply query_completed_logs_strict.
  - assumption.
  - intros l Hl. apply query_completed_logs_in in Hl as (Hl & _).
    now apply Hrange.
  - exists s, b. split; [assumption|]. split; [assumption|].
    split; [assumption|]. split.
    + intros k Hk'. apply completed_on_true. now apply Hk.
    + destruct (completed_on db habit_id (today - s)) eqn:E;
        [|reflexivity].
      apply completed_on_true in E as (l & Hl & Hd).
      exfalso. now apply (Hn l Hl).
Qed.

(** X12: when the log table holds one row per habit and day, the streak
    the services compute for a habit is the number of consecutive days,
    counted back from today, on which the habit has a completed log: each
    of the [s] days ending today is completed, the day before them is
    not, and the flag says whether today is. *)
Theorem habit_streak_is_run_length (db : Session) (habit_id : Z)
  (today : date) :
  one_log_per_day db ->
  log_dates_in_range db ->
  2 <= today <= _MAXORDINAL ->
  exists s,
    _calculate_streak (query_completed_logs db habit_id) today
    = Ok (s, completed_on db habit_id today)
    /\ 0 <= s
    /\ (forall k, 0 <= k < s -> completed_on db habit_id (today - k) = true)
    /\ completed_on db habit_id (today - s) = false.
Proof.
  intros Hone Hrange Ht.
  destruct (habit_streak_counts db habit_id today Hone Hrange Ht)
    as (s & b & Hrun & Hs & Hb & Hk & Hn).
  exists s. split; [|split; [assumption|split; assumption]].
  rewrite Hrun. do 2 f_equal.
  destruct (Z.eq_dec s 0) as [->|Hpos].
  - rewrite Z.sub_0_r in Hn. rewrite Hn.
    destruct b; [|reflexivity]. destruct Hb as [Hb _].
    specialize (Hb eq_refl). lia.
  - rewrite <- (Z.sub_0_r today), (Hk 0) by lia. apply Hb. lia.
Qed.

(** Ann's second habit, logged on the last three days. *)
Lemma habit_streak_is_run_length_witness :
  one_log_per_day Scenario.streak_db
  /\ log_dates_in_range Scenario.streak_db
  /\ 2 <= Scenario.today <= _MAXORDINAL
  /\ (exists s,
      _calculate_streak (query_completed_logs Scenario.streak_db 2) Scenario.today
      = Ok (s, completed_on Scenario.streak_db 2 Scenario.today)
      /\ 0 <= s
      /\ (forall k, 0 <= k < s -> completed_on Scenario.streak_db 2 (Scenario.today - k) = true)
      /\ completed_on Scenario.streak_db 2 (Scenario.today - s) = false).
Proof.
  assert (H1 : one_log_per_day Scenario.streak_db)
    by (apply one_log_per_day_of_nodup; distinct_keys).
  assert (H2 : log_dates_in_range Scenario.streak_db)
    by (intros l Hin; each_row Hin; compare_ints).
  assert (H3 : 2 <= Scenario.today <= _MAXORDINAL)
    by (compare_ints).
  exact
    (conj H1 (conj H2 (conj H3 (habit_streak_is_run_length Scenario.streak_db 2 Scenario.today H1 H2 H3)))).
Defined.

Lemma log_habit_cases db habit_id log_date completed user_id :
  query_habit db habit_id user_id <> None ->
  (exists existing,
     first (fun l => (HabitLog.habit_id l =? habit_id)
                     && (HabitLog.date l =? log_date)) (habit_logs db)
     = Some existing
     /\ log_habit db habit_id log_date completed user_id
        = (with_habit_logs db
             (update_row HabitLog.id (HabitLog.id existing)
                (fun l => HabitLog.set_completed l completed)
                (habit_logs db)),
           Some (HabitLog.set_completed existing completed)))
  \/ (logs_on db habit_id log_date = []
      /\ log_habit db habit_id log_date completed user_id
         = (with_habit_logs db
              (habit_logs db
               ++ [HabitLog.mk (next_id (map HabitLog.id (habit_logs db)))
                     habit_id log_date completed]),
            Some (HabitLog.mk (next_id (map HabitLog.id (habit_logs db)))
                    habit_id log_date completed))).
Proof.
  intros Hq. unfold log_habit.
  destruct (query_habit db habit_id user_id); [|contradiction].
  destruct (first _ (habit_logs db)) as [existing|] eqn:E.
  - left. exists existing. now split.
  - right. split; [|reflexivity]. now apply first_none_filter.
Qed.

Lemma log_habit_completed_on db habit_id log_date completed user_id :
  one_log_per_day db ->
  query_habit db habit_id user_id <> None ->
  completed_on (fst (log_habit db habit_id log_date completed user_id))
    habit_id log_date
  = completed.
Proof.
  intros Hone Hq.
  destruct (log_habit_cases db habit_id log_date completed user_id Hq)
    as [(existing & Hfirst & ->)|(Hnone & ->)]; cbn [fst].
  - destruct (first_some_filter _ _ _ Hfirst) as (rest & Hrest).
    pose proof (Hone habit_id log_date) as H1. unfold logs_on in H1.
    rewrite Hrest in H1. destruct rest; [|simpl in H1; lia]. clear H1.
    apply first_some_in in Hfirst as [Hin Hp].
    unfold completed_on. cbn [habit_logs with_habit_logs].
    destruct completed.
    + apply existsb_exists.
      exists (HabitLog.set_completed existing true). split.
      * unfold update_row. apply in_map_iff. exists existing.
        now rewrite Z.eqb_refl.
      * cbn [HabitLog.habit_id HabitLog.date HabitLog.completed
               HabitLog.set_completed].
        apply andb_prop in Hp as [-> ->]. reflexivity.
    + apply not_true_is_false. intros Hex.
      apply existsb_exists in Hex as (x & Hx & Hpx).
      unfold update_row in Hx. apply in_map_iff in Hx as (r & Hr & Hrin).
      assert (Hsame : HabitLog.habit_id x = HabitLog.habit_id r
                      /\ HabitLog.date x = HabitLog.date r).
      { subst x. destruct (HabitLog.id r =? HabitLog.id existing);
          now split. }
      destruct Hsame as [Hh Hd].
      apply andb_prop in Hpx as [Hpx Hdx]. apply andb_prop in Hpx as [Hhx Hc].
      assert (Hrl : In r (filter
                            (fun l => (HabitLog.habit_id l =? habit_id)
                                      && (HabitLog.date l =? log_date))
                            (habit_logs db))).
      { apply filter_In. split; [assumption|].
        now rewrite <- Hh, <- Hd, Hhx, Hdx. }
      rewrite Hrest in Hrl. destruct Hrl as [<-|[]].
      rewrite Z.eqb_refl in Hr. subst x. discriminate.
  - unfold completed_on. cbn [habit_logs with_habit_logs].
    rewrite existsb_app. simpl. rewrite !Z.eqb_refl. simpl.
    rewrite orb_false_r.
    replace (existsb _ (habit_logs db)) with false;
      [now destruct completed|].
    symmetry. apply not_true_is_false. intros Hex.
    apply existsb_exists in Hex as (x & Hx & Hpx).
    apply andb_prop in Hpx as [Hpx Hdx]. apply andb_prop in Hpx as [Hhx Hc].
    assert (Hrl : In x (logs_on db habit_id log_date))
      by (apply filter_In; split; [assumption | now rewrite Hhx, Hdx]).
    now rewrite Hnone in Hrl.
Qed.

Lemma log_habit_dates_in_range db habit_id log_date completed user_id :
  2 <= log_date <= _MAXORDINAL ->
  log_dates_in_range db ->
  log_dates_in_range (fst (log_habit db habit_id log_date completed user_id)).
Proof.
  intros Hd Hr. unfold log_habit.
  destruct (query_habit db habit_id user_id); [|exact Hr].
  destruct (first _ (habit_logs db)) as [existing|]; cbn [fst];
    intros l Hl; cbn [habit_logs with_habit_logs] in Hl.
  - unfold update_row in Hl. apply in_map_iff in Hl as (r & <- & Hr').
    specialize (Hr r Hr').
    now destruct (HabitLog.id r =? HabitLog.id existing).
  - apply in_app_iff in Hl as [Hl|[<-|[]]]; [now apply Hr | exact Hd].
Qed.

(** X13: logging a habit for today shows at once in its streak.  On a table
    with one log per habit and day, after [log_habit] with
    [completed = True] for today the streak is at least 1 and the habit
    counts as logged today; after [completed = False] the streak is 0 and
    it does not. *)
Theorem log_habit_today_shows_in_streak (db : Session) (habit_id : Z)
  (today : date) (completed : bool) (user_id : Z) :
  one_log_per_day db ->
  log_dates_in_range db ->
  2 <= today <= _MAXORDINAL ->
  query_habit db habit_id user_id <> None ->
  exists db' log s,
    log_habit db habit_id today completed user_id = (db', Some log)
    /\ HabitLog.date log = today
    /\ HabitLog.completed log = completed
    /\ _calculate_streak (query_completed_logs db' habit_id) today
       = Ok (s, completed)
    /\ (if completed then 1 <= s else s = 0).
Proof.
  intros Hone Hrange Ht Hq.
  pose proof (log_habit_completed_on db habit_id today completed user_id
                Hone Hq) as Hc.
  pose proof (log_habit_keeps_one_log_per_day db habit_id today completed
                user_id Hone) as Hone'.
  pose proof (log_habit_dates_in_range db habit_id today completed user_id
                Ht Hrange) as Hrange'.
  destruct (habit_streak_counts _ habit_id today Hone' Hrange' Ht)
    as (s & b & Hrun & Hs & Hb & Hk & Hn).
  assert (Hflag : b = completed /\ (if completed then 1 <= s else s = 0)).
  { destruct (Z.eq_dec s 0) as [->|Hpos].
    - rewrite Z.sub_0_r, Hc in Hn. subst completed. split; [|reflexivity].
      destruct b; [|reflexivity]. destruct Hb as [Hb _].
      specialize (Hb eq_refl). lia.
    - specialize (Hk 0 ltac:(lia)). rewrite Z.sub_0_r, Hc in Hk.
      subst completed. split; [apply Hb|]; lia. }
  destruct Hflag as [-> Hsize].
  destruct (log_habit db habit_id today completed user_id) as [db' r] eqn:E.
  cbn [fst] in *.
  assert (Hlog : exists log, r = Some log /\ HabitLog.date log = today
                             /\ HabitLog.completed log = completed).
  { destruct (log_habit_cases db habit_id today completed user_id Hq)
      as [(existing & Hfirst & E')|(_ & E')];
      rewrite E' in E; injection E as <- <-; eexists;
      (split; [reflexivity|]); split; try reflexivity.
    apply first_some_in in Hfirst as [_ Hp].
    apply andb_prop in Hp as [_ Hd]. now apply Z.eqb_eq in Hd. }
  destruct Hlog as (log & -> & Hd & Hcl).
  exists db', log, s. repeat (split; [assumption || reflexivity|]).
  exact Hsize.
Qed.

(** Ann takes back today's log of her first habit. *)
Lemma log_habit_today_shows_in_streak_witness :
  one_log_per_day Scenario.streak_db
  /\ log_dates_in_range Scenario.streak_db
  /\ 2 <= Scenario.today <= _MAXORDINAL
  /\ query_habit Scenario.streak_db 1 1 <> None
  /\ (exists db' log s,
      log_habit Scenario.streak_db 1 Scenario.today false 1 = (db', Some log)
      /\ HabitLog.date log = Scenario.today
      /\ HabitLog.completed log = false
      /\ _calculate_streak (query_completed_logs db' 1) Scenario.today
         = Ok (s, false)
      /\ (if false then 1 <= s else s = 0)).
Proof.
  assert (H1 : one_log_per_day Scenario.streak_db)
    by (apply one_log_per_day_of_nodup; distinct_keys).
  assert (H2 : log_dates_in_range Scenario.streak_db)
    by (intros l Hin; each_row Hin; compare_ints).
  assert (H3 : 2 <= Scenario.today <= _MAXORDINAL)
    by (compare_ints).
  assert (H4 : query_habit Scenario.streak_db 1 1 <> None)
    by (vm_compute; discriminate).
  exact
    (conj H1 (conj H2 (conj H3 (conj H4 (log_habit_today_shows_in_streak Scenario.streak_db 1 Scenario.today false 1 H1 H2 H3 H4))))).
Defined.

(* ===================================================================== *)
(** ** Logging one habit leaves the others alone *)
(* ===================================================================== *)

Lemma existsb_map_same {A : Type} (p : A -> bool) (g : A -> A)
  (rows : list A) :
  (forall r, In r rows -> p (g r) = p r) ->
  existsb p (map g rows) = existsb p rows.
Proof.
  induction rows as [|r rows IH]; intros H; [reflexivity|]. simpl.
  rewrite (H r (or_introl eq_refl)), IH; [reflexivity|].
  intros x Hx. apply H. now right.
Qed.

(** X14: with unique log ids, [log_habit] for one habit and day changes
    nothing else: the completed logs of every other habit, and so its
    streak, are what they were, the habit itself is completed on every
    other day exactly when it was before, and the user, task, habit and
    report tables are untouched. *)
Theorem log_habit_leaves_the_rest (db : Session) (habit_id : Z)
  (log_date : date) (completed : bool) (user_id : Z) :
  NoDup (map HabitLog.id (habit_logs db)) ->
  (forall other,
     other <> habit_id ->
     query_completed_logs
       (fst (log_habit db habit_id log_date completed user_id)) other
     = query_completed_logs db other)
  /\ (forall d,
        d <> log_date ->
        completed_on (fst (log_habit db habit_id log_date completed user_id))
          habit_id d
        = completed_on db habit_id d)
  /\ users (fst (log_habit db habit_id log_date completed user_id))
     = users db
  /\ tasks (fst (log_habit db habit_id log_date completed user_id))
     = tasks db
  /\ habits (fst (log_habit db habit_id log_date completed user_id))
     = habits db
  /\ weekly_reports (fst (log_habit db habit_id log_date completed user_id))
     = weekly_reports db.
Proof.
  intros Hnd. unfold log_habit.
  destruct (query_habit db habit_id user_id) as [habit|];
    [|cbn [fst]; repeat split; reflexivity].
  destruct (first _ (habit_logs db)) as [existing|] eqn:E; cbn [fst].
  - apply first_some_in in E as [Hin Hp]. apply andb_prop in Hp as [Hh Hd].
    apply Z.eqb_eq in Hh, Hd.
    split; [|split; [|repeat split; reflexivity]].
    + intros other Hne. unfold query_completed_logs.
      cbn [habit_logs with_habit_logs]. f_equal.
      apply update_row_other. intros r Hr Hid.
      assert (r = existing) by (eapply nodup_key_inj; eauto). subst r.
      cbn [HabitLog.habit_id HabitLog.set_completed]. rewrite Hh.
      destruct (Z.eqb_spec habit_id other); [congruence | now split].
    + intros d Hne. unfold completed_on.
      cbn [habit_logs with_habit_logs]. unfold update_row.
      apply existsb_map_same. intros r Hr.
      destruct (Z.eqb_spec (HabitLog.id r) (HabitLog.id existing)) as [Hid|];
        [|reflexivity].
      assert (r = existing) by (eapply nodup_key_inj; eauto). subst r.
      cbn [HabitLog.habit_id HabitLog.date HabitLog.completed
             HabitLog.set_completed].
      rewrite Hd. destruct (Z.eqb_spec log_date d); [congruence|].
      now rewrite !andb_false_r.
  - split; [|split; [|repeat split; reflexivity]].
    + intros other Hne. unfold query_completed_logs.
      cbn [habit_logs with_habit_logs]. rewrite filter_app. simpl.
      destruct (Z.eqb_spec habit_id other); [congruence|].
      simpl. now rewrite app_nil_r.
    + intros d Hne. unfold completed_on.
      cbn [habit_logs with_habit_logs]. rewrite existsb_app. simpl.
      destruct (Z.eqb_spec log_date d); [congruence|].
      now rewrite !andb_false_r, !orb_false_r.
Qed.

(** Ann logs her first habit; the other two keep their logs. *)
Lemma log_habit_leaves_the_rest_witness :
  NoDup (map HabitLog.id (habit_logs Scenario.streak_db))
  /\ ((forall other,
         other <> 1 ->
         query_completed_logs
           (fst (log_habit Scenario.streak_db 1 Scenario.today false 1)) other
         = query_completed_logs Scenario.streak_db other)
      /\ (forall d,
            d <> Scenario.today ->
            completed_on (fst (log_habit Scenario.streak_db 1 Scenario.today false 1))
              1 d
            = completed_on Scenario.streak_db 1 d)
      /\ users (fst (log_habit Scenario.streak_db 1 Scenario.today false 1))
         = users Scenario.streak_db
      /\ tasks (fst (log_habit Scenario.streak_db 1 Scenario.today false 1))
         = tasks Scenario.streak_db
      /\ habits (fst (log_habit Scenario.streak_db 1 Scenario.today false 1))
         = habits Scenario.streak_db
      /\ weekly_reports (fst (log_habit Scenario.streak_db 1 Scenario.today false 1))
         = weekly_reports Scenario.streak_db).
Proof.
  assert (H1 : NoDup (map HabitLog.id (habit_logs Scenario.streak_db)))
    by (distinct_keys).
  exact
    (conj H1 (log_habit_leaves_the_rest Scenario.streak_db 1 Scenario.today false 1 H1)).
Defined.

(* ===================================================================== *)
(** ** The habit listing and the dashboard *)
(* ===================================================================== *)

Lemma dashboard_streaks_spec db today hs :
  forall n cs n' cs',
    dashboard_streaks db today hs n cs = Ok (n', cs') ->
    Forall (fun h => raises (_calculate_streak
                               (query_completed_logs db (Habit.id h)) today)
                     = false) hs
    /\ cs' = cs ++ map (streak_entry db today) hs
    /\ n' = n + count_if CurrentStreak.logged_today
                  (map (streak_entry db today) hs).
Proof.
  induction hs as [|h hs IH]; intros n cs n' cs' H; simpl in H.
  - injection H as <- <-. split; [constructor|].
    split; [now rewrite app_nil_r | unfold count_if, len; simpl; lia].
  - apply bind_ok in H as ([s b] & Hs & H). cbv beta iota in H.
    apply IH in H as (Hall & -> & ->).
    assert (Hst : streak_today db today h = (s, b))
      by (unfold streak_today; now rewrite Hs).
    split; [constructor; [now rewrite Hs | assumption]|].
    split.
    + rewrite <- app_assoc. simpl. unfold streak_entry at 2.
      now rewrite Hst.
    + unfold count_if, len. simpl. unfold streak_entry at 2.
      rewrite Hst. cbn [fst snd CurrentStreak.logged_today].
      destruct b; simpl; lia.
Qed.

Lemma get_habits_loop_spec db today hs :
  Forall (fun h => raises (_calculate_streak
                             (query_completed_logs db (Habit.id h)) today)
                   = false) hs ->
  forall results,
    get_habits_loop db today hs results
    = Ok (results ++ map (habit_item db today) hs).
Proof.
  induction 1 as [|h hs Hh _ IH]; intros results; simpl.
  - now rewrite app_nil_r.
  - unfold habit_item at 1, streak_today.
    destruct (_calculate_streak _ today) as [[s b]|e]; [|discriminate].
    simpl. rewrite IH. now rewrite <- app_assoc.
Qed.

Lemma count_if_perm {A : Type} (p : A -> bool) (l l' : list A) :
  Permutation l l' -> count_if p l = count_if p l'.
Proof.
  intros H. unfold count_if, len. f_equal.
  apply Permutation_length. now apply filter_perm.
Qed.

Lemma count_if_bounds {A : Type} (p : A -> bool) (l : list A) :
  0 <= count_if p l <= len l.
Proof.
  unfold count_if, len.
  pose proof (filter_length_le p (fun _ => true) l (fun _ _ => eq_refl)) as H.
  replace (filter (fun _ => true) l) with l in H; [lia|].
  clear. induction l; simpl; congruence.
Qed.

Lemma get_dashboard_inv db user_id today d :
  get_dashboard db user_id today = Ok d ->
  exists n cs,
    dashboard_streaks db today (query_habits db user_id) 0 [] = Ok (n, cs)
    /\ Dashboard.total_tasks d = len (query_tasks db user_id)
    /\ Dashboard.completed_tasks d = completed_tasks_of db user_id
    /\ Dashboard.pending_tasks d
       = len (query_tasks db user_id) - completed_tasks_of db user_id
    /\ Dashboard.total_habits d = len (query_habits db user_id)
    /\ Dashboard.habits_logged_today d = n
    /\ Dashboard.current_streaks d = cs.
Proof.
  unfold get_dashboard. intros H.
  apply bind_ok in H as (week_start & _ & H).
  apply bind_ok in H as (task_pct & _ & H).
  apply bind_ok in H as ([n cs] & Hloop & H). cbv beta iota in H.
  apply bind_ok in H as (habit_pct & _ & H).
  apply bind_ok in H as (score & _ & H).
  injection H as <-. exists n, cs. simpl. repeat split; auto.
Qed.

(** X15: the counters of a dashboard fit together: completed and pending
    tasks add up to the total, there is one [current_streaks] entry per
    active habit, in the order of the habit table and under the habit's
    name, and [habits_logged_today] is the number of entries flagged as
    logged today, so it never exceeds [total_habits]. *)
Theorem get_dashboard_counters (db : Session) (user_id : Z) (today : date)
  (d : Dashboard.t) :
  get_dashboard db user_id today = Ok d ->
  Dashboard.total_tasks d = len (query_tasks db user_id)
  /\ Dashboard.completed_tasks d + Dashboard.pending_tasks d
     = Dashboard.total_tasks d
  /\ 0 <= Dashboard.completed_tasks d <= Dashboard.total_tasks d
  /\ Dashboard.total_habits d = len (query_habits db user_id)
  /\ map CurrentStreak.name (Dashboard.current_streaks d)
     = map Habit.name (query_habits db user_id)
  /\ Dashboard.habits_logged_today d
     = count_if CurrentStreak.logged_today (Dashboard.current_streaks d)
  /\ 0 <= Dashboard.habits_logged_today d <= Dashboard.total_habits d.
Proof.
  intros H.
  apply get_dashboard_inv in H
    as (n & cs & Hloop & Htt & Hct & Hpt & Hth & Hlt & Hcs).
  apply dashboard_streaks_spec in Hloop as (_ & Hcs' & Hn).
  simpl in Hcs', Hn. subst n cs.
  rewrite Htt, Hct, Hpt, Hth, Hlt, Hcs.
  pose proof (count_if_bounds
                (fun t => String.eqb (Task.status t) "completed")
                (query_tasks db user_id)) as Hb.
  pose proof (count_if_bounds CurrentStreak.logged_today
                (map (streak_entry db today) (query_habits db user_id)))
    as Hb'.
  replace (len (map (streak_entry db today) (query_habits db user_id)))
    with (len (query_habits db user_id)) in Hb'
    by (unfold len; now rewrite length_map).
  unfold completed_tasks_of.
  split; [reflexivity|]. split; [lia|]. split; [exact Hb|].
  split; [reflexivity|]. split; [|split; [reflexivity | exact Hb']].
  rewrite map_map. reflexivity.
Qed.

(** Ann's dashboard with three habits. *)
Lemma get_dashboard_counters_witness :
  get_dashboard Scenario.streak_db 1 Scenario.today = Ok Sample.dashboard
  /\ (Dashboard.total_tasks Sample.dashboard = len (query_tasks Scenario.streak_db 1)
      /\ Dashboard.completed_tasks Sample.dashboard + Dashboard.pending_tasks Sample.dashboard
         = Dashboard.total_tasks Sample.dashboard
      /\ 0 <= Dashboard.completed_tasks Sample.dashboard <= Dashboard.total_tasks Sample.dashboard
      /\ Dashboard.total_habits Sample.dashboard = len (query_habits Scenario.streak_db 1)
      /\ map CurrentStreak.name (Dashboard.current_streaks Sample.dashboard)
         = map Habit.name (query_habits Scenario.streak_db 1)
      /\ Dashboard.habits_logged_today Sample.dashboard
         = count_if CurrentStreak.logged_today (Dashboard.current_streaks Sample.dashboard)
      /\ 0 <= Dashboard.habits_logged_today Sample.dashboard <= Dashboard.total_habits Sample.dashboard).
Proof.
  assert (H1 : get_dashboard Scenario.streak_db 1 Scenario.today = Ok Sample.dashboard)
    by (vm_compute; reflexivity).
  exact
    (conj H1 (get_dashboard_counters Scenario.streak_db 1 Scenario.today Sample.dashboard H1)).
Defined.

(** X16: the habit listing and the dashboard tell the same story.  When the
    dashboard of a user can be computed, the first page of [get_habits]
    with a limit that holds all the habits returns too, and it shows the
    same (name, streak, logged today) triples as [current_streaks], in
    newest-first instead of table order; [total] is [total_habits] and
    the number of items logged today is [habits_logged_today]. *)
Theorem get_habits_agrees_with_dashboard (db : Session) (user_id limit : Z)
  (today : date) (d : Dashboard.t) :
  get_dashboard db user_id today = Ok d ->
  1 <= limit ->
  len (query_habits db user_id) <= limit ->
  exists p,
    get_habits db user_id 1 limit today = Ok p
    /\ Page.total p = Dashboard.total_habits d
    /\ Permutation (map item_view (Page.items p))
         (map entry_view (Dashboard.current_streaks d))
    /\ count_if HabitResponse.is_logged_today (Page.items p)
       = Dashboard.habits_logged_today d
    /\ Page.has_next p = false.
Proof.
  intros H Hl Hfit.
  apply get_dashboard_inv in H
    as (n & cs & Hloop & _ & _ & _ & Hth & Hlt & Hcs).
  apply dashboard_streaks_spec in Hloop as (Hall & Hcs' & Hn).
  simpl in Hcs', Hn. subst n cs.
  set (hs := query_habits db user_id) in *.
  pose proof (order_by_desc_perm Habit.created_at hs) as Hperm.
  unfold get_habits. fold hs.
  replace ((1 - 1) * limit) with 0 by lia.
  unfold sql_offset, sql_limit. cbn [Z.to_nat skipn].
  replace (limit <? 0) with false by (symmetry; apply Z.ltb_ge; lia).
  rewrite firstn_all2
    by (rewrite (Permutation_length Hperm); unfold len in Hfit; lia).
  rewrite get_habits_loop_spec.
  2:{ rewrite Forall_forall in *. intros h Hh. apply Hall.
      now apply (Permutation_in _ Hperm). }
  cbn [bind app]. rewrite paginated_ok by lia.
  eexists. split; [reflexivity|].
  cbn [Page.total Page.items Page.has_next].
  rewrite Hth, Hlt, Hcs. split; [reflexivity|]. split; [|split].
  - rewrite !map_map.
    apply (Permutation_map (fun h => item_view (habit_item db today h)))
      in Hperm.
    exact Hperm.
  - rewrite (count_if_perm _ _ _
               (Permutation_map (habit_item db today) Hperm)).
    unfold count_if, len. f_equal.
    clear. induction hs as [|h hs IH]; [reflexivity|]. simpl.
    destruct (snd (streak_today db today h)); simpl; now rewrite IH.
  - apply Z.ltb_ge. lia.
Qed.

(** Ann's three habits on one page of twenty. *)
Lemma get_habits_agrees_with_dashboard_witness :
  get_dashboard Scenario.streak_db 1 Scenario.today = Ok Sample.dashboard
  /\ 1 <= 20
  /\ len (query_habits Scenario.streak_db 1) <= 20
  /\ (exists p,
      get_habits Scenario.streak_db 1 1 20 Scenario.today = Ok p
      /\ Page.total p = Dashboard.total_habits Sample.dashboard
      /\ Permutation (map item_view (Page.items p))
           (map entry_view (Dashboard.current_streaks Sample.dashboard))
      /\ count_if HabitResponse.is_logged_today (Page.items p)
         = Dashboard.habits_logged_today Sample.dashboard
      /\ Page.has_next p = false).
Proof.
  assert (H1 : get_dashboard Scenario.streak_db 1 Scenario.today = Ok Sample.dashboard)
    by (vm_compute; reflexivity).
  assert (H2 : 1 <= 20)
    by (lia).
  assert (H3 : len (query_habits Scenario.streak_db 1) <= 20)
    by (compare_ints).
  exact
    (conj H1 (conj H2 (conj H3 (get_habits_agrees_with_dashboard Scenario.streak_db 1 20 Scenario.today Sample.dashboard H1 H2 H3)))).
Defined.

(* ===================================================================== *)
(** ** Creating and deleting habits *)
(* ===================================================================== *)

Lemma first_none_all {A : Type} (p : A -> bool) (rows : list A) :
  (forall x, In x rows -> p x = false) -> first p rows = None.
Proof.
  intros H. unfold first. induction rows as [|r rows IH]; [reflexivity|].
  simpl. rewrite (H r (or_introl eq_refl)).
  apply IH. intros x Hx. apply H. now right.
Qed.

Lemma query_habit_some db habit_id user_id habit :
  query_habit db habit_id user_id = Some habit ->
  In habit (habits db) /\ Habit.id habit = habit_id
  /\ Habit.user_id habit = user_id /\ Habit.is_deleted habit = false.
Proof.
  intros H. apply first_some_in in H as [Hin Hp].
  apply andb_prop in Hp as [Hp Hd]. apply andb_prop in Hp as [Hi Hu].
  apply Z.eqb_eq in Hi, Hu. apply negb_true_iff in Hd. auto.
Qed.

Lemma query_habit_none db habit_id user_id :
  (forall h, In h (habits db) -> Habit.id h = habit_id ->
             Habit.user_id h = user_id -> Habit.is_deleted h = true) ->
  query_habit db habit_id user_id = None.
Proof.
  intros H. unfold query_habit, first.
  destruct (find _ (habits db)) as [h|] eqn:E; [|reflexivity].
  apply query_habit_some in E as (Hin & Hi & Hu & Hd).
  rewrite (H h Hin Hi Hu) in Hd. discriminate.
Qed.

(** X17: [delete_habit] is a soft delete.  Deleting an active habit of the
    user returns [True], keeps the habit row, now flagged, and every log;
    the habit leaves the user's habits, and [log_habit], [edit_habit]
    and a second [delete_habit] on that id are refused without changing
    anything. *)
Theorem delete_habit_is_soft (db : Session) (habit_id user_id : Z)
  (habit : Habit.t) (log_date : date) (completed : bool)
  (new_name : string) :
  query_habit db habit_id user_id = Some habit ->
  exists db',
    delete_habit db habit_id user_id = (db', true)
    /\ In (habit_set_is_deleted habit true) (habits db')
    /\ map Habit.id (habits db') = map Habit.id (habits db)
    /\ habit_logs db' = habit_logs db
    /\ In habit (query_habits db user_id)
    /\ query_habits db' user_id
       = filter (fun h => negb (Habit.id h =? habit_id))
           (query_habits db user_id)
    /\ log_habit db' habit_id log_date completed user_id = (db', None)
    /\ edit_habit db' habit_id user_id new_name = (db', None)
    /\ delete_habit db' habit_id user_id = (db', false).
Proof.
  intros Hq. unfold delete_habit at 1. rewrite Hq.
  eexists. split; [reflexivity|].
  apply query_habit_some in Hq as (Hin & Hi & Hu & Hd).
  set (db' := with_habits db _).
  assert (Hnone : query_habit db' habit_id user_id = None).
  { apply query_habit_none. unfold db'. cbn [habits with_habits].
    intros h Hh Hhi Hhu. unfold update_row in Hh.
    apply in_map_iff in Hh as (r & Hr & Hrin).
    destruct (Z.eqb_spec (Habit.id r) (Habit.id habit)) as [E|E].
    - now subst h.
    - subst h. lia. }
  split; [|split; [|split; [reflexivity|split; [|split]]]].
  - unfold db'. cbn [habits with_habits]. unfold update_row.
    apply in_map_iff. exists habit. now rewrite Z.eqb_refl.
  - unfold db'. cbn [habits with_habits]. now apply update_row_keys.
  - unfold query_habits. apply filter_In. split; [assumption|].
    now rewrite Hu, Z.eqb_refl, Hd.
  - unfold db', query_habits. cbn [habits with_habits]. unfold update_row.
    rewrite Hi. clear.
    induction (habits db) as [|r rows IH]; [reflexivity|]. simpl.
    destruct (Z.eqb_spec (Habit.id r) habit_id) as [E|E].
    + cbn [Habit.user_id Habit.is_deleted habit_set_is_deleted].
      rewrite andb_false_r.
      destruct ((Habit.user_id r =? user_id) && negb (Habit.is_deleted r));
        simpl; [|exact IH].
      destruct (Z.eqb_spec (Habit.id r) habit_id); [exact IH | contradiction].
    + destruct ((Habit.user_id r =? user_id) && negb (Habit.is_deleted r));
        simpl; [|exact IH].
      destruct (Z.eqb_spec (Habit.id r) habit_id); [contradiction|].
      simpl. now rewrite IH.
  - unfold log_habit, edit_habit, delete_habit. now rewrite Hnone.
Qed.

(** Ann deletes her only habit. *)
Lemma delete_habit_is_soft_witness :
  query_habit Scenario.fresh_db 1 1 = Some Sample.run
  /\ (exists db',
      delete_habit Scenario.fresh_db 1 1 = (db', true)
      /\ In (habit_set_is_deleted Sample.run true) (habits db')
      /\ map Habit.id (habits db') = map Habit.id (habits Scenario.fresh_db)
      /\ habit_logs db' = habit_logs Scenario.fresh_db
      /\ In Sample.run (query_habits Scenario.fresh_db 1)
      /\ query_habits db' 1
         = filter (fun h => negb (Habit.id h =? 1))
             (query_habits Scenario.fresh_db 1)
      /\ log_habit db' 1 Scenario.today true 1 = (db', None)
      /\ edit_habit db' 1 1 "Jog" = (db', None)
      /\ delete_habit db' 1 1 = (db', false)).
Proof.
  assert (H1 : query_habit Scenario.fresh_db 1 1 = Some Sample.run)
    by (reflexivity).
  exact
    (conj H1 (delete_habit_is_soft Scenario.fresh_db 1 1 Sample.run Scenario.today true "Jog" H1)).
Defined.

(** X18: a habit can be logged as soon as it is created.  On a table whose
    logs all belong to existing habits, [create_habit] answers with a
    streak of 0 under a fresh id; logging the new habit for today then
    succeeds, and the streak computed for it is 1, logged today. *)
Theorem create_habit_then_log (db : Session) (name target_type : string)
  (user_id : Z) (now : datetime) (today : date) :
  logs_reference_habits db ->
  2 <= today <= _MAXORDINAL ->
  exists db1 item db2 log,
    create_habit db name target_type user_id now = (db1, item)
    /\ HabitResponse.current_streak item = 0
    /\ HabitResponse.is_logged_today item = false
    /\ ~ In (HabitResponse.id item) (map Habit.id (habits db))
    /\ query_habits db1 user_id
       = query_habits db user_id
         ++ [Habit.mk (HabitResponse.id item) name target_type false now
               user_id]
    /\ log_habit db1 (HabitResponse.id item) today true user_id
       = (db2, Some log)
    /\ logs_reference_habits db2
    /\ _calculate_streak (query_completed_logs db2 (HabitResponse.id item))
         today
       = Ok (1, true).
Proof.
  intros Hfk Ht. unfold create_habit.
  set (k := next_id (map Habit.id (habits db))).
  assert (Hfresh : ~ In k (map Habit.id (habits db))) by apply next_id_fresh.
  set (habit := Habit.mk k name target_type false now user_id).
  set (db1 := with_habits db (habits db ++ [habit])).
  assert (Hq : query_habit db1 k user_id = Some habit).
  { unfold query_habit, db1. cbn [habits with_habits]. rewrite first_app.
    destruct (first _ (habits db)) as [h|] eqn:E.
    - apply first_some_in in E as [Hin Hp].
      apply andb_prop in Hp as [Hp _]. apply andb_prop in Hp as [Hp _].
      apply Z.eqb_eq in Hp. exfalso. apply Hfresh. rewrite <- Hp.
      now apply in_map.
    - simpl. now rewrite !Z.eqb_refl. }
  assert (Hnolog : forall l, In l (habit_logs db) ->
                             HabitLog.habit_id l <> k).
  { intros l Hl E. apply Hfresh. rewrite <- E. now apply Hfk. }
  assert (Hfirst : first (fun l => (HabitLog.habit_id l =? k)
                                   && (HabitLog.date l =? today))
                     (habit_logs db1) = None).
  { apply first_none_all. intros l Hl.
    destruct (Z.eqb_spec (HabitLog.habit_id l) k) as [E|]; [|reflexivity].
    exfalso. now apply (Hnolog l Hl). }
  set (new_log := HabitLog.mk (next_id (map HabitLog.id (habit_logs db1)))
                    k today true).
  exists db1, (HabitResponse.mk k name target_type user_id 0 false),
    (with_habit_logs db1 (habit_logs db1 ++ [new_log])), new_log.
  cbn [HabitResponse.current_streak HabitResponse.is_logged_today
         HabitResponse.id].
  split; [reflexivity|]. split; [reflexivity|]. split; [reflexivity|].
  split; [exact Hfresh|]. split; [|split; [|split]].
  - unfold query_habits, db1. cbn [habits with_habits].
    rewrite filter_app. simpl. now rewrite Z.eqb_refl.
  - unfold log_habit. rewrite Hq, Hfirst. reflexivity.
  - intros l Hl. cbn [habit_logs habits with_habit_logs with_habits db1] in *.
    rewrite map_app, in_app_iff. apply in_app_iff in Hl as [Hl|[<-|[]]].
    + left. now apply Hfk.
    + right. now left.
  - unfold query_completed_logs.
    cbn [habit_logs with_habit_logs with_habits db1].
    rewrite filter_app.
    replace (filter _ (habit_logs db)) with (@nil HabitLog.t).
    + simpl. rewrite Z.eqb_refl. simpl.
      unfold _calculate_streak. simpl. rewrite Z.eqb_refl.
      unfold date_sub.
      replace ((0 <? today - 1) && (today - 1 <=? _MAXORDINAL)) with true;
        [reflexivity|].
      symmetry. apply andb_true_intro. split; [apply Z.ltb_lt | apply Z.leb_le];
        unfold _MAXORDINAL in *; lia.
    + symmetry. apply first_none_filter. apply first_none_all.
      intros l Hl.
      destruct (Z.eqb_spec (HabitLog.habit_id l) k) as [E|]; [|reflexivity].
      exfalso. now apply (Hnolog l Hl).
Qed.

(** Ann starts a fourth habit and logs it. *)
Lemma create_habit_then_log_witness :
  logs_reference_habits Scenario.streak_db
  /\ 2 <= Scenario.today <= _MAXORDINAL
  /\ (exists db1 item db2 log,
      create_habit Scenario.streak_db "Swim" "daily" 1 1718180000 = (db1, item)
      /\ HabitResponse.current_streak item = 0
      /\ HabitResponse.is_logged_today item = false
      /\ ~ In (HabitResponse.id item) (map Habit.id (habits Scenario.streak_db))
      /\ query_habits db1 1
         = query_habits Scenario.streak_db 1
           ++ [Habit.mk (HabitResponse.id item) "Swim" "daily" false 1718180000
                 1]
      /\ log_habit db1 (HabitResponse.id item) Scenario.today true 1
         = (db2, Some log)
      /\ logs_reference_habits db2
      /\ _calculate_streak (query_completed_logs db2 (HabitResponse.id item))
           Scenario.today
         = Ok (1, true)).
Proof.
  assert (H1 : logs_reference_habits Scenario.streak_db)
    by (intros l Hin; each_row Hin; vm_compute; auto 10).
  assert (H2 : 2 <= Scenario.today <= _MAXORDINAL)
    by (compare_ints).
  exact
    (conj H1 (conj H2 (create_habit_then_log Scenario.streak_db "Swim" "daily" 1 1718180000 Scenario.today H1 H2))).
Defined.

(* ===================================================================== *)
(** ** The latest report *)
(* ===================================================================== *)

Lemma order_by_desc_head {A : Type} (key : A -> Z) (l : list A) x rest :
  order_by_desc key l = x :: rest ->
  In x l /\ forall y, In y l -> key y <= key x.
Proof.
  intros H.
  pose proof (order_by_desc_perm key l) as Hperm.
  pose proof (order_by_desc_sorted key l) as Hs.
  rewrite H in Hperm, Hs.
  split; [apply (Permutation_in _ Hperm); now left|].
  apply Sorted_StronglySorted in Hs; [|intros a b c; lia].
  apply StronglySorted_inv in Hs as [_ Hall].
  rewrite Forall_forall in Hall.
  intros y Hy. apply (Permutation_in _ (Permutation_sym Hperm)) in Hy.
  destruct Hy as [<-|Hy]; [lia | now apply Hall].
Qed.

Lemma insert_desc_map {A : Type} (key : A -> Z) (g : A -> A) x l :
  (forall r, key (g r) = key r) ->
  insert_desc key (g x) (map g l) = map g (insert_desc key x l).
Proof.
  intros Hk. induction l as [|y l IH]; simpl; [reflexivity|].
  rewrite !Hk. destruct (key y <=? key x); simpl; [reflexivity|].
  now rewrite IH.
Qed.

Lemma order_by_desc_map {A : Type} (key : A -> Z) (g : A -> A) l :
  (forall r, key (g r) = key r) ->
  order_by_desc key (map g l) = map g (order_by_desc key l).
Proof.
  intros Hk. induction l as [|x l IH]; simpl; [reflexivity|].
  rewrite IH. now apply insert_desc_map.
Qed.

Lemma first_true {A : Type} (l : list A) :
  first (fun _ => true) l = match l with [] => None | x :: _ => Some x end.
Proof. now destruct l. Qed.

Lemma get_latest_report_some db user_id r :
  get_latest_report db user_id = Some r ->
  In r (weekly_reports db) /\ WeeklyReport.user_id r = user_id
  /\ forall r', In r' (weekly_reports db) ->
                WeeklyReport.user_id r' = user_id ->
                WeeklyReport.created_at r' <= WeeklyReport.created_at r.
Proof.
  unfold get_latest_report. rewrite first_true.
  destruct (order_by_desc _ _) as [|x rest] eqn:E; [discriminate|].
  intros [= ->]. apply order_by_desc_head in E as [Hin Hmax].
  apply filter_In in Hin as [Hin Hu]. apply Z.eqb_eq in Hu.
  split; [assumption|]. split; [assumption|].
  intros r' Hr' Hu'. apply Hmax. apply filter_In. split; [assumption|].
  now apply Z.eqb_eq.
Qed.

Lemma get_latest_report_none db user_id :
  get_latest_report db user_id = None ->
  forall r, In r (weekly_reports db) -> WeeklyReport.user_id r <> user_id.
Proof.
  unfold get_latest_report. rewrite first_true.
  destruct (order_by_desc _ _) as [|x rest] eqn:E; [|discriminate].
  intros _ r Hr Hu.
  assert (Hin : In r (filter (fun r => WeeklyReport.user_id r =? user_id)
                        (weekly_reports db)))
    by (apply filter_In; split; [assumption | now apply Z.eqb_eq]).
  apply (Permutation_in _ (Permutation_sym (order_by_desc_perm
                                              WeeklyReport.created_at _)))
    in Hin.
  now rewrite E in Hin.
Qed.

(** X19: the latest-report route answers with a report of the current user
    that no other report of that user is newer than, and with a 404 exactly
    when the user has no report at all; reports of other users are never
    shown. *)
Theorem latest_report_route_is_newest (db : Session) (current_user : User.t) :
  match get_latest_report_route db current_user with
  | Respond r =>
      In r (weekly_reports db)
      /\ WeeklyReport.user_id r = User.id current_user
      /\ forall r', In r' (weekly_reports db) ->
                    WeeklyReport.user_id r' = User.id current_user ->
                    WeeklyReport.created_at r' <= WeeklyReport.created_at r
  | HTTPException status_code _ =>
      status_code = 404
      /\ forall r, In r (weekly_reports db) ->
                   WeeklyReport.user_id r <> User.id current_user
  | Uncaught _ => False
  end.
Proof.
  unfold get_latest_report_route.
  destruct (get_latest_report db (User.id current_user)) as [r|] eqn:E.
  - now apply get_latest_report_some.
  - split; [reflexivity | now apply get_latest_report_none].
Qed.

Lemma generate_weekly_report_saved db user today now db' r :
  generate_weekly_report db user today now = Ok (db', r) ->
  exists d,
    report_draft db user today = Ok d
    /\ db' = save_report db (User.id user) d now
    /\ Report.report r = draft_text d /\ Report.score r = draft_score d
    /\ draft_week_start d = today - 7 /\ draft_week_end d = today - 1.
Proof.
  rewrite generate_weekly_report_eq. intros H.
  apply bind_ok in H as (d & Hd & H). injection H as <- <-.
  exists d. destruct (report_draft_window _ _ _ _ Hd). repeat split; auto.
Qed.

(** X20: the first report generated for a week is what the latest-report
    query returns next, when the clock is past the creation time of the
    user's earlier reports: the stored row carries the generated text and
    score, the week [today - 7 .. today - 1] and the time of the call. *)
Theorem generated_report_is_latest (db db' : Session) (user : User.t)
  (today : date) (now : datetime) (r : Report.t) :
  generate_weekly_report db user today now = Ok (db', r) ->
  reports_for db (User.id user) (today - 7) = [] ->
  (forall row, In row (weekly_reports db) ->
               WeeklyReport.user_id row = User.id user ->
               WeeklyReport.created_at row < now) ->
  exists row,
    get_latest_report db' (User.id user) = Some row
    /\ WeeklyReport.report row = Report.report r
    /\ WeeklyReport.score row = Report.score r
    /\ WeeklyReport.week_start row = today - 7
    /\ WeeklyReport.week_end row = today - 1
    /\ WeeklyReport.week_end row = WeeklyReport.week_start row + 6
    /\ WeeklyReport.created_at row = now
    /\ ~ In (WeeklyReport.id row) (map WeeklyReport.id (weekly_reports db)).
Proof.
  intros Hgen Hnone Hclock.
  apply generate_weekly_report_saved in Hgen
    as (d & _ & -> & Ht & Hs & Hws & Hwe).
  unfold save_report. rewrite Hws.
  unfold reports_for in Hnone.
  rewrite (first_none_all _ (weekly_reports db)).
  2:{ intros x Hx.
      destruct ((WeeklyReport.user_id x =? User.id user)
                && (WeeklyReport.week_start x =? today - 7)) eqn:E;
        [|reflexivity].
      assert (Hin : In x (filter
                            (fun r => (WeeklyReport.user_id r =? User.id user)
                                      && (WeeklyReport.week_start r
                                          =? today - 7))
                            (weekly_reports db)))
        by (apply filter_In; now split).
      now rewrite Hnone in Hin. }
  set (row := WeeklyReport.mk _ _ _ _ _ _ _).
  exists row. unfold get_latest_report.
  cbn [weekly_reports with_weekly_reports].
  rewrite filter_app. simpl. rewrite Z.eqb_refl.
  rewrite order_by_desc_newest.
  - split; [reflexivity|]. cbn. rewrite Ht, Hs, Hwe.
    repeat split; try reflexivity; try lia. apply next_id_fresh.
  - intros y Hy. apply filter_In in Hy as [Hy Hu]. apply Z.eqb_eq in Hu.
    cbn [WeeklyReport.created_at row]. now apply Hclock.
Qed.

(** Ann's report of the following week. *)
Lemma generated_report_is_latest_witness :
  generate_weekly_report Scenario.week_db1 Scenario.ann Sample.next_week 1718784800 = Ok (Sample.next_week_db1, Sample.next_week_report)
  /\ reports_for Scenario.week_db1 (User.id Scenario.ann) (Sample.next_week - 7) = []
  /\ (forall row, In row (weekly_reports Scenario.week_db1) ->
      WeeklyReport.user_id row = User.id Scenario.ann ->
      WeeklyReport.created_at row < 1718784800)
  /\ (exists row,
      get_latest_report Sample.next_week_db1 (User.id Scenario.ann) = Some row
      /\ WeeklyReport.report row = Report.report Sample.next_week_report
      /\ WeeklyReport.score row = Report.score Sample.next_week_report
      /\ WeeklyReport.week_start row = Sample.next_week - 7
      /\ WeeklyReport.week_end row = Sample.next_week - 1
      /\ WeeklyReport.week_end row = WeeklyReport.week_start row + 6
      /\ WeeklyReport.created_at row = 1718784800
      /\ ~ In (WeeklyReport.id row) (map WeeklyReport.id (weekly_reports Scenario.week_db1))).
Proof.
  assert (H1 : generate_weekly_report Scenario.week_db1 Scenario.ann Sample.next_week 1718784800 = Ok (Sample.next_week_db1, Sample.next_week_report))
    by (vm_compute; reflexivity).
  assert (H2 : reports_for Scenario.week_db1 (User.id Scenario.ann) (Sample.next_week - 7) = [])
    by (vm_compute; reflexivity).
  assert (H3 : (forall row, In row (weekly_reports Scenario.week_db1) ->
      WeeklyReport.user_id row = User.id Scenario.ann ->
      WeeklyReport.created_at row < 1718784800))
    by (intros row Hin; each_row Hin; intros _; compare_ints).
  exact
    (conj H1 (conj H2 (conj H3 (generated_report_is_latest Scenario.week_db1 Sample.next_week_db1 Scenario.ann Sample.next_week 1718784800 Sample.next_week_report H1 H2 H3)))).
Defined.

(** X21: generating a week's report again rewrites the stored row in place:
    with one row per user and week, if the user's
    latest report is this week's, then after the second generation the
    latest report is that same row (same id, same creation time) with the
    new text and score, and the table has as many rows as before. *)
Theorem regenerated_report_stays_latest (db db' : Session) (user : User.t)
  (today : date) (now : datetime) (r : Report.t) (old : WeeklyReport.t) :
  generate_weekly_report db user today now = Ok (db', r) ->
  at_most_one (reports_for db (User.id user) (today - 7)) ->
  get_latest_report db (User.id user) = Some old ->
  WeeklyReport.week_start old = today - 7 ->
  get_latest_report db' (User.id user)
  = Some (WeeklyReport.set_report_score old (Report.report r)
            (Report.score r))
  /\ List.length (weekly_reports db') = List.length (weekly_reports db).
Proof.
  intros Hgen Hone Hlatest Hweek.
  apply generate_weekly_report_saved in Hgen
    as (d & _ & -> & Ht & Hs & Hws & Hwe).
  rewrite Ht, Hs.
  pose proof (get_latest_report_some _ _ _ Hlatest) as (Hin & Hu & _).
  assert (Hrf : reports_for db (User.id user) (today - 7) = [old]).
  { unfold at_most_one in Hone.
    assert (Hino : In old (reports_for db (User.id user) (today - 7)))
      by (apply filter_In; split;
          [assumption | now rewrite Hu, Hweek, !Z.eqb_refl]).
    destruct (reports_for db (User.id user) (today - 7)) as [|a [|b l]];
      simpl in *; [contradiction | | lia].
    destruct Hino as [->|[]]. reflexivity. }
  unfold save_report. rewrite Hws.
  rewrite (first_of_filter _ _ old [] Hrf).
  cbn [weekly_reports with_weekly_reports].
  split; [|apply update_row_length].
  unfold get_latest_report in *. cbn [weekly_reports with_weekly_reports].
  rewrite filter_update_row by reflexivity.
  unfold update_row at 1.
  rewrite order_by_desc_map
    by (intros x; now destruct (WeeklyReport.id x =? WeeklyReport.id old)).
  rewrite first_true in *.
  destruct (order_by_desc _ _) as [|x rest]; [discriminate|].
  injection Hlatest as ->. simpl. now rewrite Z.eqb_refl.
Qed.

(** Ann's report of the week, generated a second time. *)
Lemma regenerated_report_stays_latest_witness :
  generate_weekly_report Scenario.week_db1 Scenario.ann Scenario.today 1718190000 = Ok (Sample.week_db2, Sample.week_report2)
  /\ at_most_one (reports_for Scenario.week_db1 (User.id Scenario.ann) (Scenario.today - 7))
  /\ get_latest_report Scenario.week_db1 (User.id Scenario.ann) = Some Sample.week_row
  /\ WeeklyReport.week_start Sample.week_row = Scenario.today - 7
  /\ (get_latest_report Sample.week_db2 (User.id Scenario.ann)
      = Some (WeeklyReport.set_report_score Sample.week_row (Report.report Sample.week_report2)
                (Report.score Sample.week_report2))
      /\ List.length (weekly_reports Sample.week_db2) = List.length (weekly_reports Scenario.week_db1)).
Proof.
  assert (H1 : generate_weekly_report Scenario.week_db1 Scenario.ann Scenario.today 1718190000 = Ok (Sample.week_db2, Sample.week_report2))
    by (vm_compute; reflexivity).
  assert (H2 : at_most_one (reports_for Scenario.week_db1 (User.id Scenario.ann) (Scenario.today - 7)))
    by (unfold at_most_one; vm_compute; lia).
  assert (H3 : get_latest_report Scenario.week_db1 (User.id Scenario.ann) = Some Sample.week_row)
    by (vm_compute; reflexivity).
  assert (H4 : WeeklyReport.week_start Sample.week_row = Scenario.today - 7)
    by (vm_compute; reflexivity).
  exact
    (conj H1 (conj H2 (conj H3 (conj H4 (regenerated_report_stays_latest Scenario.week_db1 Sample.week_db2 Scenario.ann Scenario.today 1718190000 Sample.week_report2 Sample.week_row H1 H2 H3 H4))))).
Defined.

(* ===================================================================== *)
(** ** Registration *)
(* ===================================================================== *)

Lemma existsb_first {A : Type} (p : A -> bool) (rows : list A) :
  existsb p rows = match first p rows with Some _ => true | None => false end.
Proof.
  unfold first. induction rows as [|r rows IH]; [reflexivity|]. simpl.
  destruct (p r); [reflexivity | exact IH].
Qed.

(** X22: [register] keeps emails unique and never runs into the UNIQUE
    constraint.  A taken email gets a 400 and nothing is stored; a free one
    stores a user with role "user" under a fresh id, whom
    [get_user_by_email] then finds, while every other email resolves as
    before. *)
Theorem register_keeps_emails_unique (db : Session)
  (name email password_hash : string) (now : datetime) :
  unique_emails db ->
  unique_emails (fst (register db name email password_hash now))
  /\ (forall other, other <> email ->
        get_user_by_email (fst (register db name email password_hash now))
          other
        = get_user_by_email db other)
  /\ match snd (register db name email password_hash now) with
     | Respond u =>
         get_user_by_email db email = None
         /\ users (fst (register db name email password_hash now))
            = users db ++ [u]
         /\ get_user_by_email
              (fst (register db name email password_hash now)) email
            = Some u
         /\ u = User.mk (next_id (map User.id (users db))) name email
                  password_hash "user" now
         /\ ~ In (User.id u) (map User.id (users db))
     | HTTPException status_code detail =>
         status_code = 400 /\ detail = "Email already registered"
         /\ get_user_by_email db email <> None
         /\ fst (register db name email password_hash now) = db
     | Uncaught _ => False
     end.
Proof.
  intros Hu. unfold register, create_user.
  rewrite existsb_first. fold (get_user_by_email db email).
  destruct (get_user_by_email db email) as [u|] eqn:E; cbn [fst snd].
  - split; [assumption|]. split; [reflexivity|].
    repeat split; congruence.
  - assert (Hfree : ~ In email (map User.email (users db))).
    { intros Hin. apply in_map_iff in Hin as (x & Hx & Hin).
      unfold get_user_by_email in E.
      apply first_none_filter in E.
      assert (Hf : In x (filter (fun u => String.eqb (User.email u) email)
                           (users db)))
        by (apply filter_In; split; [assumption | now apply String.eqb_eq]).
      now rewrite E in Hf. }
    split; [|split].
    + unfold unique_emails. cbn [users with_users]. rewrite map_app. simpl.
      apply NoDup_app; [assumption | repeat constructor; simpl; tauto|].
      intros x Hx [<-|[]]. contradiction.
    + intros other Hne. unfold get_user_by_email. cbn [users with_users].
      rewrite first_app.
      destruct (first _ (users db)); [reflexivity|]. simpl.
      destruct (String.eqb_spec email other); [congruence | reflexivity].
    + split; [reflexivity|]. split; [reflexivity|]. split; [|split].
      * unfold get_user_by_email in *. cbn [users with_users].
        rewrite first_app, E. simpl. now rewrite String.eqb_refl.
      * reflexivity.
      * apply next_id_fresh.
Qed.

(** Dee registers next to Ann, Bob and Cy. *)
Lemma register_keeps_emails_unique_witness :
  unique_emails Scenario.batch_db
  /\ (unique_emails (fst (register Scenario.batch_db "Dee" "dee@example.org" "$2b$12$d" 1718180000))
      /\ (forall other, other <> "dee@example.org" ->
            get_user_by_email (fst (register Scenario.batch_db "Dee" "dee@example.org" "$2b$12$d" 1718180000))
              other
            = get_user_by_email Scenario.batch_db other)
      /\ match snd (register Scenario.batch_db "Dee" "dee@example.org" "$2b$12$d" 1718180000) with
         | Respond u =>
             get_user_by_email Scenario.batch_db "dee@example.org" = None
             /\ users (fst (register Scenario.batch_db "Dee" "dee@example.org" "$2b$12$d" 1718180000))
                = users Scenario.batch_db ++ [u]
             /\ get_user_by_email
                  (fst (register Scenario.batch_db "Dee" "dee@example.org" "$2b$12$d" 1718180000)) "dee@example.org"
                = Some u
             /\ u = User.mk (next_id (map User.id (users Scenario.batch_db))) "Dee" "dee@example.org"
                      "$2b$12$d" "user" 1718180000
             /\ ~ In (User.id u) (map User.id (users Scenario.batch_db))
         | HTTPException status_code detail =>
             status_code = 400 /\ detail = "Email already registered"
             /\ get_user_by_email Scenario.batch_db "dee@example.org" <> None
             /\ fst (register Scenario.batch_db "Dee" "dee@example.org" "$2b$12$d" 1718180000) = Scenario.batch_db
         | Uncaught _ => False
         end).
Proof.
  assert (H1 : unique_emails Scenario.batch_db)
    by (distinct_keys).
  exact
    (conj H1 (register_keeps_emails_unique Scenario.batch_db "Dee" "dee@example.org" "$2b$12$d" 1718180000 H1)).
Defined.

(* ===================================================================== *)
(** ** Refresh tokens *)
(* ===================================================================== *)

Lemma nodup_map_inj {A B : Type} (f : A -> B) (rows : list A) r1 r2 :
  NoDup (map f rows) -> In r1 rows -> In r2 rows -> f r1 = f r2 -> r1 = r2.
Proof.
  induction rows as [|r rows IH]; intros Hnd H1 H2 E; [contradiction|].
  simpl in Hnd. apply NoDup_cons_iff in Hnd as [Hnotin Hnd].
  destruct H1 as [->|H1], H2 as [->|H2]; auto.
  - exfalso. apply Hnotin. rewrite E. now apply in_map.
  - exfalso. apply Hnotin. rewrite <- E. now apply in_map.
Qed.

Lemma first_map_same {A : Type} (p : A -> bool) (g : A -> A) (rows : list A) :
  (forall r, In r rows -> p (g r) = p r /\ (p r = true -> g r = r)) ->
  first p (map g rows) = first p rows.
Proof.
  unfold first. induction rows as [|r rows IH]; intros H; [reflexivity|].
  simpl. destruct (H r (or_introl eq_refl)) as [Hp Hg]. rewrite Hp.
  destruct (p r); [now rewrite Hg|].
  apply IH. intros x Hx. apply H. now right.
Qed.

Lemma get_refresh_token_some db token t :
  get_refresh_token db token = Some t ->
  In t (refresh_tokens db) /\ RefreshToken.token t = token
  /\ RefreshToken.revoked t = false.
Proof.
  intros H. apply first_some_in in H as [Hin Hp].
  apply andb_prop in Hp as [Ht Hr]. apply String.eqb_eq in Ht.
  apply negb_true_iff in Hr. auto.
Qed.

Lemma get_refresh_token_none db token :
  (forall r, In r (refresh_tokens db) -> RefreshToken.token r = token ->
             RefreshToken.revoked r = true) ->
  get_refresh_token db token = None.
Proof.
  intros H. apply first_none_all. intros r Hr.
  destruct (String.eqb_spec (RefreshToken.token r) token) as [E|];
    [|reflexivity].
  now rewrite (H r Hr E).
Qed.

Lemma revoke_refresh_token_keys db token :
  token_keys db -> token_keys (revoke_refresh_token db token).
Proof.
  intros [Hi Ht]. unfold revoke_refresh_token.
  destruct (first _ (refresh_tokens db)) as [r0|]; [|now split].
  unfold token_keys. cbn [refresh_tokens with_refresh_tokens].
  rewrite update_row_keys by reflexivity. split; [assumption|].
  unfold update_row. rewrite map_map.
  erewrite map_ext; [exact Ht|].
  intros r. now destruct (RefreshToken.id r =? RefreshToken.id r0).
Qed.

Lemma revoke_refresh_token_tables db token :
  tables (revoke_refresh_token db token) = tables db.
Proof.
  unfold revoke_refresh_token.
  now destruct (first _ (refresh_tokens db)).
Qed.

Lemma revoke_refresh_token_revokes db token :
  token_keys db ->
  get_refresh_token (revoke_refresh_token db token) token = None.
Proof.
  intros [_ Ht]. unfold revoke_refresh_token.
  destruct (first _ (refresh_tokens db)) as [r0|] eqn:E.
  - apply first_some_in in E as [Hin0 Hp0]. apply String.eqb_eq in Hp0.
    apply get_refresh_token_none.
    cbn [refresh_tokens with_refresh_tokens]. intros x Hx Hxt.
    unfold update_row in Hx. apply in_map_iff in Hx as (r & Hr & Hrin).
    assert (Hrt : RefreshToken.token r = token).
    { subst x. now destruct (RefreshToken.id r =? RefreshToken.id r0). }
    assert (r = r0)
      by (apply (nodup_map_inj RefreshToken.token (refresh_tokens db));
          congruence).
    subst r. rewrite Z.eqb_refl in Hr. now subst x.
  - apply get_refresh_token_none. intros r Hr Hrt.
    apply first_none_filter in E.
    assert (Hf : In r (filter (fun r => String.eqb (RefreshToken.token r)
                                          token) (refresh_tokens db)))
      by (apply filter_In; split; [assumption | now apply String.eqb_eq]).
    now rewrite E in Hf.
Qed.

Lemma revoke_refresh_token_others db token other :
  token_keys db -> other <> token ->
  get_refresh_token (revoke_refresh_token db token) other
  = get_refresh_token db other.
Proof.
  intros [Hi _] Hne. unfold revoke_refresh_token.
  destruct (first _ (refresh_tokens db)) as [r0|] eqn:E; [|reflexivity].
  apply first_some_in in E as [Hin0 Hp0]. apply String.eqb_eq in Hp0.
  unfold get_refresh_token. cbn [refresh_tokens with_refresh_tokens].
  unfold update_row. apply first_map_same. intros r Hr.
  destruct (Z.eqb_spec (RefreshToken.id r) (RefreshToken.id r0)) as [Eid|];
    [|now split].
  assert (r = r0)
    by (apply (nodup_map_inj RefreshToken.id (refresh_tokens db)); auto).
  subst r. cbn [RefreshToken.token RefreshToken.revoked
                  RefreshToken.set_revoked].
  destruct (String.eqb_spec (RefreshToken.token r0) other) as [Eo|];
    [congruence|].
  now split.
Qed.

Lemma create_refresh_token_ok db user_id token now :
  unused_token db token ->
  create_refresh_token db user_id token now
  = Committed
      (with_refresh_tokens db
         (refresh_tokens db
          ++ [RefreshToken.mk
                (next_id (map RefreshToken.id (refresh_tokens db)))
                token user_id (now + days REFRESH_TOKEN_EXPIRE_DAYS) false
                now]),
       token).
Proof.
  intros Hu. unfold create_refresh_token.
  replace (existsb _ (refresh_tokens db)) with false; [reflexivity|].
  symmetry. apply not_true_is_false. intros H.
  apply existsb_exists in H as (r & Hr & Hp). apply String.eqb_eq in Hp.
  now apply (Hu r Hr).
Qed.

Lemma append_token_lookup db r :
  unused_token db (RefreshToken.token r) ->
  RefreshToken.revoked r = false ->
  get_refresh_token (with_refresh_tokens db (refresh_tokens db ++ [r]))
    (RefreshToken.token r) = Some r
  /\ forall other, other <> RefreshToken.token r ->
       get_refresh_token (with_refresh_tokens db (refresh_tokens db ++ [r]))
         other
       = get_refresh_token db other.
Proof.
  intros Hu Hrev. unfold get_refresh_token.
  cbn [refresh_tokens with_refresh_tokens]. split.
  - rewrite first_app.
    rewrite (first_none_all _ (refresh_tokens db)).
    + simpl. now rewrite String.eqb_refl, Hrev.
    + intros x Hx.
      destruct (String.eqb_spec (RefreshToken.token x) (RefreshToken.token r))
        as [E|]; [|reflexivity].
      exfalso. now apply (Hu x Hx).
  - intros other Hne. rewrite first_app.
    destruct (first _ (refresh_tokens db)); [reflexivity|]. simpl.
    destruct (String.eqb_spec (RefreshToken.token r) other);
      [congruence | reflexivity].
Qed.

Lemma append_token_keys db r :
  token_keys db ->
  unused_token db (RefreshToken.token r) ->
  RefreshToken.id r = next_id (map RefreshToken.id (refresh_tokens db)) ->
  token_keys (with_refresh_tokens db (refresh_tokens db ++ [r])).
Proof.
  intros [Hi Ht] Hu Hid. unfold token_keys.
  cbn [refresh_tokens with_refresh_tokens]. rewrite !map_app. simpl.
  split; (apply NoDup_app; [assumption | repeat constructor; simpl; tauto|]).
  - intros x Hx [<-|[]]. rewrite Hid in Hx. now apply next_id_fresh in Hx.
  - intros x Hx [<-|[]]. apply in_map_iff in Hx as (y & Hy & Hyin).
    now apply (Hu y Hyin).
Qed.

Lemma revoke_keeps_unused db token fresh :
  unused_token db fresh -> unused_token (revoke_refresh_token db token) fresh.
Proof.
  intros Hu. unfold revoke_refresh_token.
  destruct (first _ (refresh_tokens db)) as [r0|]; [|assumption].
  intros x Hx. cbn [refresh_tokens with_refresh_tokens] in Hx.
  unfold update_row in Hx. apply in_map_iff in Hx as (r & <- & Hr).
  specialize (Hu r Hr).
  now destruct (RefreshToken.id r =? RefreshToken.id r0).
Qed.

Section TokenProperties.

Variable jwt_encode : string -> datetime -> string.
Variable verify_password : string -> string -> bool.

(** X23: the refresh route rotates.  With unique token ids and strings, a
    valid, unexpired refresh token of an existing user is answered with a
    new pair; from then on the old token is refused with a 401, the new
    one is stored for the same user and good for seven days, every other
    token is accepted or refused as before, and the other tables are
    untouched. *)
Theorem refresh_rotates_token (db : Database) (old fresh : string)
  (now : datetime) (t : RefreshToken.t) (user : User.t) :
  token_keys db ->
  unused_token db fresh ->
  get_refresh_token db old = Some t ->
  now <= RefreshToken.expires_at t ->
  first (fun u => User.id u =? RefreshToken.user_id t) (users (tables db))
  = Some user ->
  exists db' t',
    refresh_token_route jwt_encode db old fresh now
    = (db',
       Respond (TokenPair.mk (jwt_encode (User.email user) (now + 900))
                  fresh "bearer"))
    /\ get_refresh_token db' old = None
    /\ get_refresh_token db' fresh = Some t'
    /\ RefreshToken.user_id t' = RefreshToken.user_id t
    /\ RefreshToken.expires_at t' = now + 604800
    /\ (forall other, other <> old -> other <> fresh ->
          get_refresh_token db' other = get_refresh_token db other)
    /\ (forall fresh' now',
          refresh_token_route jwt_encode db' old fresh' now'
          = (db', HTTPException 401 "Invalid or expired refresh token"))
    /\ token_keys db'
    /\ tables db' = tables db.
Proof.
  intros Hkeys Hfresh Hget Hexp Huser.
  pose proof (get_refresh_token_some _ _ _ Hget) as (Hin & Htok & Hrev).
  assert (Hne : old <> fresh)
    by (intros ->; now apply (Hfresh t Hin)).
  assert (Huid : User.id user = RefreshToken.user_id t).
  { apply first_some_in in Huser as [_ Hp]. now apply Z.eqb_eq in Hp. }
  unfold refresh_token_route. rewrite Hget.
  replace (RefreshToken.expires_at t <? now) with false
    by (symmetry; apply Z.ltb_ge; lia).
  rewrite Huser.
  set (db1 := revoke_refresh_token db old).
  assert (Hkeys1 : token_keys db1) by now apply revoke_refresh_token_keys.
  assert (Hfresh1 : unused_token db1 fresh) by now apply revoke_keeps_unused.
  rewrite (create_refresh_token_ok db1 _ fresh now Hfresh1).
  set (t' := RefreshToken.mk _ fresh _ _ false now).
  destruct (append_token_lookup db1 t' Hfresh1 eq_refl) as [Hnew Hothers].
  cbn [RefreshToken.token t'] in Hnew, Hothers.
  set (db2 := with_refresh_tokens db1 (refresh_tokens db1 ++ [t'])) in *.
  assert (Hold : get_refresh_token db2 old = None).
  { rewrite Hothers by assumption.
    now apply revoke_refresh_token_revokes. }
  exists db2, t'.
  split; [reflexivity|]. split; [exact Hold|]. split; [exact Hnew|].
  split; [exact Huid|]. split; [reflexivity|].
  split; [|split; [|split]].
  - intros other Ho Hf. rewrite Hothers by congruence.
    now apply revoke_refresh_token_others.
  - intros fresh' now'. now rewrite Hold.
  - now apply append_token_keys.
  - unfold db2, db1. cbn [tables with_refresh_tokens].
    apply revoke_refresh_token_tables.
Qed.

(** X24: an expired refresh token is refused and burnt: the route answers
    401, the token is revoked, so that it stays refused whatever the clock
    says later, and no new token is issued. *)
Theorem refresh_refuses_expired_token (db : Database) (old fresh : string)
  (now : datetime) (t : RefreshToken.t) :
  token_keys db ->
  get_refresh_token db old = Some t ->
  RefreshToken.expires_at t < now ->
  exists db',
    refresh_token_route jwt_encode db old fresh now
    = (db', HTTPException 401 "Refresh token expired. Please log in again.")
    /\ get_refresh_token db' old = None
    /\ List.length (refresh_tokens db') = List.length (refresh_tokens db)
    /\ (forall other, other <> old ->
          get_refresh_token db' other = get_refresh_token db other)
    /\ forall fresh' now',
         refresh_token_route jwt_encode db' old fresh' now'
         = (db', HTTPException 401 "Invalid or expired refresh token").
Proof.
  intros Hkeys Hget Hexp. unfold refresh_token_route at 1. rewrite Hget.
  replace (RefreshToken.expires_at t <? now) with true
    by (symmetry; apply Z.ltb_lt; lia).
  exists (revoke_refresh_token db old).
  pose proof (revoke_refresh_token_revokes db old Hkeys) as Hnone.
  split; [reflexivity|]. split; [exact Hnone|]. split; [|split].
  - unfold revoke_refresh_token.
    destruct (first _ (refresh_tokens db)); [|reflexivity].
    cbn [refresh_tokens with_refresh_tokens]. apply update_row_length.
  - intros other Hne. now apply revoke_refresh_token_others.
  - intros fresh' now'. unfold refresh_token_route. now rewrite Hnone.
Qed.

(** X25: [login] gives the same 401 for an unknown email and for a wrong
    password and then stores nothing; with the right password and an
    unused random string it stores one refresh token for that user, valid
    for seven days, returns that string with an access token for the
    user's email that expires in fifteen minutes. *)
Theorem login_issues_token (db : Database) (username password fresh : string)
  (now : datetime) :
  token_keys db ->
  unused_token db fresh ->
  match get_user_by_email (tables db) username with
  | Some user =>
      if verify_password password (User.password_hash user) then
        exists db' t,
          login jwt_encode verify_password db username password fresh now
          = (db',
             Respond (TokenPair.mk (jwt_encode (User.email user) (now + 900))
                        fresh "bearer"))
          /\ get_refresh_token db' fresh = Some t
          /\ RefreshToken.user_id t = User.id user
          /\ RefreshToken.expires_at t = now + 604800
          /\ refresh_tokens db' = refresh_tokens db ++ [t]
          /\ token_keys db'
          /\ tables db' = tables db
      else
        login jwt_encode verify_password db username password fresh now
        = (db, HTTPException 401 "Incorrect email or password")
  | None =>
      login jwt_encode verify_password db username password fresh now
      = (db, HTTPException 401 "Incorrect email or password")
  end.
Proof.
  intros Hkeys Hfresh. unfold login.
  destruct (get_user_by_email (tables db) username) as [user|];
    [|reflexivity].
  destruct (verify_password password (User.password_hash user));
    [|reflexivity].
  cbn [negb]. rewrite (create_refresh_token_ok db _ fresh now Hfresh).
  set (t := RefreshToken.mk _ fresh _ _ false now).
  destruct (append_token_lookup db t Hfresh eq_refl) as [Hnew _].
  exists (with_refresh_tokens db (refresh_tokens db ++ [t])), t.
  split; [reflexivity|]. split; [exact Hnew|].
  repeat split; try reflexivity; now apply append_token_keys.
Qed.

End TokenProperties.

(** Ann logs in with her password. *)
Lemma login_issues_token_witness :
  token_keys Sample.auth_db
  /\ unused_token Sample.auth_db "tok-new"
  /\ (match get_user_by_email (tables Sample.auth_db) "ann@example.org" with
      | Some user =>
          if Sample.checkpw "a" (User.password_hash user) then
            exists db' t,
              login Sample.encode Sample.checkpw Sample.auth_db "ann@example.org" "a" "tok-new" 1718100000
              = (db',
                 Respond (TokenPair.mk (Sample.encode (User.email user) (1718100000 + 900))
                            "tok-new" "bearer"))
              /\ get_refresh_token db' "tok-new" = Some t
              /\ RefreshToken.user_id t = User.id user
              /\ RefreshToken.expires_at t = 1718100000 + 604800
              /\ refresh_tokens db' = refresh_tokens Sample.auth_db ++ [t]
              /\ token_keys db'
              /\ tables db' = tables Sample.auth_db
          else
            login Sample.encode Sample.checkpw Sample.auth_db "ann@example.org" "a" "tok-new" 1718100000
            = (Sample.auth_db, HTTPException 401 "Incorrect email or password")
      | None =>
          login Sample.encode Sample.checkpw Sample.auth_db "ann@example.org" "a" "tok-new" 1718100000
          = (Sample.auth_db, HTTPException 401 "Incorrect email or password")
      end).
Proof.
  assert (H1 : token_keys Sample.auth_db)
    by (split; distinct_keys).
  assert (H2 : unused_token Sample.auth_db "tok-new")
    by (intros r Hin; each_row Hin; discriminate).
  exact
    (conj H1 (conj H2 (login_issues_token Sample.encode Sample.checkpw Sample.auth_db "ann@example.org" "a" "tok-new" 1718100000 H1 H2))).
Defined.

(** Ann comes back after her token has expired. *)
Lemma refresh_refuses_expired_token_witness :
  token_keys Sample.auth_db
  /\ get_refresh_token Sample.auth_db "tok-ann" = Some Sample.ann_token
  /\ RefreshToken.expires_at Sample.ann_token < 1718700000
  /\ (exists db',
      refresh_token_route Sample.encode Sample.auth_db "tok-ann" "tok-new" 1718700000
      = (db', HTTPException 401 "Refresh token expired. Please log in again.")
      /\ get_refresh_token db' "tok-ann" = None
      /\ List.length (refresh_tokens db') = List.length (refresh_tokens Sample.auth_db)
      /\ (forall other, other <> "tok-ann" ->
            get_refresh_token db' other = get_refresh_token Sample.auth_db other)
      /\ forall fresh' now',
           refresh_token_route Sample.encode db' "tok-ann" fresh' now'
           = (db', HTTPException 401 "Invalid or expired refresh token")).
Proof.
  assert (H1 : token_keys Sample.auth_db)
    by (split; distinct_keys).
  assert (H2 : get_refresh_token Sample.auth_db "tok-ann" = Some Sample.ann_token)
    by (reflexivity).
  assert (H3 : RefreshToken.expires_at Sample.ann_token < 1718700000)
    by (compare_ints).
  exact
    (conj H1 (conj H2 (conj H3 (refresh_refuses_expired_token Sample.encode Sample.auth_db "tok-ann" "tok-new" 1718700000 Sample.ann_token H1 H2 H3)))).
Defined.

(** Ann trades her live token in. *)
Lemma refresh_rotates_token_witness :
  token_keys Sample.auth_db
  /\ unused_token Sample.auth_db "tok-new"
  /\ get_refresh_token Sample.auth_db "tok-ann" = Some Sample.ann_token
  /\ 1718100000 <= RefreshToken.expires_at Sample.ann_token
  /\ first (fun u => User.id u =? RefreshToken.user_id Sample.ann_token) (users (tables Sample.auth_db))
      = Some Scenario.ann
  /\ (exists db' t',
      refresh_token_route Sample.encode Sample.auth_db "tok-ann" "tok-new" 1718100000
      = (db',
         Respond (TokenPair.mk (Sample.encode (User.email Scenario.ann) (1718100000 + 900))
                    "tok-new" "bearer"))
      /\ get_refresh_token db' "tok-ann" = None
      /\ get_refresh_token db' "tok-new" = Some t'
      /\ RefreshToken.user_id t' = RefreshToken.user_id Sample.ann_token
      /\ RefreshToken.expires_at t' = 1718100000 + 604800
      /\ (forall other, other <> "tok-ann" -> other <> "tok-new" ->
            get_refresh_token db' other = get_refresh_token Sample.auth_db other)
      /\ (forall fresh' now',
            refresh_token_route Sample.encode db' "tok-ann" fresh' now'
            = (db', HTTPException 401 "Invalid or expired refresh token"))
      /\ token_keys db'
      /\ tables db' = tables Sample.auth_db).
Proof.
  assert (H1 : token_keys Sample.auth_db)
    by (split; distinct_keys).
  assert (H2 : unused_token Sample.auth_db "tok-new")
    by (intros r Hin; each_row Hin; discriminate).
  assert (H3 : get_refresh_token Sample.auth_db "tok-ann" = Some Sample.ann_token)
    by (reflexivity).
  assert (H4 : 1718100000 <= RefreshToken.expires_at Sample.ann_token)
    by (compare_ints).
  assert (H5 : first (fun u => User.id u =? RefreshToken.user_id Sample.ann_token) (users (tables Sample.auth_db))
      = Some Scenario.ann)
    by (reflexivity).
  exact
    (conj H1 (conj H2 (conj H3 (conj H4 (conj H5 (refresh_rotates_token Sample.encode Sample.auth_db "tok-ann" "tok-new" 1718100000 Sample.ann_token Scenario.ann H1 H2 H3 H4 H5)))))).
Defined.

(** X26: [logout] revokes the token it is given without looking at whose it
    is: with unique token ids and strings, the token is refused
    afterwards, every other token is accepted or refused as before, and
    no row is added or removed. *)
Theorem logout_revokes_any_token (db : Database) (refresh_token : string) :
  token_keys db ->
  get_refresh_token (logout db refresh_token) refresh_token = None
  /\ (forall other, other <> refresh_token ->
        get_refresh_token (logout db refresh_token) other
        = get_refresh_token db other)
  /\ map RefreshToken.token (refresh_tokens (logout db refresh_token))
     = map RefreshToken.token (refresh_tokens db)
  /\ map RefreshToken.user_id (refresh_tokens (logout db refresh_token))
     = map RefreshToken.user_id (refresh_tokens db)
  /\ tables (logout db refresh_token) = tables db.
Proof.
  intros Hkeys. unfold logout.
  split; [now apply revoke_refresh_token_revokes|].
  split; [intros; now apply revoke_refresh_token_others|].
  split; [|split; [|apply revoke_refresh_token_tables]];
    unfold revoke_refresh_token;
    (destruct (first _ (refresh_tokens db)) as [r0|]; [|reflexivity]);
    cbn [refresh_tokens with_refresh_tokens]; unfold update_row;
    rewrite map_map; apply map_ext; intros r;
    now destruct (RefreshToken.id r =? RefreshToken.id r0).
Qed.

(** Bob's token is handed to the logout route. *)
Lemma logout_revokes_any_token_witness :
  token_keys Sample.auth_db
  /\ (get_refresh_token (logout Sample.auth_db "tok-bob") "tok-bob" = None
      /\ (forall other, other <> "tok-bob" ->
            get_refresh_token (logout Sample.auth_db "tok-bob") other
            = get_refresh_token Sample.auth_db other)
      /\ map RefreshToken.token (refresh_tokens (logout Sample.auth_db "tok-bob"))
         = map RefreshToken.token (refresh_tokens Sample.auth_db)
      /\ map RefreshToken.user_id (refresh_tokens (logout Sample.auth_db "tok-bob"))
         = map RefreshToken.user_id (refresh_tokens Sample.auth_db)
      /\ tables (logout Sample.auth_db "tok-bob") = tables Sample.auth_db).
Proof.
  assert (H1 : token_keys Sample.auth_db)
    by (split; distinct_keys).
  exact
    (conj H1 (logout_revokes_any_token Sample.auth_db "tok-bob" H1)).
Defined.

(** X27: [revoke_all_user_tokens] logs a user out everywhere and nobody
    else: afterwards no token of that user is accepted, and a token of
    another user that was accepted still is. *)
Theorem revoke_all_user_tokens_spec (db : Database) (user_id : Z) :
  (forall token t,
     get_refresh_token (revoke_all_user_tokens db user_id) token = Some t ->
     RefreshToken.user_id t <> user_id)
  /\ (forall token t,
        get_refresh_token db token = Some t ->
        RefreshToken.user_id t <> user_id ->
        get_refresh_token (revoke_all_user_tokens db user_id) token = Some t)
  /\ (forall token t,
        get_refresh_token db token = Some t ->
        RefreshToken.user_id t = user_id -> token_keys db ->
        get_refresh_token (revoke_all_user_tokens db user_id) token = None)
  /\ tables (revoke_all_user_tokens db user_id) = tables db.
Proof.
  split; [|split; [|split; [|reflexivity]]].
  - intros token t H. apply get_refresh_token_some in H as (Hin & _ & Hrev).
    unfold revoke_all_user_tokens in Hin.
    cbn [refresh_tokens with_refresh_tokens] in Hin.
    apply in_map_iff in Hin as (r & Hr & _).
    destruct (Z.eqb_spec (RefreshToken.user_id r) user_id) as [E|E].
    + destruct (RefreshToken.revoked r) eqn:Er; simpl in Hr; subst t;
        simpl in Hrev; congruence.
    + simpl in Hr. now subst t.
  - intros token t H Hne. unfold get_refresh_token, revoke_all_user_tokens in *.
    cbn [refresh_tokens with_refresh_tokens]. unfold first in *.
    induction (refresh_tokens db) as [|r rows IH]; [discriminate|].
    simpl in *.
    destruct (String.eqb (RefreshToken.token r) token) eqn:Et.
    + destruct (RefreshToken.revoked r) eqn:Er; simpl in *.
      * rewrite andb_false_r. simpl. rewrite Et, Er. simpl. now apply IH.
      * injection H as ->.
        destruct (Z.eqb_spec (RefreshToken.user_id t) user_id);
          [contradiction|].
        simpl. now rewrite Et, Er.
    + simpl in H.
      replace (String.eqb
                 (RefreshToken.token
                    (if (RefreshToken.user_id r =? user_id)
                        && negb (RefreshToken.revoked r)
                     then RefreshToken.set_revoked r true else r)) token)
        with false
        by (now destruct ((RefreshToken.user_id r =? user_id)
                          && negb (RefreshToken.revoked r))).
      simpl. now apply IH.
  - intros token t H Hu [_ Hnd].
    pose proof (get_refresh_token_some _ _ _ H) as (Hin & Htok & Hrev).
    apply get_refresh_token_none. unfold revoke_all_user_tokens.
    cbn [refresh_tokens with_refresh_tokens]. intros x Hx Hxt.
    apply in_map_iff in Hx as (r & Hr & Hrin).
    assert (Hrt : RefreshToken.token r = token).
    { subst x. now destruct ((RefreshToken.user_id r =? user_id)
                             && negb (RefreshToken.revoked r)). }
    assert (r = t)
      by (apply (nodup_map_inj RefreshToken.token (refresh_tokens db));
          congruence).
    subst r. rewrite Hu, Z.eqb_refl, Hrev in Hr. simpl in Hr. now subst x.
Qed.

(* ===================================================================== *)
(** ** Rates are percentages *)
(* ===================================================================== *)

Lemma iter_shr_1_m n mrs :
  0 <= shr_m mrs ->
  shr_m (Nat.iter n shr_1 mrs) = shr_m mrs / 2 ^ Z.of_nat n.
Proof.
  intros HM. induction n as [|n IH].
  - simpl. now rewrite Z.div_1_r.
  - rewrite Nat2Z.inj_succ, Z.pow_succ_r by lia. simpl Nat.iter.
    assert (Hpow : 0 < 2 ^ Z.of_nat n) by (apply Z.pow_pos_nonneg; lia).
    assert (Hm0 : 0 <= shr_m (Nat.iter n shr_1 mrs))
      by (rewrite IH; apply Z.div_pos; lia).
    destruct (shr_1_spec _ Hm0) as (H1 & _).
    rewrite H1, IH, Z.div_div by lia. f_equal. lia.
Qed.

Lemma shr_record_of_loc_m M l : shr_m (shr_record_of_loc M l) = M.
Proof. now destruct l as [|[| |]]. Qed.

Lemma loc_of_shr_record_of_loc M l :
  loc_of_shr_record (shr_record_of_loc M l) = l.
Proof. now destruct l as [|[| |]]. Qed.

Section RoundingBoundInexact.

Variables b g : Z.
Hypothesis g_range : 0 <= g <= 1074.
Hypothesis b_range : 0 <= b < 2 ^ 53.

(** The first rounding stage of a quotient: the digits cut off by the
    division stand for a value strictly between [M] and [M + 1]. *)
Lemma shr_fexp_bound_inexact M e l mrs e' :
  0 <= M -> e <= - g ->
  M < b * 2 ^ (- g - e) ->
  shr_fexp prec emax M e l = (mrs, e') ->
  e' <= - g
  /\ 0 <= shr_m mrs
  /\ shr_m mrs <= round_nearest_even (shr_m mrs) (loc_of_shr_record mrs)
  /\ round_nearest_even (shr_m mrs) (loc_of_shr_record mrs)
     <= b * 2 ^ (- g - e').
Proof.
  intros HM He Hlt. unfold shr_fexp, shr.
  assert (Hd : Zdigits2 M + e - 53 <= - g).
  { assert (Zdigits2 M <= 53 - g - e); [|lia].
    apply Zdigits2_le; [|lia]. split; [assumption|].
    eapply Z.lt_trans; [exact Hlt|].
    replace (53 - g - e) with (53 + (- g - e)) by lia.
    rewrite Z.pow_add_r by lia.
    apply Z.mul_lt_mono_pos_r; [apply Z.pow_pos_nonneg; lia | lia]. }
  assert (Hfexp : fexp prec emax (Zdigits2 M + e) <= - g).
  { unfold fexp, emin, prec, emax. lia. }
  assert (Hsame : forall mrs0,
             mrs0 = shr_record_of_loc M l ->
             0 <= shr_m mrs0
             /\ shr_m mrs0
                <= round_nearest_even (shr_m mrs0) (loc_of_shr_record mrs0)
             /\ round_nearest_even (shr_m mrs0) (loc_of_shr_record mrs0)
                <= b * 2 ^ (- g - e)).
  { intros mrs0 ->. rewrite shr_record_of_loc_m, loc_of_shr_record_of_loc.
    destruct (round_nearest_even_bounds M l) as [[Hlo Hhi] _]. lia. }
  destruct (fexp prec emax (Zdigits2 M + e) - e) as [|p|p] eqn:Hn.
  - intros [= <- <-]. split; [lia|]. now apply Hsame.
  - intros [= <- <-]. rewrite iter_pos_nat.
    pose proof (iter_shr_1_m (Pos.to_nat p) (shr_record_of_loc M l)) as Hm.
    rewrite shr_record_of_loc_m, positive_nat_Z in Hm.
    specialize (Hm HM).
    set (mrs := Nat.iter _ _ _) in *.
    assert (He' : e + Zpos p <= - g) by lia.
    assert (Hpow : 0 < 2 ^ Zpos p) by (apply Z.pow_pos_nonneg; lia).
    assert (Hsplit : b * 2 ^ (- g - e)
                     = (b * 2 ^ (- g - (e + Zpos p))) * 2 ^ Zpos p).
    { rewrite <- Z.mul_assoc, <- Z.pow_add_r by lia. do 2 f_equal. lia. }
    set (C := b * 2 ^ (- g - (e + Zpos p))) in *.
    assert (Hq : shr_m mrs < C).
    { rewrite Hm. apply Z.div_lt_upper_bound; lia. }
    assert (Hq0 : 0 <= shr_m mrs) by (rewrite Hm; apply Z.div_pos; lia).
    destruct (round_nearest_even_bounds (shr_m mrs) (loc_of_shr_record mrs))
      as [[Hlo Hhi] _].
    split; [exact He'|]. split; [exact Hq0|]. split; [exact Hlo|]. lia.
  - intros [= <- <-]. split; [lia|]. now apply Hsame.
Qed.

(** Rounding [M * 2^e] with location [l] to binary64: within the bound if
    [M] is, and strictly so unless the location is exact. *)
Lemma binary_round_aux_within_loc M e l :
  0 <= M -> e <= - g ->
  M <= b * 2 ^ (- g - e) ->
  (l <> loc_Exact -> M < b * 2 ^ (- g - e)) ->
  float_within b g (binary_round_aux prec emax false M e l).
Proof.
  intros HM He Hle Hlt.
  destruct (Z.eq_dec M (b * 2 ^ (- g - e))) as [Heq|Hne].
  - destruct l as [|c]; [|exfalso; specialize (Hlt ltac:(discriminate)); lia].
    now apply binary_round_aux_within.
  - assert (Hlt' : M < b * 2 ^ (- g - e)) by lia.
    unfold binary_round_aux.
    destruct (shr_fexp prec emax M e l) as [mrs1 e1] eqn:H1.
    destruct (shr_fexp_bound_inexact M e l mrs1 e1 HM He Hlt' H1)
      as (He1 & Hm1 & Hlo1 & Hhi1).
    set (m1 := round_nearest_even (shr_m mrs1) (loc_of_shr_record mrs1)) in *.
    destruct (shr_fexp prec emax m1 e1 loc_Exact) as [mrs2 e2] eqn:H2.
    assert (Hm1' : 0 <= m1) by lia.
    destruct (shr_fexp_bound b g g_range b_range m1 e1 mrs2 e2 Hm1' He1 Hhi1
                H2)
      as (He2 & Hm2 & Hlo2 & Hhi2).
    destruct (shr_m mrs2) as [|m|m] eqn:Hm; [exact I| |exfalso; lia].
    replace (e2 <=? emax - prec) with true
      by (symmetry; apply Z.leb_le; unfold emax, prec; lia).
    simpl. split; lia.
Qed.

End RoundingBoundInexact.

Lemma Zdigits2_mono p q : (p <= q)%positive -> Zdigits2 (Zpos p) <= Zdigits2 (Zpos q).
Proof.
  intros Hle. simpl.
  pose proof (digits2_pos_lower p) as Hl.
  pose proof (digits2_pos_upper q) as Hu.
  assert (H : 2 ^ (Zpos (digits2_pos p) - 1) < 2 ^ Zpos (digits2_pos q)) by lia.
  apply Z.pow_lt_mono_r_iff in H; lia.
Qed.

Lemma new_location_exact n r : r = 0 -> new_location n r = loc_Exact.
Proof.
  intros ->. unfold new_location, new_location_even, new_location_odd.
  now destruct (Z.even n).
Qed.

Lemma new_location_inexact n r :
  new_location n r <> loc_Exact -> r <> 0.
Proof. intros H E. now apply H, new_location_exact. Qed.

(** A quotient of at most 1 is a float of at most 1. *)
Lemma float_of_ratio_within p d :
  (p <= d)%positive ->
  float_within (2 ^ 52) 52 (float_of_ratio (Zpos p) d).
Proof.
  intros Hle. unfold float_of_ratio, SFdiv_core_binary.
  set (e' := Z.min _ _).
  assert (He' : - 1074 <= e' <= - 53).
  { unfold e'. pose proof (Zdigits2_mono p d Hle).
    unfold fexp, emin, prec, emax. lia. }
  destruct (0 - 0 - e') as [|s|s] eqn:Hs; [lia| |lia].
  rewrite Z.shiftl_mul_pow2 by lia.
  assert (Hse : Zpos s = - e') by lia.
  assert (Hpow : 0 < 2 ^ Zpos s) by (apply Z.pow_pos_nonneg; lia).
  pose proof (Z_div_mod (Zpos p * 2 ^ Zpos s) (Zpos d) ltac:(lia)) as Hdm.
  destruct (Z.div_eucl (Zpos p * 2 ^ Zpos s) (Zpos d)) as [q r].
  destruct Hdm as [Hdm Hr].
  assert (Hq0 : 0 <= q) by nia.
  assert (Hqle : q <= 2 ^ Zpos s) by nia.
  apply binary_round_aux_within_loc.
  - lia.
  - split; [lia|]. apply Z.pow_lt_mono_r; lia.
  - assumption.
  - lia.
  - replace (- (52) - e') with (Zpos s - 52) by lia.
    rewrite <- Z.pow_add_r by lia.
    replace (52 + (Zpos s - 52)) with (Zpos s) by lia. exact Hqle.
  - intros Hloc. apply new_location_inexact in Hloc.
    replace (- (52) - e') with (Zpos s - 52) by lia.
    rewrite <- Z.pow_add_r by lia.
    replace (52 + (Zpos s - 52)) with (Zpos s) by lia. nia.
Qed.

Lemma float_of_int_100 :
  float_of_int 100 = S754_finite false 7036874417766400 (-46).
Proof. vm_compute. reflexivity. Qed.

Lemma percentage_within part total :
  0 <= part <= total -> 0 < total ->
  exists x,
    percentage part total = Ok (Float x)
    /\ float_within (100 * 2 ^ 46) 46 x.
Proof.
  intros Hp Ht. unfold percentage.
  destruct total as [|d|d]; try lia. cbn [Z.eqb negb int_truediv bind].
  eexists. split; [reflexivity|].
  rewrite float_of_int_100.
  apply (float_mul_within (2 ^ 52) 52); [closed_arith ..|].
  destruct part as [|p|p]; [exact I| |lia].
  apply float_of_ratio_within. unfold Pos.le. exact (proj2 Hp).
Qed.

(** A rate of a part in a whole is a whole number of percent. *)
Lemma rate_of_part part total :
  0 <= part <= total ->
  exists r, rate part total = Ok r /\ 0 <= r <= 100.
Proof.
  intros Hp. destruct (Z.eq_dec total 0) as [->|Hne].
  - exists 0. rewrite rate_zero_total. split; [reflexivity | lia].
  - destruct (percentage_within part total Hp ltac:(lia)) as (x & Hx & Hw).
    unfold rate. rewrite Hx. cbn [bind py_round].
    apply round_float_within.
    apply (float_within_weaken (100 * 2 ^ 46) 46); [closed_arith ..|exact Hw].
Qed.

(* ===================================================================== *)
(** ** A week holds seven logs for each habit *)
(* ===================================================================== *)

Lemma filter_flat_map_length {A B : Type} (p : B -> bool) (f : A -> list B)
  (l : list A) :
  List.length (filter p (flat_map f l))
  = list_sum (map (fun x => List.length (filter p (f x))) l).
Proof.
  induction l as [|x l IH]; [reflexivity|]. simpl.
  now rewrite filter_app, length_app, IH.
Qed.

Lemma filter_map_pair_length {A B : Type} (p : A * B -> bool) (a : A)
  (l : list B) :
  List.length (filter p (map (fun b => (a, b)) l))
  = List.length (filter (fun b => p (a, b)) l).
Proof.
  induction l as [|x l IH]; [reflexivity|]. simpl.
  destruct (p (a, x)); simpl; now rewrite IH.
Qed.

Lemma filter_length_sum {A : Type} (p : A -> bool) (l : list A) :
  List.length (filter p l)
  = list_sum (map (fun x => if p x then 1%nat else 0%nat) l).
Proof.
  induction l as [|x l IH]; [reflexivity|]. simpl.
  destruct (p x); simpl; now rewrite IH.
Qed.

Lemma list_sum_add {A : Type} (f g : A -> nat) (l : list A) :
  list_sum (map (fun x => (f x + g x)%nat) l)
  = (list_sum (map f l) + list_sum (map g l))%nat.
Proof. induction l as [|x l IH]; simpl; lia. Qed.

Lemma list_sum_swap {A B : Type} (f : A -> B -> nat) (la : list A)
  (lb : list B) :
  list_sum (map (fun a => list_sum (map (f a) lb)) la)
  = list_sum (map (fun b => list_sum (map (fun a => f a b) la)) lb).
Proof.
  induction la as [|a la IH]; simpl.
  - induction lb; simpl; lia.
  - rewrite IH, <- list_sum_add. reflexivity.
Qed.

Lemma filter_or_length {A : Type} (p q : A -> bool) (l : list A) :
  (List.length (filter (fun x => p x || q x) l)
   <= List.length (filter p l) + List.length (filter q l))%nat.
Proof.
  induction l as [|x l IH]; simpl; [lia|].
  destruct (p x), (q x); simpl; lia.
Qed.

(** With one log per habit and day, a habit has at most [n] logs on [n]
    consecutive days. *)
Lemma logs_in_days db habit_id first_day n :
  one_log_per_day db ->
  Nat.le
    (List.length
       (filter (fun l => (HabitLog.habit_id l =? habit_id)
                         && ((first_day <=? HabitLog.date l)
                             && (HabitLog.date l <? first_day + Z.of_nat n)))
          (habit_logs db)))
    n.
Proof.
  intros Hone. induction n as [|n IH].
  - rewrite (first_none_filter _ (habit_logs db)); [simpl; lia|].
    apply first_none_all. intros l _.
    destruct (Z.leb_spec first_day (HabitLog.date l)),
      (Z.ltb_spec (HabitLog.date l) (first_day + Z.of_nat 0));
      rewrite ?andb_false_r; try reflexivity; lia.
  - specialize (Hone habit_id (first_day + Z.of_nat n)).
    unfold logs_on in Hone.
    eapply Nat.le_trans;
      [apply (filter_length_le _
                (fun l =>
                   (HabitLog.habit_id l =? habit_id)
                   && ((first_day <=? HabitLog.date l)
                       && (HabitLog.date l <? first_day + Z.of_nat n))
                   || (HabitLog.habit_id l =? habit_id)
                      && (HabitLog.date l =? first_day + Z.of_nat n)))|].
    + intros l Hl. apply andb_prop in Hl as [Hh Hd].
      apply andb_prop in Hd as [Hlo Hhi]. rewrite Hh, Hlo. simpl.
      apply Z.ltb_lt in Hhi.
      destruct (Z.ltb_spec (HabitLog.date l) (first_day + Z.of_nat n));
        [reflexivity|].
      simpl. apply Z.eqb_eq. lia.
    + eapply Nat.le_trans; [apply filter_or_length|]. lia.
Qed.

Lemma list_sum_bound {A : Type} (f : A -> nat) (p : A -> bool) (n : nat)
  (l : list A) :
  (forall x, f x <= (if p x then n else 0))%nat ->
  (list_sum (map f l) <= n * List.length (filter p l))%nat.
Proof.
  intros H. induction l as [|x l IH]; simpl; [lia|].
  specialize (H x). destruct (p x); simpl; lia.
Qed.

(** The logs counted for a week are at most seven per active habit. *)
Lemma logs_in_window_bound db user_id week_start :
  one_log_per_day db ->
  0 <= logs_in_window db user_id week_start (week_start + 6)
    <= len (query_habits db user_id) * 7.
Proof.
  intros Hone. unfold logs_in_window, count_logs, len.
  split; [lia|].
  unfold join_habit. rewrite filter_flat_map_length.
  erewrite map_ext.
  2:{ intros l. rewrite filter_map_pair_length, filter_filter_and.
      apply filter_length_sum. }
  rewrite list_sum_swap.
  match goal with
  | |- Z.of_nat (list_sum (map ?f _)) <= _ =>
      assert (Hpoint : forall h,
                 Nat.le (f h)
                   (if (Habit.user_id h =? user_id)
                       && negb (Habit.is_deleted h)
                    then 7%nat else 0%nat))
  end.
  2:{ pose proof (list_sum_bound _ _ _ (habits db) Hpoint) as Hsum.
      unfold query_habits. unfold Nat.le in Hsum. lia. }
  intros h. cbv beta. rewrite <- filter_length_sum.
  destruct ((Habit.user_id h =? user_id) && negb (Habit.is_deleted h))
    eqn:Hactive.
  - eapply Nat.le_trans;
      [|apply (logs_in_days db (Habit.id h) week_start 7 Hone)].
    apply filter_length_le. intros l Hl.
    apply andb_prop in Hl as [Hid Hrest].
    apply andb_prop in Hrest as [_ Hwin].
    apply andb_prop in Hwin as [Hlo Hhi].
    apply Z.eqb_eq in Hid. apply Z.leb_le in Hhi.
    rewrite <- Hid, Z.eqb_refl, Hlo. simpl. apply Z.ltb_lt. lia.
  - rewrite (first_none_filter _ (habit_logs db)); [apply Nat.le_refl|].
    apply first_none_all. intros l _. simpl. now rewrite andb_false_r.
Qed.

Lemma float_of_ratio_same p :
  float_of_ratio (Zpos p) p = S754_finite false 4503599627370496 (-52).
Proof.
  unfold float_of_ratio, SFdiv_core_binary.
  replace (Zdigits2 (Zpos p) + 0 - (Zdigits2 (Zpos p) + 0)) with 0 by lia.
  change (Z.min (fexp prec emax 0) (0 - 0)) with (-53).
  change (0 - 0 - -53) with 53.
  cbv iota. rewrite Z.shiftl_mul_pow2 by lia.
  pose proof (Z_div_mod (Zpos p * 2 ^ 53) (Zpos p) ltac:(lia)) as Hdm.
  destruct (Z.div_eucl (Zpos p * 2 ^ 53) (Zpos p)) as [q r].
  destruct Hdm as [Hdm Hr].
  assert (Hq : q = 2 ^ 53)
    by (remember (2 ^ 53) as K eqn:HK; clear HK; nia).
  assert (Hr0 : r = 0) by (subst q; lia).
  subst q r.
  rewrite new_location_exact by reflexivity.
  vm_compute. reflexivity.
Qed.

(** X28: the rate [round((part / total * 100) if total else 0)] of a part in
    a whole never raises and is a whole number of percent between 0 and
    100; it is 0 for an empty part or an empty whole and 100 for the
    whole. *)
Theorem rate_is_a_percentage (part total : Z) :
  0 <= part <= total ->
  exists r,
    rate part total = Ok r
    /\ 0 <= r <= 100
    /\ (part = 0 \/ total = 0 -> r = 0)
    /\ (part = total -> 0 < total -> r = 100).
Proof.
  intros Hp.
  destruct (rate_of_part part total Hp) as (r & Hr & Hrange).
  exists r. split; [exact Hr|]. split; [exact Hrange|]. split.
  - intros [-> | ->].
    + destruct total as [|d|d]; [| |lia];
        vm_compute in Hr; congruence.
    + rewrite rate_zero_total in Hr. congruence.
  - intros -> Hpos. destruct total as [|d|d]; try lia.
    unfold rate, percentage in Hr.
    cbn [Z.eqb negb int_truediv bind] in Hr.
    rewrite float_of_ratio_same in Hr.
    vm_compute in Hr. congruence.
Qed.

(** Six tasks out of ten. *)
Lemma rate_is_a_percentage_witness :
  0 <= 6 <= 10
  /\ (exists r,
      rate 6 10 = Ok r
      /\ 0 <= r <= 100
      /\ (6 = 0 \/ 10 = 0 -> r = 0)
      /\ (6 = 10 -> 0 < 10 -> r = 100)).
Proof.
  assert (H1 : 0 <= 6 <= 10)
    by (lia).
  exact
    (conj H1 (rate_is_a_percentage 6 10 H1)).
Defined.

(* ===================================================================== *)
(** ** The weekly report of a well-formed database *)
(* ===================================================================== *)

Lemma best_streak_loop_returns db today hs :
  log_dates_in_range db ->
  2 <= today <= _MAXORDINAL ->
  forall best_habit best_streak,
  exists r, best_streak_loop db today hs best_habit best_streak = Ok r.
Proof.
  intros Hrange Ht. induction hs as [|h hs IH]; intros bh bs; simpl.
  - eauto.
  - destruct (streak_loop_returns (query_completed_logs db (Habit.id h))
                today Ht) with (streak := 0) (is_logged_today := false)
      (check_date := today) as (s & b & Hs).
    + intros l Hl. apply query_completed_logs_in in Hl as (Hl & _).
      now apply Hrange.
    + unfold _calculate_streak. rewrite Hs. simpl.
      destruct (bs <? s); apply IH.
Qed.

Lemma report_draft_returns db user today :
  one_log_per_day db ->
  log_dates_in_range db ->
  8 <= today <= _MAXORDINAL ->
  exists d,
    report_draft db user today = Ok d
    /\ draft_week_start d = today - 7
    /\ draft_week_end d = today - 1
    /\ 0 <= draft_score d <= 100.
Proof.
  intros Hone Hrange Ht. unfold report_draft.
  rewrite week_window_eq by assumption. cbn [bind].
  pose proof (logs_in_window_bound db (User.id user) (today - 7) Hone)
    as Hlogs.
  replace (today - 7 + 6) with (today - 1) in Hlogs by lia.
  destruct (rate_of_part _ _ Hlogs) as (habit_rate & Hh & Hhr).
  rewrite Hh. cbn [bind].
  destruct (rate_of_part (completed_tasks_of db (User.id user))
              (len (query_tasks db (User.id user))))
    as (task_rate & Htr & Httr);
    [apply count_if_bounds|].
  rewrite Htr. cbn [bind].
  destruct (productivity_within (float_of_int task_rate)
              (float_of_int habit_rate))
    as (score & Hscore & Hsr);
    [now apply float_of_int_in_range .. |].
  unfold productivity, py_round, number_to_float. rewrite Hscore.
  cbn [bind].
  assert (Ht2 : 2 <= today <= _MAXORDINAL) by lia.
  destruct (best_streak_loop_returns db today
              (query_habits db (User.id user)) Hrange Ht2 None 0)
    as ([best best_streak] & Hbest).
  rewrite Hbest. cbn [bind]. eexists. split; [reflexivity|].
  cbn [draft_week_start draft_week_end draft_score]. auto.
Qed.

(** X29: on a database with one log per habit and day and all log dates in
    range, from the eighth day of the calendar on,
    [generate_weekly_report] cannot fail: it returns a report whose score
    lies between 0 and 100 and stores it for the week that starts seven
    days before today. *)
Theorem weekly_report_is_produced (db : Session) (user : User.t)
  (today : date) (now : datetime) :
  one_log_per_day db ->
  log_dates_in_range db ->
  8 <= today <= _MAXORDINAL ->
  exists db' r,
    generate_weekly_report db user today now = Ok (db', r)
    /\ 0 <= Report.score r <= 100
    /\ has_report db' (User.id user) (today - 7) (Report.report r)
         (Report.score r)
    /\ users db' = users db /\ tasks db' = tasks db
    /\ habits db' = habits db /\ habit_logs db' = habit_logs db.
Proof.
  intros Hone Hrange Ht.
  destruct (report_draft_returns db user today Hone Hrange Ht)
    as (d & Hd & Hws & _ & Hscore).
  rewrite generate_weekly_report_eq, Hd. cbn [bind].
  eexists _, _. split; [reflexivity|].
  cbn [Report.score Report.report]. split; [exact Hscore|]. split.
  - rewrite <- Hws. apply save_report_has_report.
  - rewrite (save_report_frame db (User.id user) d now). now simpl.
Qed.

(** Ann's week of [Scenario.week_db]. *)
Lemma weekly_report_is_produced_witness :
  one_log_per_day Scenario.week_db
  /\ log_dates_in_range Scenario.week_db
  /\ 8 <= Scenario.today <= _MAXORDINAL
  /\ (exists db' r,
      generate_weekly_report Scenario.week_db Scenario.ann Scenario.today 1718180000 = Ok (db', r)
      /\ 0 <= Report.score r <= 100
      /\ has_report db' (User.id Scenario.ann) (Scenario.today - 7) (Report.report r)
           (Report.score r)
      /\ users db' = users Scenario.week_db /\ tasks db' = tasks Scenario.week_db
      /\ habits db' = habits Scenario.week_db /\ habit_logs db' = habit_logs Scenario.week_db).
Proof.
  assert (H1 : one_log_per_day Scenario.week_db)
    by (apply one_log_per_day_of_nodup; distinct_keys).
  assert (H2 : log_dates_in_range Scenario.week_db)
    by (intros l Hin; each_row Hin; compare_ints).
  assert (H3 : 8 <= Scenario.today <= _MAXORDINAL)
    by (compare_ints).
  exact
    (conj H1 (conj H2 (conj H3 (weekly_report_is_produced Scenario.week_db Scenario.ann Scenario.today 1718180000 H1 H2 H3)))).
Defined.

Lemma Forall2_map_r {A B : Type} (P : A -> B -> Prop) (f : A -> B)
  (l : list A) :
  (forall x, In x l -> P x (f x)) -> Forall2 P l (map f l).
Proof.
  induction l as [|x l IH]; intros H; simpl; constructor.
  - apply H. now left.
  - apply IH. intros y Hy. apply H. now right.
Qed.

(** X30: on a database with one log per habit and day, log dates in range
    and unique user and report ids, from the eighth day of the calendar
    on, the weekly job fails for nobody: besides its opening and closing records it logs one
    INFO record per user, in the order of the user table, and no ERROR,
    and afterwards every user has a report stored for the week, with a
    score between 0 and 100. *)
Theorem weekly_job_reports_everyone (w : World) (today : date)
  (now : datetime) :
  primary_keys (session w) ->
  NoDup (map User.id (users (session w))) ->
  one_log_per_day (session w) ->
  log_dates_in_range (session w) ->
  8 <= today <= _MAXORDINAL ->
  exists records,
    logged (fst (run_weekly_reports w today now))
    = logged w ++ [job_started] ++ records
      ++ [job_done (len (users (session w)))]
    /\ List.length records = List.length (users (session w))
    /\ Forall (fun r => level r = INFO) records
    /\ Forall2
         (fun u r =>
            exists text score,
              has_report (session (fst (run_weekly_reports w today now)))
                (User.id u) (today - 7) text score
              /\ 0 <= score <= 100
              /\ message r
                 = ("Report generated for " ++ User.email u ++ " " ++ em_dash
                    ++ " score: " ++ str_of_int score)%string)
         (users (session w)) records.
Proof.
  intros Hpk Hnd Hone Hrange Ht.
  unfold run_weekly_reports, get_all_users. cbn [fst session logged].
  set (w0 := mkWorld (session w) _).
  destruct (run_weekly_reports_loop_spec today now (users (session w)) w0
              Hpk Hnd) as (_ & _ & Hlog & _ & Hnew).
  cbn [session logged w0] in Hlog, Hnew.
  exists (map (job_record (session w) today) (users (session w))).
  split; [|split; [apply length_map|split]].
  - rewrite Hlog, <- !app_assoc. reflexivity.
  - apply Forall_forall. intros r Hr.
    apply in_map_iff in Hr as (u & <- & _). unfold job_record.
    destruct (report_draft_returns (session w) u today Hone Hrange Ht)
      as (d & -> & _). reflexivity.
  - assert (Hall : forall u, In u (users (session w)) ->
               exists text score,
                 has_report
                   (session (run_weekly_reports_loop (users (session w)) w0
                               today now))
                   (User.id u) (today - 7) text score
                 /\ 0 <= score <= 100
                 /\ message (job_record (session w) today u)
                    = ("Report generated for " ++ User.email u ++ " "
                       ++ em_dash ++ " score: " ++ str_of_int score)%string).
    { intros u Hu.
      destruct (report_draft_returns (session w) u today Hone Hrange Ht)
        as (d & Hd & Hws & _ & Hscore).
      exists (draft_text d), (draft_score d).
      split; [|split; [exact Hscore|]].
      - rewrite <- Hws. now apply Hnew.
      - unfold job_record. now rewrite Hd. }
    apply Forall2_map_r. exact Hall.
Qed.

(** The job on [Scenario.week_db], where Ann is the only user. *)
Lemma weekly_job_reports_everyone_witness :
  primary_keys (session Sample.week_world)
  /\ NoDup (map User.id (users (session Sample.week_world)))
  /\ one_log_per_day (session Sample.week_world)
  /\ log_dates_in_range (session Sample.week_world)
  /\ 8 <= Scenario.today <= _MAXORDINAL
  /\ (exists records,
      logged (fst (run_weekly_reports Sample.week_world Scenario.today 1718180000))
      = logged Sample.week_world ++ [job_started] ++ records
        ++ [job_done (len (users (session Sample.week_world)))]
      /\ List.length records = List.length (users (session Sample.week_world))
      /\ Forall (fun r => level r = INFO) records
      /\ Forall2
           (fun u r =>
              exists text score,
                has_report (session (fst (run_weekly_reports Sample.week_world Scenario.today 1718180000)))
                  (User.id u) (Scenario.today - 7) text score
                /\ 0 <= score <= 100
                /\ message r
                   = ("Report generated for " ++ User.email u ++ " " ++ em_dash
                      ++ " score: " ++ str_of_int score)%string)
           (users (session Sample.week_world)) records).
Proof.
  assert (H1 : primary_keys (session Sample.week_world))
    by (distinct_keys).
  assert (H2 : NoDup (map User.id (users (session Sample.week_world))))
    by (distinct_keys).
  assert (H3 : one_log_per_day (session Sample.week_world))
    by (apply one_log_per_day_of_nodup; distinct_keys).
  assert (H4 : log_dates_in_range (session Sample.week_world))
    by (intros l Hin; each_row Hin; compare_ints).
  assert (H5 : 8 <= Scenario.today <= _MAXORDINAL)
    by (compare_ints).
  exact
    (conj H1 (conj H2 (conj H3 (conj H4 (conj H5 (weekly_job_reports_everyone Sample.week_world Scenario.today 1718180000 H1 H2 H3 H4 H5)))))).
Defined.
